(** * terraform-provider-garage: handlers of the provider, embedded and verified

    The provider translates Terraform's resource lifecycle into calls
    against a Garage cluster.  This development embeds the handlers of
    [internal/provider] as Rocq functions:

    - values of the plugin framework ([types.String], [diag.Diagnostics],
      [tfsdk.State]) are small inductive types and records;
    - the admin client, the S3 client and the operating system are records
      of response functions (what the outside world answers);
    - a handler runs in a writer monad that logs every remote call it
      issues, and that can panic the way Go does on a nil dereference. *)

From Stdlib Require Import String Ascii List Bool Arith ZArith Lia.
Import ListNotations.

Local Open Scope string_scope.
Local Open Scope list_scope.

(** ** Go strings

    A Go string is a sequence of bytes; so is a Rocq [string]. *)

Definition len (s : string) : nat := String.length s.

(** [s[:m]] *)
Fixpoint slice_to (s : string) (m : nat) : string :=
  match m, s with
  | O, _ => EmptyString
  | S _, EmptyString => EmptyString
  | S m', String c s' => String c (slice_to s' m')
  end.

(** [s[m:]] *)
Fixpoint slice_from (s : string) (m : nat) : string :=
  match m, s with
  | O, _ => s
  | S _, EmptyString => EmptyString
  | S m', String _ s' => slice_from s' m'
  end.

(** [strings.HasPrefix] *)
Fixpoint HasPrefix (s pre : string) : bool :=
  match pre, s with
  | EmptyString, _ => true
  | String _ _, EmptyString => false
  | String a pre', String b s' => Ascii.eqb a b && HasPrefix s' pre'
  end.

(** [strings.Index]: the position of the first instance of [sep] in [s];
    Go's [-1] is [None]. *)
Fixpoint Index (s sep : string) : option nat :=
  if HasPrefix s sep then Some O
  else match s with
       | EmptyString => None
       | String _ s' => option_map S (Index s' sep)
       end.

(** ** [types]: framework values

    A framework string is null, unknown (not yet computed at plan time) or
    a known Go string. *)

Module types.

Inductive String := StringNull | StringUnknown | StringValue (s : string).

Definition IsNull (v : String) : bool :=
  match v with StringNull => true | _ => false end.

Definition IsUnknown (v : String) : bool :=
  match v with StringUnknown => true | _ => false end.

(** [ValueString] is the empty string for null and unknown values. *)
Definition ValueString (v : String) : string :=
  match v with StringValue s => s | _ => "" end.

Inductive Int64 := Int64Null | Int64Unknown | Int64Value (n : Z).

Inductive Bool := BoolNull | BoolUnknown | BoolValue (b : bool).

Inductive List := ListNull | ListUnknown | ListValue (elems : list String).

End types.

(** ** [diag]: diagnostics *)

Module diag.

Inductive Severity := SeverityError | SeverityWarning.

Record Diagnostic := NewDiagnostic
  { Severity_of : Severity; Summary : string; Detail : string }.

Definition NewErrorDiagnostic (summary detail : string) : Diagnostic :=
  NewDiagnostic SeverityError summary detail.

Definition Severity_eqb (a b : Severity) : bool :=
  match a, b with
  | SeverityError, SeverityError | SeverityWarning, SeverityWarning => true
  | _, _ => false
  end.

Definition Equal (a b : Diagnostic) : bool :=
  Severity_eqb (Severity_of a) (Severity_of b)
  && String.eqb (Summary a) (Summary b)
  && String.eqb (Detail a) (Detail b).

Definition Diagnostics := list Diagnostic.

Definition Contains (ds : Diagnostics) (d : Diagnostic) : bool :=
  existsb (fun d' => Equal d' d) ds.

(** [Append] skips a diagnostic the collection already holds. *)
Fixpoint Append (ds : Diagnostics) (new : list Diagnostic) : Diagnostics :=
  match new with
  | [] => ds
  | d :: rest => Append (if Contains ds d then ds else ds ++ [d]) rest
  end.

Definition AddError (ds : Diagnostics) (summary detail : string) : Diagnostics :=
  Append ds [NewErrorDiagnostic summary detail].

Definition HasError (ds : Diagnostics) : bool :=
  existsb (fun d => Severity_eqb (Severity_of d) SeverityError) ds.

End diag.

(** ** [tfsdk]: plan, configuration and state

    A plan, a configuration and a prior state hold an object of the schema;
    every model below has one field per schema attribute, so decoding into
    the model ([Get]) and encoding from it ([Set_], the framework's Set) add no diagnostics.  A
    state can also be null: nothing is tracked (before Create, after
    [RemoveResource]). *)

Module tfsdk.

Definition State (T : Type) := option T.

Definition Get {T : Type} (v : T) : T * diag.Diagnostics := (v, []).

Definition Set_ {T : Type} (st : State T) (v : T) : State T * diag.Diagnostics :=
  (Some v, []).

Definition RemoveResource {T : Type} (st : State T) : State T := None.

End tfsdk.

(** ** [resource] and [datasource]: requests and responses

    The response structs of the framework differ by handler; all of them
    carry the new state and the diagnostics, the two fields handlers write.
    The handler a response belongs to is kept as an index of its type. *)

Inductive Handler := OnCreate | OnRead | OnUpdate | OnImportState | OnDataRead.

Record Response (h : Handler) (T : Type) := mkResponse
  { State : tfsdk.State T; Diagnostics : diag.Diagnostics }.

Arguments mkResponse {h T} _ _.
Arguments State {h T} _.
Arguments Diagnostics {h T} _.

Definition CreateResponse := Response OnCreate.
Definition ReadResponse := Response OnRead.
Definition UpdateResponse := Response OnUpdate.
Definition ImportStateResponse := Response OnImportState.
Definition DataReadResponse := Response OnDataRead.

(** [resp.Diagnostics.Append(ds...)] *)
Definition Diagnostics_Append {h T} (resp : Response h T) (ds : list diag.Diagnostic)
  : Response h T :=
  mkResponse (State resp) (diag.Append (Diagnostics resp) ds).

(** [resp.Diagnostics.AddError(summary, detail)] *)
Definition Diagnostics_AddError {h T} (resp : Response h T) (summary detail : string)
  : Response h T :=
  mkResponse (State resp) (diag.AddError (Diagnostics resp) summary detail).

(** [resp.Diagnostics.Append(resp.State.Set(ctx, &data)...)] *)
Definition State_Set {h T} (resp : Response h T) (data : T) : Response h T :=
  let '(st, ds) := tfsdk.Set_ (State resp) data in
  Diagnostics_Append (mkResponse st (Diagnostics resp)) ds.

(** [resp.State.RemoveResource(ctx)] *)
Definition State_RemoveResource {h T} (resp : Response h T) : Response h T :=
  mkResponse (tfsdk.RemoveResource (State resp)) (Diagnostics resp).

(** [unsafe.Pointer(resp)] converted to a pointer to another response
    struct: the same memory read at another response type.  The two structs list the same fields in the
    same order, so each field is read back as it was written. *)
Definition unsafe_Pointer {h h' T} (resp : Response h T) : Response h' T :=
  mkResponse (State resp) (Diagnostics resp).

Record CreateRequest (T : Type) := mkCreateRequest { CreatePlan : T }.
Record ReadRequest (T : Type) := mkReadRequest { ReadState : T }.
Record UpdateRequest (T : Type) := mkUpdateRequest { UpdatePlan : T }.
Record ImportStateRequest := mkImportStateRequest { ImportID : string }.
Record DataReadRequest (T : Type) := mkDataReadRequest { ReadConfig : T }.

Arguments mkCreateRequest {T} _.
Arguments CreatePlan {T} _.
Arguments mkReadRequest {T} _.
Arguments ReadState {T} _.
Arguments mkUpdateRequest {T} _.
Arguments UpdatePlan {T} _.
Arguments mkDataReadRequest {T} _.
Arguments ReadConfig {T} _.

(** ** [client]: the admin API client

    The client package is an outside collaborator of the handlers.  Its
    structs carry the fields the handlers read and write; a method answers
    with Go's pair of a pointer (nil is [None]) and an error (nil is [None],
    otherwise the text of [err.Error()]). *)

Definition error := string.

Module client.

Module GetBucketInfoRequest.
Record t := mk { ID : option string; GlobalAlias : option string }.
End GetBucketInfoRequest.

Module WebsiteConfig.
Record t := mk { IndexDocument : string; ErrorDocument : string }.
End WebsiteConfig.

Module Quotas.
Record t := mk { MaxSize : option Z; MaxObjects : option Z }.
End Quotas.

Module Bucket.
Record t := mk
  { ID : string;
    GlobalAliases : list string;
    WebsiteAccess : bool;
    WebsiteConfig : option WebsiteConfig.t;
    Quotas : option Quotas.t;
    Objects : Z;
    Bytes : Z;
    UnfinishedUploads : Z }.
End Bucket.

Module ImportKeyRequest.
Record t := mk
  { AccessKeyID : string; SecretAccessKey : string; Name : option string }.
End ImportKeyRequest.

Module CreateKeyRequest.
Record t := mk { Name : option string }.
End CreateKeyRequest.

Module GetKeyInfoRequest.
Record t := mk { ID : string }.
End GetKeyInfoRequest.

Module Key.
Record t := mk
  { AccessKeyID : string; Name : string; SecretAccessKey : option string }.
End Key.

(** What the cluster answers to each request. *)
Record Client := NewClient
  { GetBucketInfo : GetBucketInfoRequest.t -> option Bucket.t * option error;
    ImportKey : ImportKeyRequest.t -> option Key.t * option error;
    CreateKey : CreateKeyRequest.t -> option Key.t * option error;
    GetKeyInfo : GetKeyInfoRequest.t -> option Key.t * option error }.

End client.

(** ** [s3]: the object API client of the AWS SDK *)

Module s3.

Module PutObjectInput.
Record t := mk
  { Bucket : option string;
    Key : option string;
    Body : string;
    ContentType : option string }.
End PutObjectInput.

Module PutObjectOutput.
Record t := mk { ETag : option string }.
End PutObjectOutput.

Module HeadObjectInput.
Record t := mk { Bucket : option string; Key : option string }.
End HeadObjectInput.

Module HeadObjectOutput.
Record t := mk { ETag : option string; ContentType : option string }.
End HeadObjectOutput.

Record Client := NewFromConfig
  { PutObject : PutObjectInput.t -> option PutObjectOutput.t * option error;
    HeadObject : HeadObjectInput.t -> option HeadObjectOutput.t * option error }.

End s3.

(** [aws.String] *)
Definition aws_String (s : string) : option string := Some s.

(** ** [os]: files and environment

    [Open] answers with the bytes the opened file yields to a reader, or
    with an error; [Getenv] is the empty string for an unset variable. *)

Module os.

Record t := mk
  { Open : string -> string + error;
    Getenv : string -> string }.

End os.

(** ** Handlers as computations

    A handler returns its response together with the remote calls it
    issued, in order.  A nil dereference panics: the handler stops, and the
    calls issued so far stay issued. *)

Inductive Call :=
| CallGetBucketInfo (req : client.GetBucketInfoRequest.t)
| CallImportKey (req : client.ImportKeyRequest.t)
| CallCreateKey (req : client.CreateKeyRequest.t)
| CallGetKeyInfo (req : client.GetKeyInfoRequest.t)
| CallPutObject (input : s3.PutObjectInput.t)
| CallHeadObject (input : s3.HeadObjectInput.t).

Inductive Outcome (A : Type) :=
| Returned (a : A)
| Panicked (msg : string).

Arguments Returned {A} _.
Arguments Panicked {A} _.

Definition M (A : Type) : Type := Outcome A * list Call.

Definition ret {A} (a : A) : M A := (Returned a, []).

Definition bind {A B} (m : M A) (f : A -> M B) : M B :=
  match m with
  | (Returned a, t) => let '(r, t') := f a in (r, t ++ t')
  | (Panicked msg, t) => (Panicked msg, t)
  end.

Definition panic {A} (msg : string) : M A := (Panicked msg, []).

(** Issue a remote call and receive its answer. *)
Definition call {A} (c : Call) (answer : A) : M A := (Returned answer, [c]).

Definition nil_dereference : string :=
  "runtime error: invalid memory address or nil pointer dereference".

(** [*p] *)
Definition deref {A} (p : option A) : M A :=
  match p with
  | Some a => ret a
  | None => panic nil_dereference
  end.

Declare Scope handler_scope.
Delimit Scope handler_scope with handler.

Notation "x <- m ;; k" := (bind m (fun x => k))
  (at level 61, m at next level, right associativity) : handler_scope.
Notation "' p <- m ;; k" := (bind m (fun x => let p := x in k))
  (at level 61, p pattern, m at next level, right associativity) : handler_scope.

Definition outcome {A} (m : M A) : Outcome A := fst m.
Definition calls {A} (m : M A) : list Call := snd m.

Local Open Scope handler_scope.

(** ** The access-key resource *)

Module KeyResourceModel.
Record t := mk
  { ID : types.String; Name : types.String; SecretAccessKey : types.String }.
End KeyResourceModel.

Module KeyResource.

Import types.

Record t := mk { client : client.Client }.

Definition Create (r : t) (req : CreateRequest KeyResourceModel.t)
    (resp : CreateResponse KeyResourceModel.t) : M (CreateResponse KeyResourceModel.t) :=
  let '(data, diags) := tfsdk.Get (CreatePlan req) in
  let resp := Diagnostics_Append resp diags in
  if diag.HasError (Diagnostics resp) then ret resp else
  (* Determine whether to use ImportKey or CreateKey *)
  let hasID := negb (IsNull (KeyResourceModel.ID data))
               && negb (IsUnknown (KeyResourceModel.ID data)) in
  let hasSecret := negb (IsNull (KeyResourceModel.SecretAccessKey data))
                   && negb (IsUnknown (KeyResourceModel.SecretAccessKey data)) in
  if hasID && hasSecret then
    let importReq :=
      client.ImportKeyRequest.mk
        (ValueString (KeyResourceModel.ID data))
        (ValueString (KeyResourceModel.SecretAccessKey data))
        (if negb (IsNull (KeyResourceModel.Name data))
         then Some (ValueString (KeyResourceModel.Name data)) else None) in
    '(key, err) <- call (CallImportKey importReq) (client.ImportKey (client r) importReq) ;;
    match err with
    | Some e =>
        ret (Diagnostics_AddError resp "Client Error"
               ("Unable to import access key, got error: " ++ e))
    | None =>
        key <- deref key ;;
        let data :=
          KeyResourceModel.mk
            (StringValue (client.Key.AccessKeyID key))
            (StringValue (client.Key.Name key))
            (* Keep the provided secret *)
            (StringValue (ValueString (KeyResourceModel.SecretAccessKey data))) in
        ret (State_Set resp data)
    end
  else if negb hasID && negb hasSecret then
    let createReq :=
      client.CreateKeyRequest.mk
        (if negb (IsNull (KeyResourceModel.Name data))
         then Some (ValueString (KeyResourceModel.Name data)) else None) in
    '(key, err) <- call (CallCreateKey createReq) (client.CreateKey (client r) createReq) ;;
    match err with
    | Some e =>
        ret (Diagnostics_AddError resp "Client Error"
               ("Unable to create access key, got error: " ++ e))
    | None =>
        key <- deref key ;;
        let data :=
          KeyResourceModel.mk
            (StringValue (client.Key.AccessKeyID key))
            (StringValue (client.Key.Name key))
            (match client.Key.SecretAccessKey key with
             | Some secret => StringValue secret
             | None => KeyResourceModel.SecretAccessKey data
             end) in
        ret (State_Set resp data)
    end
  else
    (* Invalid combination: only one of ID or secret provided *)
    ret (Diagnostics_AddError resp "Invalid Configuration"
           "Both 'id' and 'secret_access_key' must be provided together when importing a key, or neither should be provided to generate a new key.").

Definition Read (r : t) (req : ReadRequest KeyResourceModel.t)
    (resp : ReadResponse KeyResourceModel.t) : M (ReadResponse KeyResourceModel.t) :=
  let '(data, diags) := tfsdk.Get (ReadState req) in
  let resp := Diagnostics_Append resp diags in
  if diag.HasError (Diagnostics resp) then ret resp else
  let keyID := ValueString (KeyResourceModel.ID data) in
  let getReq := client.GetKeyInfoRequest.mk keyID in
  '(key, err) <- call (CallGetKeyInfo getReq) (client.GetKeyInfo (client r) getReq) ;;
  match err with
  | Some e =>
      ret (Diagnostics_AddError resp "Client Error"
             ("Unable to read access key, got error: " ++ e))
  | None =>
      match key with
      | None => ret (State_RemoveResource resp)
      | Some key =>
          (* SecretAccessKey is not returned by GetKeyInfo, the existing
             value is kept *)
          let data :=
            KeyResourceModel.mk
              (StringValue (client.Key.AccessKeyID key))
              (StringValue (client.Key.Name key))
              (KeyResourceModel.SecretAccessKey data) in
          ret (State_Set resp data)
      end
  end.

Definition Update (r : t) (req : UpdateRequest KeyResourceModel.t)
    (resp : UpdateResponse KeyResourceModel.t) : M (UpdateResponse KeyResourceModel.t) :=
  let '(data, diags) := tfsdk.Get (UpdatePlan req) in
  let resp := Diagnostics_Append resp diags in
  if diag.HasError (Diagnostics resp) then ret resp else
  (* UpdateKey is available in the API but not called *)
  ret (State_Set resp data).

End KeyResource.

(** ** The bucket data source *)

Module BucketDataSourceModel.
Record t := mk
  { ID : types.String;
    GlobalAlias : types.String;
    GlobalAliases : types.List;
    WebsiteEnabled : types.Bool;
    WebsiteIndex : types.String;
    WebsiteError : types.String;
    MaxSize : types.Int64;
    MaxObjects : types.Int64;
    Objects : types.Int64;
    Bytes : types.Int64;
    UnfinishedUploads : types.Int64 }.
End BucketDataSourceModel.

(** [types.ListValueFrom(ctx, types.StringType, elems)] on framework
    strings: the list of these elements, no diagnostics. *)
Definition ListValueFrom (elems : list types.String) : types.List * diag.Diagnostics :=
  (types.ListValue elems, []).

Module BucketDataSource.

Import types.

Record t := mk { client : client.Client }.

Definition Read (d : t) (req : DataReadRequest BucketDataSourceModel.t)
    (resp : DataReadResponse BucketDataSourceModel.t)
  : M (DataReadResponse BucketDataSourceModel.t) :=
  let '(data, diags) := tfsdk.Get (ReadConfig req) in
  let resp := Diagnostics_Append resp diags in
  if diag.HasError (Diagnostics resp) then ret resp else
  (* Validate that either ID or GlobalAlias is provided *)
  if IsNull (BucketDataSourceModel.ID data)
     && IsNull (BucketDataSourceModel.GlobalAlias data) then
    ret (Diagnostics_AddError resp "Missing Required Attribute"
           "Either 'id' or 'global_alias' must be specified.")
  else
  (* Build request *)
  let getBucketReq :=
    client.GetBucketInfoRequest.mk
      (if negb (IsNull (BucketDataSourceModel.ID data))
       then Some (ValueString (BucketDataSourceModel.ID data)) else None)
      (if negb (IsNull (BucketDataSourceModel.GlobalAlias data))
       then Some (ValueString (BucketDataSourceModel.GlobalAlias data)) else None) in
  (* Fetch bucket info *)
  '(bucket, err) <- call (CallGetBucketInfo getBucketReq)
                         (client.GetBucketInfo (client d) getBucketReq) ;;
  match err with
  | Some e =>
      ret (Diagnostics_AddError resp "Client Error"
             ("Unable to read bucket, got error: " ++ e))
  | None =>
      match bucket with
      | None =>
          ret (Diagnostics_AddError resp "Bucket Not Found"
                 "The specified bucket could not be found.")
      | Some bucket =>
          (* Populate data model *)
          let aliases := client.Bucket.GlobalAliases bucket in
          let '(aliasList, listDiags) := ListValueFrom (map StringValue aliases) in
          let resp := Diagnostics_Append resp listDiags in
          let data :=
            BucketDataSourceModel.mk
              (StringValue (client.Bucket.ID bucket))
              (match aliases with
               | first :: _ => StringValue first
               | [] => StringNull
               end)
              aliasList
              (BoolValue (client.Bucket.WebsiteAccess bucket))
              (match client.Bucket.WebsiteConfig bucket with
               | Some w => StringValue (client.WebsiteConfig.IndexDocument w)
               | None => StringNull
               end)
              (match client.Bucket.WebsiteConfig bucket with
               | Some w => StringValue (client.WebsiteConfig.ErrorDocument w)
               | None => StringNull
               end)
              (match client.Bucket.Quotas bucket with
               | Some q =>
                   match client.Quotas.MaxSize q with
                   | Some n => Int64Value n
                   | None => Int64Null
                   end
               | None => Int64Null
               end)
              (match client.Bucket.Quotas bucket with
               | Some q =>
                   match client.Quotas.MaxObjects q with
                   | Some n => Int64Value n
                   | None => Int64Null
                   end
               | None => Int64Null
               end)
              (Int64Value (client.Bucket.Objects bucket))
              (Int64Value (client.Bucket.Bytes bucket))
              (Int64Value (client.Bucket.UnfinishedUploads bucket)) in
          ret (State_Set resp data)
      end
  end.

End BucketDataSource.

(** ** [strings]: splitting and replacing

    Separators and patterns of the handlers are never empty.  For an empty
    one Go works rune by rune; the functions below then work byte by byte,
    which is the same on ASCII text. *)

Module strings.

Fixpoint countLoop (fuel : nat) (s sep : string) : nat :=
  match fuel with
  | O => O
  | S fuel' =>
      match Index s sep with
      | None => O
      | Some i => S (countLoop fuel' (slice_from s (i + len sep)) sep)
      end
  end.

(** [strings.Count]: the number of non-overlapping instances of [sep]. *)
Definition Count (s sep : string) : nat :=
  if String.eqb sep "" then len s + 1 else countLoop (len s) s sep.

Fixpoint explodeLoop (n : nat) (s : string) : list string :=
  match n, s with
  | S n', String c s' => String c EmptyString :: explodeLoop n' s'
  | _, _ => [s]
  end.

Definition explode (s : string) (n : Z) : list string :=
  let l := Z.of_nat (len s) in
  let n := if (n <? 0)%Z || (n >? l)%Z then l else n in
  if (n >? 0)%Z then explodeLoop (Z.to_nat (n - 1)) s else [].

Fixpoint genSplitLoop (n : nat) (s sep : string) : list string :=
  match n with
  | O => [s]
  | S n' =>
      match Index s sep with
      | None => [s]
      | Some m => slice_to s m :: genSplitLoop n' (slice_from s (m + len sep)) sep
      end
  end.

(** [strings.SplitN]: at most [n] substrings of [s] between instances of
    [sep]; the last one is the unsplit remainder. *)
Definition SplitN (s sep : string) (n : Z) : list string :=
  if (n =? 0)%Z then []
  else if String.eqb sep "" then explode s n
  else
    let n := if (n <? 0)%Z then (Z.of_nat (Count s sep) + 1)%Z else n in
    let n := if (n >? Z.of_nat (len s) + 1)%Z then (Z.of_nat (len s) + 1)%Z else n in
    genSplitLoop (Z.to_nat (n - 1)) s sep.

Fixpoint replaceLoop (n : nat) (s old new : string) : string :=
  match n with
  | O => s
  | S n' =>
      match Index s old with
      | None => s
      | Some j => slice_to s j ++ new ++ replaceLoop n' (slice_from s (j + len old)) old new
      end
  end.

Fixpoint replaceEmptyLoop (n : nat) (s new : string) : string :=
  match n, s with
  | S n', String c s' => String c (new ++ replaceEmptyLoop n' s' new)
  | _, _ => s
  end.

(** [strings.Replace]: [s] with the first [n] non-overlapping instances of
    [old] replaced by [new]; all of them when [n < 0]. *)
Definition Replace (s old new : string) (n : Z) : string :=
  if String.eqb old new || (n =? 0)%Z then s
  else
    let m := Z.of_nat (Count s old) in
    if (m =? 0)%Z then s
    else
      let n := if (n <? 0)%Z || (m <? n)%Z then m else n in
      if String.eqb old "" then new ++ replaceEmptyLoop (Z.to_nat (n - 1)) s new
      else replaceLoop (Z.to_nat n) s old new.

End strings.

(** ** The object resource *)

(** The attributes of the object schema, as [path.Root] names them. *)
Module path.
Inductive Root := bucket | key | source | content | content_type | etag | id.
End path.

Module GarageObjectResourceModel.

Record t := mk
  { Bucket : types.String;
    Key : types.String;
    Source : types.String;
    Content : types.String;
    ContentType : types.String;
    ETag : types.String;
    ID : types.String }.

(** The object whose attributes are all null. *)
Definition null : t :=
  mk types.StringNull types.StringNull types.StringNull types.StringNull
     types.StringNull types.StringNull types.StringNull.

Definition with_attribute (m : t) (a : path.Root) (v : types.String) : t :=
  match a with
  | path.bucket => mk v (Key m) (Source m) (Content m) (ContentType m) (ETag m) (ID m)
  | path.key => mk (Bucket m) v (Source m) (Content m) (ContentType m) (ETag m) (ID m)
  | path.source => mk (Bucket m) (Key m) v (Content m) (ContentType m) (ETag m) (ID m)
  | path.content => mk (Bucket m) (Key m) (Source m) v (ContentType m) (ETag m) (ID m)
  | path.content_type => mk (Bucket m) (Key m) (Source m) (Content m) v (ETag m) (ID m)
  | path.etag => mk (Bucket m) (Key m) (Source m) (Content m) (ContentType m) v (ID m)
  | path.id => mk (Bucket m) (Key m) (Source m) (Content m) (ContentType m) (ETag m) v
  end.

(** [State.SetAttribute(ctx, path.Root(a), v)] for a Go string [v]: the
    attribute is written; in a null state the object is first created with
    every attribute null. *)
Definition SetAttribute (st : tfsdk.State t) (a : path.Root) (v : string)
  : tfsdk.State t * diag.Diagnostics :=
  let m := match st with Some m => m | None => null end in
  (Some (with_attribute m a (types.StringValue v)), []).

End GarageObjectResourceModel.

(** [resp.Diagnostics.Append(resp.State.SetAttribute(ctx, path.Root(a), v)...)] *)
Definition State_SetAttribute {h} (resp : Response h GarageObjectResourceModel.t)
    (a : path.Root) (v : string)
  : Response h GarageObjectResourceModel.t :=
  let '(st, ds) := GarageObjectResourceModel.SetAttribute (State resp) a v in
  Diagnostics_Append (mkResponse st (Diagnostics resp)) ds.

Module GarageObjectResource.

Import types.
Import GarageObjectResourceModel.

Record t := mk { s3Client : s3.Client }.

Section WithOS.

Variable OS : os.t.

Definition Create (r : t) (req : CreateRequest GarageObjectResourceModel.t)
    (resp : CreateResponse GarageObjectResourceModel.t)
  : M (CreateResponse GarageObjectResourceModel.t) :=
  let '(plan, diags) := tfsdk.Get (CreatePlan req) in
  let resp := Diagnostics_Append resp diags in
  if diag.HasError (Diagnostics resp) then ret resp else
  (* Prepare object content: the body and its content type, or the response
     of an early return *)
  let prepared : string * string + CreateResponse GarageObjectResourceModel.t :=
    if negb (IsNull (Source plan)) then
      match os.Open OS (ValueString (Source plan)) with
      | inr e => inr (Diagnostics_AddError resp "File Read Error" e)
      | inl file =>
          inl (file,
               if IsNull (ContentType plan) then "application/octet-stream"
               else ValueString (ContentType plan))
      end
    else if negb (IsNull (Content plan)) then
      inl (ValueString (Content plan),
           if IsNull (ContentType plan) then "text/plain"
           else ValueString (ContentType plan))
    else
      inr (Diagnostics_AddError resp "Missing Content"
             "Either source or content must be specified") in
  match prepared with
  | inr resp => ret resp
  | inl (body, contentType) =>
      (* Upload object *)
      let input :=
        s3.PutObjectInput.mk
          (aws_String (ValueString (Bucket plan)))
          (aws_String (ValueString (Key plan)))
          body
          (aws_String contentType) in
      '(putOutput, err) <- call (CallPutObject input) (s3.PutObject (s3Client r) input) ;;
      match err with
      | Some e => ret (Diagnostics_AddError resp "Object Upload Failed" e)
      | None =>
          (* Set computed values *)
          putOutput <- deref putOutput ;;
          etag <- deref (s3.PutObjectOutput.ETag putOutput) ;;
          let plan :=
            GarageObjectResourceModel.mk
              (Bucket plan) (Key plan) (Source plan) (Content plan)
              (StringValue contentType)
              (StringValue etag)
              (StringValue (ValueString (Bucket plan) ++ "/" ++ ValueString (Key plan))) in
          ret (State_Set resp plan)
      end
  end.

Definition Read (r : t) (req : ReadRequest GarageObjectResourceModel.t)
    (resp : ReadResponse GarageObjectResourceModel.t)
  : M (ReadResponse GarageObjectResourceModel.t) :=
  let '(state, diags) := tfsdk.Get (ReadState req) in
  let resp := Diagnostics_Append resp diags in
  if diag.HasError (Diagnostics resp) then ret resp else
  (* Check if object exists *)
  let input :=
    s3.HeadObjectInput.mk
      (aws_String (ValueString (Bucket state)))
      (aws_String (ValueString (Key state))) in
  '(headOutput, err) <- call (CallHeadObject input) (s3.HeadObject (s3Client r) input) ;;
  match err with
  | Some _ => ret (State_RemoveResource resp)
  | None =>
      (* Update state with current metadata *)
      headOutput <- deref headOutput ;;
      etag <- deref (s3.HeadObjectOutput.ETag headOutput) ;;
      let state :=
        GarageObjectResourceModel.mk
          (Bucket state) (Key state) (Source state) (Content state)
          (match s3.HeadObjectOutput.ContentType headOutput with
           | Some ct => StringValue ct
           | None => ContentType state
           end)
          (StringValue etag)
          (ID state) in
      ret (State_Set resp state)
  end.

(** Update hands its own response to Create, read as a Create response;
    what Create writes there is what Update leaves behind. *)
Definition Update (r : t) (req : UpdateRequest GarageObjectResourceModel.t)
    (resp : UpdateResponse GarageObjectResourceModel.t)
  : M (UpdateResponse GarageObjectResourceModel.t) :=
  resp' <- Create r (mkCreateRequest (UpdatePlan req)) (unsafe_Pointer resp) ;;
  ret (unsafe_Pointer resp').

End WithOS.

Definition ImportState (r : t) (req : ImportStateRequest)
    (resp : ImportStateResponse GarageObjectResourceModel.t)
  : M (ImportStateResponse GarageObjectResourceModel.t) :=
  (* Import format: bucket/key; everything after the first / is the key *)
  let parts := strings.SplitN (ImportID req) "/" 2 in
  match parts with
  | [bucket; key] =>
      let resp := State_SetAttribute resp path.bucket bucket in
      let resp := State_SetAttribute resp path.key key in
      let resp := State_SetAttribute resp path.id (ImportID req) in
      ret resp
  | _ =>
      ret (Diagnostics_AddError resp "Invalid Import ID"
             ("Expected import ID in format 'bucket/key', got: " ++ ImportID req))
  end.

End GarageObjectResource.

(** ** The provider *)

Module EndpointsModel.
Record t := mk { Admin : types.String; S3 : types.String }.
End EndpointsModel.

Module GarageProviderModel.
Record t := mk
  { Endpoint : types.String;
    Token : types.String;
    Endpoints : option EndpointsModel.t;
    AccessKey : types.String;
    SecretKey : types.String }.
End GarageProviderModel.

Module provider.

Record ConfigureRequest := mkConfigureRequest { Config : GarageProviderModel.t }.

Record ConfigureResponse := mkConfigureResponse
  { DataSourceData : option GarageProviderModel.t;
    ResourceData : option GarageProviderModel.t;
    Diagnostics : diag.Diagnostics }.

End provider.

Module GarageProvider.

Import types.

(** Helper function to replace port in endpoint URL. *)
Definition replacePort (endpoint oldPort newPort : string) : string :=
  strings.Replace endpoint (":" ++ oldPort) (":" ++ newPort) 1.

Section WithOS.

Variable OS : os.t.

Definition Configure (req : provider.ConfigureRequest) (resp : provider.ConfigureResponse)
  : provider.ConfigureResponse :=
  let '(config, diags) := tfsdk.Get (provider.Config req) in
  let resp :=
    provider.mkConfigureResponse
      (provider.DataSourceData resp) (provider.ResourceData resp)
      (diag.Append (provider.Diagnostics resp) diags) in
  if diag.HasError (provider.Diagnostics resp) then resp else
  (* Handle backwards compatibility *)
  let adminEndpoint := "" in
  let s3Endpoint := "" in
  let '(adminEndpoint, s3Endpoint) :=
    match GarageProviderModel.Endpoints config with
    | Some endpoints =>
        (* New endpoints block takes precedence *)
        (if negb (IsNull (EndpointsModel.Admin endpoints))
         then ValueString (EndpointsModel.Admin endpoints) else adminEndpoint,
         if negb (IsNull (EndpointsModel.S3 endpoints))
         then ValueString (EndpointsModel.S3 endpoints) else s3Endpoint)
    | None => (adminEndpoint, s3Endpoint)
    end in
  (* Fall back to deprecated 'endpoint' attribute if endpoints block not used *)
  let '(adminEndpoint, s3Endpoint) :=
    if String.eqb adminEndpoint "" && negb (IsNull (GarageProviderModel.Endpoint config))
    then
      let adminEndpoint := ValueString (GarageProviderModel.Endpoint config) in
      (* If using old config, default S3 to port 3900 on same host *)
      (adminEndpoint,
       if String.eqb s3Endpoint "" then replacePort adminEndpoint "3903" "3900"
       else s3Endpoint)
    else (adminEndpoint, s3Endpoint) in
  (* Environment variable fallback for S3 credentials *)
  let accessKey := ValueString (GarageProviderModel.AccessKey config) in
  let accessKey :=
    if String.eqb accessKey "" then os.Getenv OS "GARAGE_ACCESS_KEY" else accessKey in
  let secretKey := ValueString (GarageProviderModel.SecretKey config) in
  let secretKey :=
    if String.eqb secretKey "" then os.Getenv OS "GARAGE_SECRET_KEY" else secretKey in
  (* Validation *)
  if String.eqb adminEndpoint "" then
    provider.mkConfigureResponse
      (provider.DataSourceData resp) (provider.ResourceData resp)
      (diag.AddError (provider.Diagnostics resp) "Missing Admin Endpoint"
         "Either 'endpoints.admin' or deprecated 'endpoint' must be configured")
  else
    (* Store in provider data with both endpoints *)
    let providerData :=
      GarageProviderModel.mk
        (StringValue adminEndpoint)
        (GarageProviderModel.Token config)
        (Some (EndpointsModel.mk (StringValue adminEndpoint) (StringValue s3Endpoint)))
        (StringValue accessKey)
        (StringValue secretKey) in
    provider.mkConfigureResponse (Some providerData) (Some providerData)
      (provider.Diagnostics resp).

End WithOS.

End GarageProvider.

(** ** Vocabulary of the properties *)

(** An attribute of a plan is supplied when it is neither null nor unknown. *)
Definition supplied (v : types.String) : bool :=
  negb (types.IsNull v) && negb (types.IsUnknown v).

(** [*string] built from an optional attribute: a pointer to its value
    unless it is null. *)
Definition pointer_unless_null (v : types.String) : option string :=
  if negb (types.IsNull v) then Some (types.ValueString v) else None.

(** The response a handler receives from the framework before it has
    written anything: [st] is the prior state (null for Create and for a
    data source), and there are no diagnostics. *)
Definition initial_response {h T} (st : tfsdk.State T) : Response h T :=
  mkResponse st [].

(** An error with this summary is among the diagnostics. *)
Definition reported (ds : diag.Diagnostics) (summary : string) : bool :=
  existsb (fun d => diag.Severity_eqb (diag.Severity_of d) diag.SeverityError
                    && String.eqb (diag.Summary d) summary) ds.

(** A read succeeded: a state was written and no error was reported. *)
Definition succeeded {h T} (resp : Response h T) : bool :=
  match State resp with Some _ => true | None => false end
  && negb (diag.HasError (Diagnostics resp)).

(** [strings.Contains] *)
Definition Contains (s substr : string) : bool :=
  match Index s substr with Some _ => true | None => false end.

(** The diagnostic of a key plan that gives only one of id and secret. *)
Definition invalid_configuration : diag.Diagnostic :=
  diag.NewErrorDiagnostic "Invalid Configuration"
    "Both 'id' and 'secret_access_key' must be provided together when importing a key, or neither should be provided to generate a new key.".

(** The diagnostic of a bucket lookup that gives neither id nor alias. *)
Definition missing_required_attribute : diag.Diagnostic :=
  diag.NewErrorDiagnostic "Missing Required Attribute"
    "Either 'id' or 'global_alias' must be specified.".

(** A bucket lookup gives exactly one of id and global alias. *)
Definition exactly_one_supplied (data : BucketDataSourceModel.t) : bool :=
  xorb (types.IsNull (BucketDataSourceModel.ID data))
       (types.IsNull (BucketDataSourceModel.GlobalAlias data)).

(** A bucket read ends in one of two ways: it succeeds or it reports Bucket
    Not Found, and not both. *)
Definition succeeds_or_not_found
    (m : M (DataReadResponse BucketDataSourceModel.t)) : Prop :=
  exists resp',
    outcome m = Returned resp'
    /\ xorb (succeeded resp') (reported (Diagnostics resp') "Bucket Not Found") = true.

(** Two runs of object handlers behave alike: they issue the same calls,
    panic alike, end with the same diagnostics, and leave the same state
    whenever they end without an error. *)
Definition same_behaviour {h h'}
    (m : M (Response h GarageObjectResourceModel.t))
    (m' : M (Response h' GarageObjectResourceModel.t)) : Prop :=
  calls m = calls m'
  /\ match outcome m, outcome m' with
     | Returned resp, Returned resp' =>
         Diagnostics resp = Diagnostics resp'
         /\ (diag.HasError (Diagnostics resp') = false -> State resp = State resp')
     | Panicked msg, Panicked msg' => msg = msg'
     | _, _ => False
     end.

(** The admin value the endpoints block supplies: empty when the block is
    absent or its admin attribute has no value. *)
Definition block_admin (config : GarageProviderModel.t) : string :=
  match GarageProviderModel.Endpoints config with
  | Some endpoints => types.ValueString (EndpointsModel.Admin endpoints)
  | None => ""
  end.

(** The S3 value the endpoints block supplies, likewise. *)
Definition block_s3 (config : GarageProviderModel.t) : string :=
  match GarageProviderModel.Endpoints config with
  | Some endpoints => types.ValueString (EndpointsModel.S3 endpoints)
  | None => ""
  end.

(** [s] with its first ":3903" replaced by ":3900". *)
Definition first_3903_replaced (s : string) : string :=
  match Index s ":3903" with
  | Some m => slice_to s m ++ ":3900" ++ slice_from s (m + 5)
  | None => s
  end.

(** An S3 credential: the configured one, or the environment's when none
    is configured. *)
Definition credential (OS : os.t) (configured : types.String) (variable : string)
  : string :=
  if String.eqb (types.ValueString configured) "" then os.Getenv OS variable
  else types.ValueString configured.

(** The provider data Configure stores for these two endpoints. *)
Definition provider_data (OS : os.t) (config : GarageProviderModel.t)
    (adminEndpoint s3Endpoint : string) : GarageProviderModel.t :=
  GarageProviderModel.mk
    (types.StringValue adminEndpoint)
    (GarageProviderModel.Token config)
    (Some (EndpointsModel.mk (types.StringValue adminEndpoint)
             (types.StringValue s3Endpoint)))
    (types.StringValue
       (credential OS (GarageProviderModel.AccessKey config) "GARAGE_ACCESS_KEY"))
    (types.StringValue
       (credential OS (GarageProviderModel.SecretKey config) "GARAGE_SECRET_KEY")).

(** The S3 endpoint stored in the provider data. *)
Definition stored_s3 (resp : provider.ConfigureResponse) : option types.String :=
  match provider.ResourceData resp with
  | Some data => option_map EndpointsModel.S3 (GarageProviderModel.Endpoints data)
  | None => None
  end.

(** ** Sample clusters and requests *)

Module sample.

Definition key : client.Key.t :=
  client.Key.mk "GK31c2f218a2e44f485b94239e" "ci-deploy" None.

Definition key_with_secret : client.Key.t :=
  client.Key.mk "GK31c2f218a2e44f485b94239e" "ci-deploy"
    (Some "b892c0665f0ada8a4755dae98baa3b133590e11dae3bcc1f9d769d67f16c3835").

Definition bucket : client.Bucket.t :=
  client.Bucket.mk "8d7c3d1f" ["my-bucket"] false None None 0 0 0.

(** A cluster that knows one key and one bucket. *)
Definition cluster : client.Client :=
  client.NewClient
    (fun _ => (Some bucket, None))
    (fun _ => (Some key, None))
    (fun _ => (Some key_with_secret, None))
    (fun _ => (Some key, None)).

(** A cluster that knows nothing: lookups find nothing. *)
Definition empty_cluster : client.Client :=
  client.NewClient
    (fun _ => (None, None)) (fun _ => (None, None))
    (fun _ => (None, None)) (fun _ => (None, None)).

(** A cluster that cannot be reached: every call fails in transport. *)
Definition connection_refused : error :=
  "dial tcp 127.0.0.1:3903: connect: connection refused".

Definition unreachable_cluster : client.Client :=
  client.NewClient
    (fun _ => (None, Some connection_refused)) (fun _ => (None, Some connection_refused))
    (fun _ => (None, Some connection_refused)) (fun _ => (None, Some connection_refused)).

Definition tracked_key : KeyResourceModel.t :=
  KeyResourceModel.mk
    (types.StringValue "GK31c2f218a2e44f485b94239e")
    (types.StringValue "old-name")
    (types.StringValue "b892c0665f0ada8a4755dae98baa3b133590e11dae3bcc1f9d769d67f16c3835").

(** A plan that gives an id and no secret. *)
Definition plan_id_only : KeyResourceModel.t :=
  KeyResourceModel.mk
    (types.StringValue "GK31c2f218a2e44f485b94239e") types.StringNull types.StringUnknown.

Definition plan_id_and_secret : KeyResourceModel.t :=
  KeyResourceModel.mk
    (types.StringValue "GK31c2f218a2e44f485b94239e") (types.StringValue "ci-deploy")
    (types.StringValue "b892c0665f0ada8a4755dae98baa3b133590e11dae3bcc1f9d769d67f16c3835").

Definition plan_generated : KeyResourceModel.t :=
  KeyResourceModel.mk types.StringUnknown (types.StringValue "ci-deploy") types.StringUnknown.

(** A plan that renames the tracked key. *)
Definition plan_renamed : KeyResourceModel.t :=
  KeyResourceModel.mk
    (types.StringValue "GK31c2f218a2e44f485b94239e")
    (types.StringValue "new-name")
    (types.StringValue "b892c0665f0ada8a4755dae98baa3b133590e11dae3bcc1f9d769d67f16c3835").

Definition lookup (id alias : types.String) : BucketDataSourceModel.t :=
  BucketDataSourceModel.mk id alias types.ListNull types.BoolNull
    types.StringNull types.StringNull types.Int64Null types.Int64Null
    types.Int64Null types.Int64Null types.Int64Null.

Definition lookup_by_id : BucketDataSourceModel.t :=
  lookup (types.StringValue "8d7c3d1f") types.StringNull.

Definition lookup_by_alias : BucketDataSourceModel.t :=
  lookup types.StringNull (types.StringValue "my-bucket").

Definition lookup_by_nothing : BucketDataSourceModel.t :=
  lookup types.StringNull types.StringNull.

(** An object store that accepts uploads and knows the object. *)
Definition storage : s3.Client :=
  s3.NewFromConfig
    (fun _ => (Some (s3.PutObjectOutput.mk (Some "9a0364b9e99bb480dd25e1f0284c8555")), None))
    (fun _ => (Some (s3.HeadObjectOutput.mk (Some "9a0364b9e99bb480dd25e1f0284c8555")
                       (Some "text/plain")), None)).

Definition s3_connection_refused : error :=
  "operation error S3: HeadObject, https response error StatusCode: 0, RequestID: , HostID: , request send failed, dial tcp 127.0.0.1:3900: connect: connection refused".

(** An object store that cannot be reached. *)
Definition unreachable_storage : s3.Client :=
  s3.NewFromConfig
    (fun _ => (None, Some s3_connection_refused))
    (fun _ => (None, Some s3_connection_refused)).

(** A machine with one file and no environment variables. *)
Definition machine : os.t :=
  os.mk
    (fun name =>
       if String.eqb name "site/index.html" then inl "<html></html>"
       else inr ("open " ++ name ++ ": no such file or directory")%string)
    (fun _ => "").

Definition object (source content content_type : types.String)
  : GarageObjectResourceModel.t :=
  GarageObjectResourceModel.mk
    (types.StringValue "site") (types.StringValue "pages/index.html")
    source content content_type types.StringUnknown types.StringUnknown.

(** An object as Read finds it in the state after Create. *)
Definition tracked_object : GarageObjectResourceModel.t :=
  GarageObjectResourceModel.mk
    (types.StringValue "site") (types.StringValue "pages/index.html")
    types.StringNull (types.StringValue "hello") (types.StringValue "text/plain")
    (types.StringValue "9a0364b9e99bb480dd25e1f0284c8555")
    (types.StringValue "site/pages/index.html").

Definition provider_config (endpoint : types.String)
    (endpoints : option EndpointsModel.t) : GarageProviderModel.t :=
  GarageProviderModel.mk endpoint (types.StringValue "s3cr3t-admin-token") endpoints
    (types.StringValue "GK31c2f218a2e44f485b94239e")
    (types.StringValue "b892c0665f0ada8a4755dae98baa3b133590e11dae3bcc1f9d769d67f16c3835").

(** Only the deprecated attribute. *)
Definition config_deprecated : GarageProviderModel.t :=
  provider_config (types.StringValue "http://localhost:3903") None.

(** The deprecated attribute, and a block that gives the S3 endpoint only. *)
Definition config_deprecated_and_s3 : GarageProviderModel.t :=
  provider_config (types.StringValue "http://localhost:3903")
    (Some (EndpointsModel.mk types.StringNull
             (types.StringValue "https://s3.garage.example"))).

(** The deprecated attribute, and a block that gives the admin endpoint. *)
Definition config_block : GarageProviderModel.t :=
  provider_config (types.StringValue "http://old-host:3903")
    (Some (EndpointsModel.mk (types.StringValue "http://garage:3903") types.StringNull)).

Definition unconfigured : provider.ConfigureResponse :=
  provider.mkConfigureResponse None None [].

End sample.

(** * Further handlers

    The handlers of the same files that run before and after the ones
    above: Configure of each resource and data source, Delete, import of a
    key, and Read of the object data source. *)

(** ** Provider data at a resource

    [req.ProviderData] is an [any]: nil until the provider is configured,
    then what the provider stored, a pointer to its model.  A value of
    another type is kept as the name [%T] prints for it. *)

Inductive ProviderData :=
| GarageProviderModelPtr (data : GarageProviderModel.t)
| OtherType (typeName : string).

Record ConfigureRequest := mkConfigureRequest { ProviderDataOf : option ProviderData }.

(** ** Clients under construction

    [client.NewClient(endpoint, token)] and [s3.NewFromConfig(...)] build the
    clients the handlers keep.  What such a client will be answered depends
    on what listens at the endpoint: [network] gives, for the arguments of
    the constructor, the answers of the client built from them. *)

Module S3Config.
Record t := mk
  { Region : string;
    AccessKeyID : string;
    SecretAccessKey : string;
    SessionToken : string;
    BaseEndpoint : option string;
    UsePathStyle : bool }.
End S3Config.

Module network.
Record t := mk
  { NewClient : string -> string -> client.Client;
    NewFromConfig : S3Config.t -> s3.Client }.
End network.

(** ** Calls and structs of the further handlers *)

Module DeleteKeyRequest.
Record t := mk { ID : string }.
End DeleteKeyRequest.

Module DeleteObjectInput.
Record t := mk { Bucket : option string; Key : option string }.
End DeleteObjectInput.

Module GetObjectInput.
Record t := mk { Bucket : option string; Key : option string }.
End GetObjectInput.

(** A [time.Time], held as the text its [String] method prints. *)
Module time.
Record Time := mk { String : string }.
End time.

(** [Body] is what [io.ReadAll] returns for the body of the answer: its
    bytes, or the error of the read.  [Metadata] is a Go map, held as the
    list of its entries. *)
Module GetObjectOutput.
Record t := mk
  { Body : string + error;
    ContentType : option string;
    ContentLength : option Z;
    ETag : option string;
    LastModified : option time.Time;
    VersionId : option string;
    Metadata : list (string * string) }.
End GetObjectOutput.

(** What is answered to the further calls of a client. *)
Module services.
Record t := mk
  { DeleteKey : client.Client -> DeleteKeyRequest.t -> option error;
    DeleteObject : s3.Client -> DeleteObjectInput.t -> option error;
    GetObject : s3.Client -> GetObjectInput.t -> option GetObjectOutput.t * option error }.
End services.

Inductive FurtherCall :=
| CallDeleteKey (req : DeleteKeyRequest.t)
| CallDeleteObject (input : DeleteObjectInput.t)
| CallGetObject (input : GetObjectInput.t).

(** A handler with its log of further calls. *)
Definition Logged (A : Type) : Type := Outcome A * list FurtherCall.

Definition done {A} (a : A) : Logged A := (Returned a, []).

Definition after {A B} (m : Logged A) (f : A -> Logged B) : Logged B :=
  match m with
  | (Returned a, t) => let '(r, t') := f a in (r, t ++ t')
  | (Panicked msg, t) => (Panicked msg, t)
  end.

Definition request {A} (c : FurtherCall) (answer : A) : Logged A :=
  (Returned answer, [c]).

Definition pointee {A} (p : option A) : Logged A :=
  match p with
  | Some a => done a
  | None => (Panicked nil_dereference, [])
  end.

(** [basetypes]: the framework's map of strings. *)
Module basetypes.
Inductive Map :=
| MapNull
| MapUnknown
| MapValue (elems : list (string * types.String)).
End basetypes.

(** [types.MapValueFrom(ctx, types.StringType, m)] on a map of framework
    strings: the map of these entries, no diagnostics. *)
Definition MapValueFrom (m : list (string * types.String))
  : basetypes.Map * diag.Diagnostics :=
  (basetypes.MapValue m, []).

(** ** Configure of the resources and data sources *)

(** Get admin endpoint with backwards compatibility: the admin endpoint of
    the block when the block is there and its admin is not null, else the
    deprecated endpoint when it is not null, else nothing. *)
Definition admin_endpoint (providerData : GarageProviderModel.t) : string :=
  let deprecated :=
    if negb (types.IsNull (GarageProviderModel.Endpoint providerData))
    then types.ValueString (GarageProviderModel.Endpoint providerData)
    else "" in
  match GarageProviderModel.Endpoints providerData with
  | Some endpoints =>
      if negb (types.IsNull (EndpointsModel.Admin endpoints))
      then types.ValueString (EndpointsModel.Admin endpoints)
      else deprecated
  | None => deprecated
  end.

(** The object data source keeps an S3 client too. *)
Record GarageObjectDataSource := mkGarageObjectDataSource { s3Client_of : s3.Client }.

Section Configure.

Variable NET : network.t.

(** Configure of the key resource; [r] is the resource so far, [None]
    while its client is nil. *)
Definition KeyResource_Configure (r : option KeyResource.t) (req : ConfigureRequest)
    (diags : diag.Diagnostics) : option KeyResource.t * diag.Diagnostics :=
  match ProviderDataOf req with
  | None => (r, diags)
  | Some (OtherType typeName) =>
      (r, diag.AddError diags "Unexpected Resource Configure Type"
            ("Expected *GarageProviderModel, got: " ++ typeName
             ++ ". Please report this issue to the provider developers."))
  | Some (GarageProviderModelPtr providerData) =>
      let adminEndpoint := admin_endpoint providerData in
      if String.eqb adminEndpoint "" then
        (r, diag.AddError diags "Missing Admin Endpoint"
              "Admin endpoint must be configured via 'endpoints.admin' or deprecated 'endpoint' attribute")
      else
        (Some (KeyResource.mk
                 (network.NewClient NET adminEndpoint
                    (types.ValueString (GarageProviderModel.Token providerData)))),
         diags)
  end.

(** Configure of the bucket data source: the same steps. *)
Definition BucketDataSource_Configure (d : option BucketDataSource.t)
    (req : ConfigureRequest) (diags : diag.Diagnostics)
  : option BucketDataSource.t * diag.Diagnostics :=
  match ProviderDataOf req with
  | None => (d, diags)
  | Some (OtherType typeName) =>
      (d, diag.AddError diags "Unexpected Resource Configure Type"
            ("Expected *GarageProviderModel, got: " ++ typeName
             ++ ". Please report this issue to the provider developers."))
  | Some (GarageProviderModelPtr providerData) =>
      let adminEndpoint := admin_endpoint providerData in
      if String.eqb adminEndpoint "" then
        (d, diag.AddError diags "Missing Admin Endpoint"
              "Admin endpoint must be configured via 'endpoints.admin' or deprecated 'endpoint' attribute")
      else
        (Some (BucketDataSource.mk
                 (network.NewClient NET adminEndpoint
                    (types.ValueString (GarageProviderModel.Token providerData)))),
         diags)
  end.

(** The S3 client both object handlers build. *)
Definition object_client (providerData : GarageProviderModel.t) (s3Endpoint : string)
  : s3.Client :=
  network.NewFromConfig NET
    (S3Config.mk "garage"
       (types.ValueString (GarageProviderModel.AccessKey providerData))
       (types.ValueString (GarageProviderModel.SecretKey providerData))
       ""
       (aws_String s3Endpoint)
       true).

(** Configure of the object resource.  It reads [providerData.Endpoints.S3]
    through the pointer [Endpoints], whatever that pointer is. *)
Definition GarageObjectResource_Configure (r : option GarageObjectResource.t)
    (req : ConfigureRequest) (diags : diag.Diagnostics)
  : Outcome (option GarageObjectResource.t * diag.Diagnostics) :=
  match ProviderDataOf req with
  | None => Returned (r, diags)
  | Some (OtherType _) =>
      Returned (r, diag.AddError diags "Unexpected Resource Configure Type"
                     "Expected *GarageProviderModel")
  | Some (GarageProviderModelPtr providerData) =>
      match GarageProviderModel.Endpoints providerData with
      | None => Panicked nil_dereference
      | Some endpoints =>
          let s3Endpoint := types.ValueString (EndpointsModel.S3 endpoints) in
          if String.eqb s3Endpoint "" then
            Returned (r, diag.AddError diags "Missing S3 Endpoint"
                           "S3 endpoint must be configured in endpoints.s3 for object operations")
          else
            Returned (Some (GarageObjectResource.mk (object_client providerData s3Endpoint)),
                      diags)
      end
  end.

Definition GarageObjectDataSource_Configure (d : option GarageObjectDataSource)
    (req : ConfigureRequest) (diags : diag.Diagnostics)
  : Outcome (option GarageObjectDataSource * diag.Diagnostics) :=
  match ProviderDataOf req with
  | None => Returned (d, diags)
  | Some (OtherType _) =>
      Returned (d, diag.AddError diags "Unexpected Data Source Configure Type"
                     "Expected *GarageProviderModel")
  | Some (GarageProviderModelPtr providerData) =>
      match GarageProviderModel.Endpoints providerData with
      | None => Panicked nil_dereference
      | Some endpoints =>
          let s3Endpoint := types.ValueString (EndpointsModel.S3 endpoints) in
          if String.eqb s3Endpoint "" then
            Returned (d, diag.AddError diags "Missing S3 Endpoint"
                           "S3 endpoint must be configured in endpoints.s3 for object operations")
          else
            Returned (Some (mkGarageObjectDataSource (object_client providerData s3Endpoint)),
                      diags)
      end
  end.

End Configure.

(** ** Delete, and import of a key *)

Record DeleteRequest (T : Type) := mkDeleteRequest { DeleteState : T }.

Record DeleteResponse (T : Type) := mkDeleteResponse
  { StateLeft : tfsdk.State T; DiagnosticsLeft : diag.Diagnostics }.

Arguments mkDeleteRequest {T} _.
Arguments DeleteState {T} _.
Arguments mkDeleteResponse {T} _ _.
Arguments StateLeft {T} _.
Arguments DiagnosticsLeft {T} _.

(** The attributes of the key schema. *)
Inductive KeyAttribute := key_id | key_name | key_secret_access_key.

(** [State.SetAttribute] on the state of a key, as for an object. *)
Definition KeyResource_SetAttribute (st : tfsdk.State KeyResourceModel.t)
    (a : KeyAttribute) (v : string)
  : tfsdk.State KeyResourceModel.t * diag.Diagnostics :=
  let m :=
    match st with
    | Some m => m
    | None => KeyResourceModel.mk types.StringNull types.StringNull types.StringNull
    end in
  (Some
     match a with
     | key_id =>
         KeyResourceModel.mk (types.StringValue v) (KeyResourceModel.Name m)
           (KeyResourceModel.SecretAccessKey m)
     | key_name =>
         KeyResourceModel.mk (KeyResourceModel.ID m) (types.StringValue v)
           (KeyResourceModel.SecretAccessKey m)
     | key_secret_access_key =>
         KeyResourceModel.mk (KeyResourceModel.ID m) (KeyResourceModel.Name m)
           (types.StringValue v)
     end,
   []).

(** [resource.ImportStatePassthroughID(ctx, path.Root(a), req, resp)]: the
    identifier of the request is written to that attribute, when there is
    one; for an empty identifier (an import by resource identity) nothing is
    written. *)
Definition ImportStatePassthroughID (a : KeyAttribute) (req : ImportStateRequest)
    (resp : ImportStateResponse KeyResourceModel.t)
  : ImportStateResponse KeyResourceModel.t :=
  if negb (String.eqb (ImportID req) "") then
    let '(st, ds) := KeyResource_SetAttribute (State resp) a (ImportID req) in
    Diagnostics_Append (mkResponse st (Diagnostics resp)) ds
  else resp.

Definition KeyResource_ImportState (r : KeyResource.t) (req : ImportStateRequest)
    (resp : ImportStateResponse KeyResourceModel.t)
  : ImportStateResponse KeyResourceModel.t :=
  ImportStatePassthroughID key_id req resp.

Section Further.

Variable SVC : services.t.

Definition KeyResource_Delete (r : KeyResource.t) (req : DeleteRequest KeyResourceModel.t)
    (resp : DeleteResponse KeyResourceModel.t)
  : Logged (DeleteResponse KeyResourceModel.t) :=
  let '(data, diags) := tfsdk.Get (DeleteState req) in
  let resp := mkDeleteResponse (StateLeft resp) (diag.Append (DiagnosticsLeft resp) diags) in
  if diag.HasError (DiagnosticsLeft resp) then done resp else
  let deleteReq := DeleteKeyRequest.mk (types.ValueString (KeyResourceModel.ID data)) in
  after (request (CallDeleteKey deleteReq)
           (services.DeleteKey SVC (KeyResource.client r) deleteReq))
    (fun err =>
       match err with
       | Some e =>
           done (mkDeleteResponse (StateLeft resp)
                   (diag.AddError (DiagnosticsLeft resp) "Client Error"
                      ("Unable to delete access key, got error: " ++ e)))
       | None => done resp
       end).

Definition GarageObjectResource_Delete (r : GarageObjectResource.t)
    (req : DeleteRequest GarageObjectResourceModel.t)
    (resp : DeleteResponse GarageObjectResourceModel.t)
  : Logged (DeleteResponse GarageObjectResourceModel.t) :=
  let '(state, diags) := tfsdk.Get (DeleteState req) in
  let resp := mkDeleteResponse (StateLeft resp) (diag.Append (DiagnosticsLeft resp) diags) in
  if diag.HasError (DiagnosticsLeft resp) then done resp else
  let input :=
    DeleteObjectInput.mk
      (aws_String (types.ValueString (GarageObjectResourceModel.Bucket state)))
      (aws_String (types.ValueString (GarageObjectResourceModel.Key state))) in
  after (request (CallDeleteObject input)
           (services.DeleteObject SVC (GarageObjectResource.s3Client r) input))
    (fun err =>
       match err with
       | Some e =>
           done (mkDeleteResponse (StateLeft resp)
                   (diag.AddError (DiagnosticsLeft resp) "Object Deletion Failed" e))
       | None => done resp
       end).

End Further.

(** ** The object data source *)

Module GarageObjectDataSourceModel.
Record t := mk
  { Bucket : types.String;
    Key : types.String;
    Body : types.String;
    ContentType : types.String;
    ContentLength : types.Int64;
    ETag : types.String;
    LastModified : types.String;
    Metadata : basetypes.Map;
    VersionId : types.String;
    ID : types.String }.
End GarageObjectDataSourceModel.

Section ObjectDataSource.

Variable SVC : services.t.

Import GarageObjectDataSourceModel.

Definition GarageObjectDataSource_Read (d : GarageObjectDataSource)
    (req : DataReadRequest GarageObjectDataSourceModel.t)
    (resp : DataReadResponse GarageObjectDataSourceModel.t)
  : Logged (DataReadResponse GarageObjectDataSourceModel.t) :=
  let '(config, diags) := tfsdk.Get (ReadConfig req) in
  let resp := Diagnostics_Append resp diags in
  if diag.HasError (Diagnostics resp) then done resp else
  (* Download object from Garage *)
  let input :=
    GetObjectInput.mk
      (aws_String (types.ValueString (Bucket config)))
      (aws_String (types.ValueString (Key config))) in
  after (request (CallGetObject input) (services.GetObject SVC (s3Client_of d) input))
    (fun '(getOutput, err) =>
       match err with
       | Some e =>
           done (Diagnostics_AddError resp "Failed to Retrieve Object"
                   ("Could not download object from Garage: " ++ e))
       | None =>
           after (pointee getOutput)
             (fun getOutput =>
                (* Read object body *)
                match GetObjectOutput.Body getOutput with
                | inr e =>
                    done (Diagnostics_AddError resp "Failed to Read Object Body"
                            ("Could not read object content: " ++ e))
                | inl bodyBytes =>
                    (* Set computed attributes; convert metadata map *)
                    let '(metadata, mapDiags) :=
                      match GetObjectOutput.Metadata getOutput with
                      | [] => (basetypes.MapNull, [])
                      | entries =>
                          MapValueFrom
                            (map (fun kv => (fst kv, types.StringValue (snd kv))) entries)
                      end in
                    let resp := Diagnostics_Append resp mapDiags in
                    let config :=
                      GarageObjectDataSourceModel.mk
                        (Bucket config)
                        (Key config)
                        (types.StringValue bodyBytes)
                        (match GetObjectOutput.ContentType getOutput with
                         | Some ct => types.StringValue ct
                         | None => types.StringValue "application/octet-stream"
                         end)
                        (match GetObjectOutput.ContentLength getOutput with
                         | Some n => types.Int64Value n
                         | None => types.Int64Value (Z.of_nat (len bodyBytes))
                         end)
                        (match GetObjectOutput.ETag getOutput with
                         | Some etag => types.StringValue etag
                         | None => ETag config
                         end)
                        (match GetObjectOutput.LastModified getOutput with
                         | Some t => types.StringValue (time.String t)
                         | None => LastModified config
                         end)
                        metadata
                        (match GetObjectOutput.VersionId getOutput with
                         | Some v => types.StringValue v
                         | None => VersionId config
                         end)
                        (types.StringValue
                           (types.ValueString (Bucket config) ++ "/"
                            ++ types.ValueString (Key config))) in
                    done (State_Set resp config)
                end)
       end).

End ObjectDataSource.

(** ** Further samples *)

Module fixture.

(** A network where the admin API listens on port 3903 of localhost and
    the object API on port 3900. *)
Definition net : network.t :=
  network.mk
    (fun endpoint token =>
       if String.eqb endpoint "http://localhost:3903" then sample.cluster
       else sample.unreachable_cluster)
    (fun config =>
       match S3Config.BaseEndpoint config with
       | Some endpoint =>
           if String.eqb endpoint "http://localhost:3900" then sample.storage
           else sample.unreachable_storage
       | None => sample.unreachable_storage
       end).

Definition downloaded : GetObjectOutput.t :=
  GetObjectOutput.mk (inl "hello") None None None None None [].

(** Deletions succeed and the object can be downloaded. *)
Definition svc : services.t :=
  services.mk (fun _ _ => None) (fun _ _ => None) (fun _ _ => (Some downloaded, None)).

(** Nothing can be reached. *)
Definition unreachable_svc : services.t :=
  services.mk
    (fun _ _ => Some sample.connection_refused)
    (fun _ _ => Some sample.s3_connection_refused)
    (fun _ _ => (None, Some sample.s3_connection_refused)).

Definition object_lookup : GarageObjectDataSourceModel.t :=
  GarageObjectDataSourceModel.mk
    (types.StringValue "site") (types.StringValue "pages/index.html")
    types.StringNull types.StringNull types.Int64Null types.StringNull
    types.StringNull basetypes.MapNull types.StringNull types.StringNull.

(** A machine whose environment holds S3 credentials. *)
Definition ci_machine : os.t :=
  os.mk
    (fun name => inr ("open " ++ name ++ ": no such file or directory")%string)
    (fun variable =>
       if String.eqb variable "GARAGE_ACCESS_KEY" then "GKenv0123456789"
       else if String.eqb variable "GARAGE_SECRET_KEY" then "secret-from-env"
       else "").

(** A configuration with the deprecated endpoint, no access key and a
    secret key. *)
Definition config_half_credentials : GarageProviderModel.t :=
  GarageProviderModel.mk (types.StringValue "http://localhost:3903")
    types.StringNull None types.StringNull (types.StringValue "configured-secret").

(** A configuration with a deprecated endpoint on another port. *)
Definition config_other_port : GarageProviderModel.t :=
  sample.provider_config (types.StringValue "https://garage.example:8443") None.

(** A response that already carries an error. *)
Definition failed {h T} (st : tfsdk.State T) : Response h T :=
  mkResponse st [diag.NewErrorDiagnostic "Value Conversion Error" "unhandled null value"].

(** A cluster that answers without a key and without an error. *)
Definition silent_cluster : client.Client := sample.empty_cluster.

(** An object store whose answers carry no ETag. *)
Definition storage_without_etag : s3.Client :=
  s3.NewFromConfig
    (fun _ => (Some (s3.PutObjectOutput.mk None), None))
    (fun _ => (Some (s3.HeadObjectOutput.mk None None), None)).

End fixture.

(** * Properties *)

(** ** Diagnostics *)

Lemma HasError_no_error_Contains (ds : diag.Diagnostics) (summary detail : string) :
  diag.HasError ds = false ->
  diag.Contains ds (diag.NewErrorDiagnostic summary detail) = false.
Proof.
  unfold diag.HasError, diag.Contains.
  induction ds as [|d ds IH]; simpl; intros H; [reflexivity|].
  apply orb_false_iff in H. destruct H as [Hd Hds].
  rewrite (IH Hds), orb_false_r.
  unfold diag.Equal; simpl.
  destruct (diag.Severity_of d); simpl in *; [discriminate|reflexivity].
Qed.

(** On diagnostics without errors, [AddError] adds its error at the end. *)
Lemma AddError_no_error (ds : diag.Diagnostics) (summary detail : string) :
  diag.HasError ds = false ->
  diag.AddError ds summary detail = ds ++ [diag.NewErrorDiagnostic summary detail].
Proof.
  intros H. unfold diag.AddError; simpl.
  now rewrite (HasError_no_error_Contains ds summary detail H).
Qed.

Lemma Equal_refl (d : diag.Diagnostic) : diag.Equal d d = true.
Proof.
  unfold diag.Equal. rewrite !String.eqb_refl.
  now destruct (diag.Severity_of d).
Qed.

Lemma Contains_app_r (ds : diag.Diagnostics) (d : diag.Diagnostic) :
  diag.Contains (ds ++ [d]) d = true.
Proof.
  unfold diag.Contains. rewrite existsb_app; simpl.
  now rewrite Equal_refl, orb_true_r.
Qed.

(** Whatever the diagnostics held before, they hold the error after
    [AddError]. *)
Lemma AddError_Contains (ds : diag.Diagnostics) (summary detail : string) :
  diag.Contains (diag.AddError ds summary detail)
    (diag.NewErrorDiagnostic summary detail) = true.
Proof.
  unfold diag.AddError; simpl.
  destruct (diag.Contains ds _) eqn:E; [exact E | apply Contains_app_r].
Qed.

Lemma HasError_app (ds ds' : diag.Diagnostics) :
  diag.HasError (ds ++ ds') = diag.HasError ds || diag.HasError ds'.
Proof. apply existsb_app. Qed.

Lemma reported_no_error (ds : diag.Diagnostics) (summary : string) :
  diag.HasError ds = false -> reported ds summary = false.
Proof.
  unfold diag.HasError, reported.
  induction ds as [|d ds IH]; simpl; intros H; [reflexivity|].
  apply orb_false_iff in H. destruct H as [Hd Hds].
  now rewrite Hd, (IH Hds).
Qed.

Lemma reported_app (ds ds' : diag.Diagnostics) (summary : string) :
  reported (ds ++ ds') summary = reported ds summary || reported ds' summary.
Proof. apply existsb_app. Qed.

(** Every handler starts by decoding its input and stops there when the
    response already carries an error; without one it goes on. *)
Ltac decode_input :=
  cbv beta iota delta [tfsdk.Get Diagnostics_Append];
  cbn [Diagnostics State diag.Append].

Ltac enter_handler H := decode_input; rewrite ?H.

Ltac add_error H :=
  unfold Diagnostics_AddError; rewrite (AddError_no_error _ _ _ H).

(** ** Computations *)

Lemma calls_bind_call {A B} (c : Call) (answer : A) (f : A -> M B) :
  calls (bind (call c answer) f) = c :: calls (f answer).
Proof.
  unfold calls, bind, call. now destruct (f answer).
Qed.

Lemma bind_call_returned {A B} (c : Call) (answer : A) (f : A -> M B) (b : B) :
  f answer = ret b -> bind (call c answer) f = (Returned b, [c]).
Proof.
  intros E. unfold bind, call. now rewrite E.
Qed.

(** ** The access-key resource *)

(** C2: Create of a key whose plan supplies exactly one of id and
    secret_access_key is rejected with the invalid-configuration error and
    issues no call; with both supplied the one call it issues is ImportKey
    (with the planned id, secret and name); with neither supplied the one
    call it issues is CreateKey. *)
Theorem KeyResource_Create_entry_paths
    (r : KeyResource.t) (req : CreateRequest KeyResourceModel.t)
    (resp : CreateResponse KeyResourceModel.t) :
  diag.HasError (Diagnostics resp) = false ->
  (supplied (KeyResourceModel.ID (CreatePlan req))
     <> supplied (KeyResourceModel.SecretAccessKey (CreatePlan req)) ->
   KeyResource.Create r req resp =
     (Returned (mkResponse (State resp) (Diagnostics resp ++ [invalid_configuration])),
      []))
  /\ (supplied (KeyResourceModel.ID (CreatePlan req)) = true ->
      supplied (KeyResourceModel.SecretAccessKey (CreatePlan req)) = true ->
      calls (KeyResource.Create r req resp) =
        [CallImportKey
           (client.ImportKeyRequest.mk
              (types.ValueString (KeyResourceModel.ID (CreatePlan req)))
              (types.ValueString (KeyResourceModel.SecretAccessKey (CreatePlan req)))
              (pointer_unless_null (KeyResourceModel.Name (CreatePlan req))))])
  /\ (supplied (KeyResourceModel.ID (CreatePlan req)) = false ->
      supplied (KeyResourceModel.SecretAccessKey (CreatePlan req)) = false ->
      calls (KeyResource.Create r req resp) =
        [CallCreateKey
           (client.CreateKeyRequest.mk
              (pointer_unless_null (KeyResourceModel.Name (CreatePlan req))))]).
Proof.
  intros Hfresh.
  destruct req as [[id name secret]]; cbn [CreatePlan KeyResourceModel.ID
    KeyResourceModel.SecretAccessKey KeyResourceModel.Name].
  unfold KeyResource.Create. enter_handler Hfresh.
  cbn [CreatePlan KeyResourceModel.ID KeyResourceModel.SecretAccessKey
       KeyResourceModel.Name].
  fold (supplied id). fold (supplied secret). fold (pointer_unless_null name).
  repeat split.
  - intros Hone.
    destruct (supplied id), (supplied secret); try congruence; cbn [andb negb];
      add_error Hfresh; reflexivity.
  - intros -> ->. cbn [andb]. rewrite calls_bind_call.
    destruct (client.ImportKey _ _) as [[key|] [e|]]; reflexivity.
  - intros -> ->. cbn [andb negb]. rewrite calls_bind_call.
    destruct (client.CreateKey _ _) as [[key|] [e|]]; reflexivity.
Qed.

Lemma KeyResource_Create_entry_paths_witness :
  KeyResource.Create (KeyResource.mk sample.cluster)
      (mkCreateRequest sample.plan_id_only) (initial_response None)
    = (Returned (mkResponse None [invalid_configuration]), [])
  /\ calls (KeyResource.Create (KeyResource.mk sample.cluster)
              (mkCreateRequest sample.plan_id_and_secret) (initial_response None))
     = [CallImportKey
          (client.ImportKeyRequest.mk "GK31c2f218a2e44f485b94239e"
             "b892c0665f0ada8a4755dae98baa3b133590e11dae3bcc1f9d769d67f16c3835"
             (Some "ci-deploy"))]
  /\ calls (KeyResource.Create (KeyResource.mk sample.cluster)
              (mkCreateRequest sample.plan_generated) (initial_response None))
     = [CallCreateKey (client.CreateKeyRequest.mk (Some "ci-deploy"))].
Proof.
  split; [|split].
  - apply (proj1 (KeyResource_Create_entry_paths (KeyResource.mk sample.cluster)
                    (mkCreateRequest sample.plan_id_only) (initial_response None)
                    eq_refl)).
    discriminate.
  - apply (proj1 (proj2 (KeyResource_Create_entry_paths (KeyResource.mk sample.cluster)
                           (mkCreateRequest sample.plan_id_and_secret)
                           (initial_response None) eq_refl))); reflexivity.
  - apply (proj2 (proj2 (KeyResource_Create_entry_paths (KeyResource.mk sample.cluster)
                           (mkCreateRequest sample.plan_generated)
                           (initial_response None) eq_refl))); reflexivity.
Defined.

(** C3: Read of a key for which GetKeyInfo answers not-found (nil key, nil
    error) removes the tracked record from the state and reports nothing;
    when GetKeyInfo answers with an error, Read reports it as a Client Error
    diagnostic and stops, leaving the state as it was. *)
Theorem KeyResource_Read_not_found_or_error
    (r : KeyResource.t) (req : ReadRequest KeyResourceModel.t)
    (resp : ReadResponse KeyResourceModel.t) :
  diag.HasError (Diagnostics resp) = false ->
  (client.GetKeyInfo (KeyResource.client r)
     (client.GetKeyInfoRequest.mk (types.ValueString (KeyResourceModel.ID (ReadState req))))
     = (None, None) ->
   KeyResource.Read r req resp =
     (Returned (mkResponse None (Diagnostics resp)),
      [CallGetKeyInfo
         (client.GetKeyInfoRequest.mk
            (types.ValueString (KeyResourceModel.ID (ReadState req))))]))
  /\ (forall (key : option client.Key.t) (e : error),
      client.GetKeyInfo (KeyResource.client r)
        (client.GetKeyInfoRequest.mk (types.ValueString (KeyResourceModel.ID (ReadState req))))
        = (key, Some e) ->
      KeyResource.Read r req resp =
        (Returned
           (mkResponse (State resp)
              (Diagnostics resp
               ++ [diag.NewErrorDiagnostic "Client Error"
                     ("Unable to read access key, got error: " ++ e)])),
         [CallGetKeyInfo
            (client.GetKeyInfoRequest.mk
               (types.ValueString (KeyResourceModel.ID (ReadState req))))])).
Proof.
  intros Hfresh. unfold KeyResource.Read. enter_handler Hfresh.
  split.
  - intros ->. reflexivity.
  - intros key e ->. apply bind_call_returned.
    add_error Hfresh. reflexivity.
Qed.

Lemma KeyResource_Read_not_found_or_error_witness :
  KeyResource.Read (KeyResource.mk sample.empty_cluster)
      (mkReadRequest sample.tracked_key) (initial_response (Some sample.tracked_key))
    = (Returned (mkResponse None []),
       [CallGetKeyInfo (client.GetKeyInfoRequest.mk "GK31c2f218a2e44f485b94239e")])
  /\ KeyResource.Read (KeyResource.mk sample.unreachable_cluster)
       (mkReadRequest sample.tracked_key) (initial_response (Some sample.tracked_key))
     = (Returned
          (mkResponse (Some sample.tracked_key)
             [diag.NewErrorDiagnostic "Client Error"
                "Unable to read access key, got error: dial tcp 127.0.0.1:3903: connect: connection refused"]),
        [CallGetKeyInfo (client.GetKeyInfoRequest.mk "GK31c2f218a2e44f485b94239e")]).
Proof.
  split.
  - apply (proj1 (KeyResource_Read_not_found_or_error
                    (KeyResource.mk sample.empty_cluster)
                    (mkReadRequest sample.tracked_key)
                    (initial_response (Some sample.tracked_key)) eq_refl)).
    reflexivity.
  - apply (proj2 (KeyResource_Read_not_found_or_error
                    (KeyResource.mk sample.unreachable_cluster)
                    (mkReadRequest sample.tracked_key)
                    (initial_response (Some sample.tracked_key)) eq_refl)
             None sample.connection_refused).
    reflexivity.
Defined.

(** C4: Read of a key that GetKeyInfo finds writes a state whose id and
    name are those of the answer and whose secret_access_key is the one of
    the prior state, whatever the answer carries as a secret. *)
Theorem KeyResource_Read_keeps_secret
    (r : KeyResource.t) (req : ReadRequest KeyResourceModel.t)
    (resp : ReadResponse KeyResourceModel.t) (key : client.Key.t) :
  diag.HasError (Diagnostics resp) = false ->
  client.GetKeyInfo (KeyResource.client r)
    (client.GetKeyInfoRequest.mk (types.ValueString (KeyResourceModel.ID (ReadState req))))
    = (Some key, None) ->
  KeyResource.Read r req resp =
    (Returned
       (mkResponse
          (Some (KeyResourceModel.mk
                   (types.StringValue (client.Key.AccessKeyID key))
                   (types.StringValue (client.Key.Name key))
                   (KeyResourceModel.SecretAccessKey (ReadState req))))
          (Diagnostics resp)),
     [CallGetKeyInfo
        (client.GetKeyInfoRequest.mk
           (types.ValueString (KeyResourceModel.ID (ReadState req))))]).
Proof.
  intros Hfresh Hfound. unfold KeyResource.Read. enter_handler Hfresh.
  rewrite Hfound. reflexivity.
Qed.

Lemma KeyResource_Read_keeps_secret_witness :
  KeyResource.Read (KeyResource.mk sample.cluster)
      (mkReadRequest sample.tracked_key) (initial_response (Some sample.tracked_key))
    = (Returned
         (mkResponse
            (Some (KeyResourceModel.mk
                     (types.StringValue "GK31c2f218a2e44f485b94239e")
                     (types.StringValue "ci-deploy")
                     (types.StringValue
                        "b892c0665f0ada8a4755dae98baa3b133590e11dae3bcc1f9d769d67f16c3835")))
            []),
       [CallGetKeyInfo (client.GetKeyInfoRequest.mk "GK31c2f218a2e44f485b94239e")]).
Proof.
  apply (KeyResource_Read_keeps_secret (KeyResource.mk sample.cluster)
           (mkReadRequest sample.tracked_key)
           (initial_response (Some sample.tracked_key)) sample.key);
    reflexivity.
Defined.

(** C10: Update of a key issues no call to the admin API, for every plan
    and response; and it writes the planned values, as they are, as the new
    state. *)
Theorem KeyResource_Update_no_call
    (r : KeyResource.t) (req : UpdateRequest KeyResourceModel.t)
    (resp : UpdateResponse KeyResourceModel.t) :
  calls (KeyResource.Update r req resp) = []
  /\ (diag.HasError (Diagnostics resp) = false ->
      KeyResource.Update r req resp =
        (Returned (mkResponse (Some (UpdatePlan req)) (Diagnostics resp)), [])).
Proof.
  unfold KeyResource.Update. decode_input.
  split.
  - now destruct (diag.HasError (Diagnostics resp)).
  - intros ->. reflexivity.
Qed.

Lemma KeyResource_Update_no_call_witness :
  KeyResource.Update (KeyResource.mk sample.cluster)
      (mkUpdateRequest sample.plan_renamed) (initial_response (Some sample.tracked_key))
    = (Returned (mkResponse (Some sample.plan_renamed) []), []).
Proof.
  apply (proj2 (KeyResource_Update_no_call (KeyResource.mk sample.cluster)
                  (mkUpdateRequest sample.plan_renamed)
                  (initial_response (Some sample.tracked_key)))).
  reflexivity.
Defined.

(** ** The bucket data source *)

(** C1, as the code has it: a bucket lookup that gives neither id nor
    global alias fails with Missing Required Attribute and issues no call; a
    lookup that gives exactly one of them issues one GetBucketInfo call and
    ends in exactly one of three ways, by the answer: it succeeds (a bucket,
    no error), it reports Bucket Not Found (no bucket, no error), or it
    reports Client Error (the call failed). *)
Theorem BucketDataSource_Read_lookup
    (d : BucketDataSource.t) (req : DataReadRequest BucketDataSourceModel.t)
    (resp : DataReadResponse BucketDataSourceModel.t) :
  diag.HasError (Diagnostics resp) = false ->
  (types.IsNull (BucketDataSourceModel.ID (ReadConfig req)) = true ->
   types.IsNull (BucketDataSourceModel.GlobalAlias (ReadConfig req)) = true ->
   BucketDataSource.Read d req resp =
     (Returned
        (mkResponse (State resp) (Diagnostics resp ++ [missing_required_attribute])),
      []))
  /\ (exactly_one_supplied (ReadConfig req) = true ->
      calls (BucketDataSource.Read d req resp) =
        [CallGetBucketInfo
           (client.GetBucketInfoRequest.mk
              (pointer_unless_null (BucketDataSourceModel.ID (ReadConfig req)))
              (pointer_unless_null (BucketDataSourceModel.GlobalAlias (ReadConfig req))))]
      /\ exists resp',
          outcome (BucketDataSource.Read d req resp) = Returned resp'
          /\ reported (Diagnostics resp') "Missing Required Attribute" = false
          /\ (succeeded resp',
              reported (Diagnostics resp') "Bucket Not Found",
              reported (Diagnostics resp') "Client Error")
             = match client.GetBucketInfo (BucketDataSource.client d)
                       (client.GetBucketInfoRequest.mk
                          (pointer_unless_null
                             (BucketDataSourceModel.ID (ReadConfig req)))
                          (pointer_unless_null
                             (BucketDataSourceModel.GlobalAlias (ReadConfig req))))
               with
               | (Some _, None) => (true, false, false)
               | (None, None) => (false, true, false)
               | (_, Some _) => (false, false, true)
               end).
Proof.
  intros Hfresh.
  unfold BucketDataSource.Read, exactly_one_supplied. enter_handler Hfresh.
  fold (pointer_unless_null (BucketDataSourceModel.ID (ReadConfig req))).
  fold (pointer_unless_null (BucketDataSourceModel.GlobalAlias (ReadConfig req))).
  split.
  - intros -> ->. cbn [andb]. add_error Hfresh. reflexivity.
  - intros Hone.
    assert (Hsome : types.IsNull (BucketDataSourceModel.ID (ReadConfig req))
                    && types.IsNull (BucketDataSourceModel.GlobalAlias (ReadConfig req))
                    = false).
    { destruct (types.IsNull (BucketDataSourceModel.ID (ReadConfig req))),
        (types.IsNull (BucketDataSourceModel.GlobalAlias (ReadConfig req)));
        (reflexivity || discriminate). }
    rewrite Hsome. split.
    + rewrite calls_bind_call.
      destruct (client.GetBucketInfo _ _) as [[bucket|] [e|]]; reflexivity.
    + unfold outcome, bind, call.
      destruct (client.GetBucketInfo _ _) as [[bucket|] [e|]];
        cbn [ret fst ListValueFrom]; decode_input.
      * eexists; split; [reflexivity|]. add_error Hfresh.
        unfold succeeded; cbn [State Diagnostics].
        rewrite !reported_app, HasError_app, !(reported_no_error _ _ Hfresh), Hfresh.
        split; [reflexivity|]. now destruct (State resp).
      * eexists; split; [reflexivity|].
        unfold State_Set, tfsdk.Set_; decode_input.
        unfold succeeded; cbn [State Diagnostics].
        rewrite !(reported_no_error _ _ Hfresh), Hfresh. split; reflexivity.
      * eexists; split; [reflexivity|]. add_error Hfresh.
        unfold succeeded; cbn [State Diagnostics].
        rewrite !reported_app, HasError_app, !(reported_no_error _ _ Hfresh), Hfresh.
        split; [reflexivity|]. now destruct (State resp).
      * eexists; split; [reflexivity|]. add_error Hfresh.
        unfold succeeded; cbn [State Diagnostics].
        rewrite !reported_app, HasError_app, !(reported_no_error _ _ Hfresh), Hfresh.
        split; [reflexivity|]. now destruct (State resp).
Qed.

Lemma BucketDataSource_Read_lookup_witness :
  BucketDataSource.Read (BucketDataSource.mk sample.cluster)
      (mkDataReadRequest sample.lookup_by_nothing) (initial_response None)
    = (Returned (mkResponse None [missing_required_attribute]), [])
  /\ calls (BucketDataSource.Read (BucketDataSource.mk sample.cluster)
              (mkDataReadRequest sample.lookup_by_alias) (initial_response None))
     = [CallGetBucketInfo (client.GetBucketInfoRequest.mk None (Some "my-bucket"))].
Proof.
  split.
  - apply (proj1 (BucketDataSource_Read_lookup (BucketDataSource.mk sample.cluster)
                    (mkDataReadRequest sample.lookup_by_nothing)
                    (initial_response None) eq_refl)); reflexivity.
  - apply (proj2 (BucketDataSource_Read_lookup (BucketDataSource.mk sample.cluster)
                    (mkDataReadRequest sample.lookup_by_alias)
                    (initial_response None) eq_refl)); reflexivity.
Defined.

(** C1, where it fails as stated: a lookup by id alone against a cluster
    that cannot be reached neither succeeds nor reports Bucket Not Found, it
    reports Client Error. *)
Lemma BucketDataSource_Read_unreachable :
  exactly_one_supplied sample.lookup_by_id = true
  /\ BucketDataSource.Read (BucketDataSource.mk sample.unreachable_cluster)
       (mkDataReadRequest sample.lookup_by_id) (initial_response None)
     = (Returned
          (mkResponse None
             [diag.NewErrorDiagnostic "Client Error"
                "Unable to read bucket, got error: dial tcp 127.0.0.1:3903: connect: connection refused"]),
        [CallGetBucketInfo (client.GetBucketInfoRequest.mk (Some "8d7c3d1f") None)])
  /\ ~ succeeds_or_not_found
         (BucketDataSource.Read (BucketDataSource.mk sample.unreachable_cluster)
            (mkDataReadRequest sample.lookup_by_id) (initial_response None)).
Proof.
  split; [reflexivity|]. split; [reflexivity|].
  intros [resp' [Hout Hxor]].
  vm_compute in Hout. injection Hout as <-.
  vm_compute in Hxor. discriminate.
Qed.

(** ** The object resource *)

Section ObjectResource.

Variable OS : os.t.
Variable r : GarageObjectResource.t.

Import GarageObjectResourceModel.

(** What Create of an object uploads.  A plan with a source uploads the
    bytes of that file, whatever its content (source takes precedence; when
    the file cannot be opened Create fails with File Read Error, the content
    is no fallback); a plan with content and no source uploads the content;
    a plan with neither fails with Missing Content and issues no call.  The
    content type sent is application/octet-stream for a source and
    text/plain for a content when the planned content type is null;
    otherwise it is the value of the planned content type. *)
Theorem GarageObjectResource_Create_content
    (req : CreateRequest GarageObjectResourceModel.t)
    (resp : CreateResponse GarageObjectResourceModel.t) :
  diag.HasError (Diagnostics resp) = false ->
  (types.IsNull (Source (CreatePlan req)) = false ->
   forall file : string,
     os.Open OS (types.ValueString (Source (CreatePlan req))) = inl file ->
     calls (GarageObjectResource.Create OS r req resp) =
       [CallPutObject
          (s3.PutObjectInput.mk
             (Some (types.ValueString (Bucket (CreatePlan req))))
             (Some (types.ValueString (Key (CreatePlan req))))
             file
             (Some (if types.IsNull (ContentType (CreatePlan req))
                    then "application/octet-stream"
                    else types.ValueString (ContentType (CreatePlan req)))))])
  /\ (types.IsNull (Source (CreatePlan req)) = false ->
      forall e : error,
        os.Open OS (types.ValueString (Source (CreatePlan req))) = inr e ->
        GarageObjectResource.Create OS r req resp =
          (Returned
             (mkResponse (State resp)
                (Diagnostics resp ++ [diag.NewErrorDiagnostic "File Read Error" e])),
           []))
  /\ (types.IsNull (Source (CreatePlan req)) = true ->
      types.IsNull (Content (CreatePlan req)) = false ->
      calls (GarageObjectResource.Create OS r req resp) =
        [CallPutObject
           (s3.PutObjectInput.mk
              (Some (types.ValueString (Bucket (CreatePlan req))))
              (Some (types.ValueString (Key (CreatePlan req))))
              (types.ValueString (Content (CreatePlan req)))
              (Some (if types.IsNull (ContentType (CreatePlan req))
                     then "text/plain"
                     else types.ValueString (ContentType (CreatePlan req)))))])
  /\ (types.IsNull (Source (CreatePlan req)) = true ->
      types.IsNull (Content (CreatePlan req)) = true ->
      GarageObjectResource.Create OS r req resp =
        (Returned
           (mkResponse (State resp)
              (Diagnostics resp
               ++ [diag.NewErrorDiagnostic "Missing Content"
                     "Either source or content must be specified"])),
         [])).
Proof.
  intros Hfresh. unfold GarageObjectResource.Create. enter_handler Hfresh.
  repeat split.
  - intros -> file ->. cbn [negb]. rewrite calls_bind_call.
    destruct (s3.PutObject _ _) as [[[[etag|]]|] [e|]]; reflexivity.
  - intros -> e ->. cbn [negb]. add_error Hfresh. reflexivity.
  - intros -> ->. cbn [negb]. rewrite calls_bind_call.
    destruct (s3.PutObject _ _) as [[[[etag|]]|] [e|]]; reflexivity.
  - intros -> ->. cbn [negb]. add_error Hfresh. reflexivity.
Qed.

Lemma HasError_AddError (ds : diag.Diagnostics) (summary detail : string) :
  diag.HasError (diag.AddError ds summary detail) = true.
Proof.
  pose proof (AddError_Contains ds summary detail) as H.
  unfold diag.Contains in H. apply existsb_exists in H.
  destruct H as [d [Hin Heq]].
  unfold diag.HasError. apply existsb_exists. exists d. split; [exact Hin|].
  unfold diag.Equal in Heq. cbn [diag.NewErrorDiagnostic diag.Severity_of] in Heq.
  now destruct (diag.Severity_of d).
Qed.

Lemma Create_same_behaviour
    (plan : GarageObjectResourceModel.t)
    (resp resp' : CreateResponse GarageObjectResourceModel.t) :
  Diagnostics resp = Diagnostics resp' ->
  same_behaviour
    (GarageObjectResource.Create OS r (mkCreateRequest plan) resp)
    (GarageObjectResource.Create OS r (mkCreateRequest plan) resp').
Proof.
  intros Hds. unfold same_behaviour, GarageObjectResource.Create.
  decode_input. cbn [CreatePlan]. rewrite <- Hds.
  destruct (diag.HasError (Diagnostics resp)) eqn:Herr.
  { cbn. repeat split; auto.
    intros H. unfold diag.HasError in Herr. rewrite Herr in H. discriminate. }
  assert (Hadd : forall summary detail,
             diag.HasError (diag.AddError (Diagnostics resp) summary detail) = false ->
             State resp = State resp').
  { intros summary detail H. now rewrite HasError_AddError in H. }
  destruct (negb (types.IsNull (Source plan))).
  - destruct (os.Open OS _) as [file|e].
    + unfold calls, outcome, bind, call.
      destruct (s3.PutObject _ _) as [[[[etag|]]|] [e|]]; cbn; repeat split; eauto.
    + cbn. repeat split; eauto.
  - destruct (negb (types.IsNull (Content plan))).
    + unfold calls, outcome, bind, call.
      destruct (s3.PutObject _ _) as [[[[etag|]]|] [e|]]; cbn; repeat split; eauto.
    + cbn. repeat split; eauto.
Qed.

(** C5: Update of an object behaves as Create on the planned values: it
    issues the same calls, ends with the same diagnostics and, when it ends
    without an error, with the same state.  In particular, when Create
    uploads (one PutObject with its bucket, key, body and content type) and
    the upload is answered with an ETag, Update performs that same upload
    and both write the plan with id = bucket/key, that ETag and that content
    type. *)
Theorem GarageObjectResource_Update_as_Create
    (req : UpdateRequest GarageObjectResourceModel.t)
    (uresp : UpdateResponse GarageObjectResourceModel.t)
    (cresp : CreateResponse GarageObjectResourceModel.t) :
  Diagnostics uresp = Diagnostics cresp ->
  same_behaviour
    (GarageObjectResource.Update OS r req uresp)
    (GarageObjectResource.Create OS r (mkCreateRequest (UpdatePlan req)) cresp)
  /\ (diag.HasError (Diagnostics cresp) = false ->
      forall (input : s3.PutObjectInput.t) (contentType etag : string),
        calls (GarageObjectResource.Create OS r (mkCreateRequest (UpdatePlan req)) cresp)
          = [CallPutObject input] ->
        s3.PutObjectInput.ContentType input = Some contentType ->
        s3.PutObject (GarageObjectResource.s3Client r) input
          = (Some (s3.PutObjectOutput.mk (Some etag)), None) ->
        let written :=
          GarageObjectResourceModel.mk
            (Bucket (UpdatePlan req)) (Key (UpdatePlan req))
            (Source (UpdatePlan req)) (Content (UpdatePlan req))
            (types.StringValue contentType)
            (types.StringValue etag)
            (types.StringValue
               (types.ValueString (Bucket (UpdatePlan req)) ++ "/"
                ++ types.ValueString (Key (UpdatePlan req)))) in
        GarageObjectResource.Update OS r req uresp
          = (Returned (mkResponse (Some written) (Diagnostics uresp)), [CallPutObject input])
        /\ GarageObjectResource.Create OS r (mkCreateRequest (UpdatePlan req)) cresp
           = (Returned (mkResponse (Some written) (Diagnostics cresp)), [CallPutObject input])).
Proof.
  intros Hds. split.
  - pose proof (Create_same_behaviour (UpdatePlan req) (unsafe_Pointer uresp) cresp Hds)
      as [Hcalls Hout].
    unfold GarageObjectResource.Update, same_behaviour.
    destruct (GarageObjectResource.Create OS r _ (unsafe_Pointer uresp)) as [[u|msg] t],
      (GarageObjectResource.Create OS r _ cresp) as [[c|msg'] t'];
      unfold calls, outcome in *; cbn [bind ret fst snd] in *;
      rewrite ?app_nil_r; (split; [exact Hcalls|exact Hout]).
  - intros Hfresh input contentType etag Hcalls Htype Hanswer written.
    assert (Hfresh' : diag.HasError (Diagnostics uresp) = false) by now rewrite Hds.
    revert Hcalls. subst written.
    unfold GarageObjectResource.Update, GarageObjectResource.Create, unsafe_Pointer.
    enter_handler Hfresh. rewrite Hfresh'. cbn [CreatePlan].
    destruct (negb (types.IsNull (Source (UpdatePlan req)))).
    + destruct (os.Open OS _) as [file|e]; [|discriminate].
      rewrite calls_bind_call. intros Hcalls.
      injection Hcalls as Hinput _.
      rewrite <- Hinput in Htype. injection Htype as <-.
      rewrite Hinput, Hanswer. split; reflexivity.
    + destruct (negb (types.IsNull (Content (UpdatePlan req)))); [|discriminate].
      rewrite calls_bind_call. intros Hcalls.
      injection Hcalls as Hinput _.
      rewrite <- Hinput in Htype. injection Htype as <-.
      rewrite Hinput, Hanswer. split; reflexivity.
Qed.

End ObjectResource.

Lemma GarageObjectResource_Create_content_witness :
  calls (GarageObjectResource.Create sample.machine
           (GarageObjectResource.mk sample.storage)
           (mkCreateRequest
              (sample.object (types.StringValue "site/index.html")
                 (types.StringValue "hello") types.StringNull))
           (initial_response None))
    = [CallPutObject
         (s3.PutObjectInput.mk (Some "site") (Some "pages/index.html")
            "<html></html>" (Some "application/octet-stream"))]
  /\ GarageObjectResource.Create sample.machine
       (GarageObjectResource.mk sample.storage)
       (mkCreateRequest
          (sample.object (types.StringValue "missing.html")
             (types.StringValue "hello") types.StringNull))
       (initial_response None)
     = (Returned
          (mkResponse None
             [diag.NewErrorDiagnostic "File Read Error"
                "open missing.html: no such file or directory"]),
        [])
  /\ calls (GarageObjectResource.Create sample.machine
              (GarageObjectResource.mk sample.storage)
              (mkCreateRequest
                 (sample.object types.StringNull (types.StringValue "hello")
                    types.StringNull))
              (initial_response None))
     = [CallPutObject
          (s3.PutObjectInput.mk (Some "site") (Some "pages/index.html")
             "hello" (Some "text/plain"))]
  /\ GarageObjectResource.Create sample.machine
       (GarageObjectResource.mk sample.storage)
       (mkCreateRequest
          (sample.object types.StringNull types.StringNull types.StringNull))
       (initial_response None)
     = (Returned
          (mkResponse None
             [diag.NewErrorDiagnostic "Missing Content"
                "Either source or content must be specified"]),
        []).
Proof.
  split; [|split; [|split]].
  - apply (proj1 (GarageObjectResource_Create_content sample.machine
                    (GarageObjectResource.mk sample.storage)
                    (mkCreateRequest
                       (sample.object (types.StringValue "site/index.html")
                          (types.StringValue "hello") types.StringNull))
                    (initial_response None) eq_refl) eq_refl "<html></html>" eq_refl).
  - apply (proj1 (proj2 (GarageObjectResource_Create_content sample.machine
                    (GarageObjectResource.mk sample.storage)
                    (mkCreateRequest
                       (sample.object (types.StringValue "missing.html")
                          (types.StringValue "hello") types.StringNull))
                    (initial_response None) eq_refl)) eq_refl
             "open missing.html: no such file or directory" eq_refl).
  - apply (proj1 (proj2 (proj2 (GarageObjectResource_Create_content sample.machine
                    (GarageObjectResource.mk sample.storage)
                    (mkCreateRequest
                       (sample.object types.StringNull (types.StringValue "hello")
                          types.StringNull))
                    (initial_response None) eq_refl))) eq_refl eq_refl).
  - apply (proj2 (proj2 (proj2 (GarageObjectResource_Create_content sample.machine
                    (GarageObjectResource.mk sample.storage)
                    (mkCreateRequest
                       (sample.object types.StringNull types.StringNull
                          types.StringNull))
                    (initial_response None) eq_refl))) eq_refl eq_refl).
Defined.

Lemma GarageObjectResource_Update_as_Create_witness :
  same_behaviour
    (GarageObjectResource.Update sample.machine (GarageObjectResource.mk sample.storage)
       (mkUpdateRequest
          (sample.object types.StringNull (types.StringValue "hello") types.StringNull))
       (initial_response (Some sample.tracked_object)))
    (GarageObjectResource.Create sample.machine (GarageObjectResource.mk sample.storage)
       (mkCreateRequest
          (sample.object types.StringNull (types.StringValue "hello") types.StringNull))
       (initial_response None))
  /\ GarageObjectResource.Update sample.machine (GarageObjectResource.mk sample.storage)
       (mkUpdateRequest
          (sample.object types.StringNull (types.StringValue "hello") types.StringNull))
       (initial_response (Some sample.tracked_object))
     = (Returned
          (mkResponse
             (Some (GarageObjectResourceModel.mk
                      (types.StringValue "site") (types.StringValue "pages/index.html")
                      types.StringNull (types.StringValue "hello")
                      (types.StringValue "text/plain")
                      (types.StringValue "9a0364b9e99bb480dd25e1f0284c8555")
                      (types.StringValue "site/pages/index.html")))
             []),
        [CallPutObject
           (s3.PutObjectInput.mk (Some "site") (Some "pages/index.html")
              "hello" (Some "text/plain"))]).
Proof.
  split.
  - apply (proj1 (GarageObjectResource_Update_as_Create sample.machine
                    (GarageObjectResource.mk sample.storage)
                    (mkUpdateRequest
                       (sample.object types.StringNull (types.StringValue "hello")
                          types.StringNull))
                    (initial_response (Some sample.tracked_object))
                    (initial_response None) eq_refl)).
  - apply (proj1 (proj2 (GarageObjectResource_Update_as_Create sample.machine
                    (GarageObjectResource.mk sample.storage)
                    (mkUpdateRequest
                       (sample.object types.StringNull (types.StringValue "hello")
                          types.StringNull))
                    (initial_response (Some sample.tracked_object))
                    (initial_response None) eq_refl)
             eq_refl
             (s3.PutObjectInput.mk (Some "site") (Some "pages/index.html")
                "hello" (Some "text/plain"))
             "text/plain" "9a0364b9e99bb480dd25e1f0284c8555"
             eq_refl eq_refl eq_refl)).
Defined.

(** C8, as the code behaves: Read of an object drops the tracked record on
    every error of HeadObject, a transport error included, and reports
    nothing; the error is not surfaced and the step is not failed. *)
Theorem GarageObjectResource_Read_error_drops_record
    (r : GarageObjectResource.t) (req : ReadRequest GarageObjectResourceModel.t)
    (resp : ReadResponse GarageObjectResourceModel.t)
    (headOutput : option s3.HeadObjectOutput.t) (e : error) :
  diag.HasError (Diagnostics resp) = false ->
  s3.HeadObject (GarageObjectResource.s3Client r)
    (s3.HeadObjectInput.mk
       (Some (types.ValueString (GarageObjectResourceModel.Bucket (ReadState req))))
       (Some (types.ValueString (GarageObjectResourceModel.Key (ReadState req)))))
    = (headOutput, Some e) ->
  GarageObjectResource.Read r req resp =
    (Returned (mkResponse None (Diagnostics resp)),
     [CallHeadObject
        (s3.HeadObjectInput.mk
           (Some (types.ValueString (GarageObjectResourceModel.Bucket (ReadState req))))
           (Some (types.ValueString (GarageObjectResourceModel.Key (ReadState req)))))]).
Proof.
  intros Hfresh Hanswer. unfold GarageObjectResource.Read. enter_handler Hfresh.
  unfold aws_String. rewrite Hanswer. reflexivity.
Qed.

(** A tracked object and an object store that cannot be reached (HeadObject
    fails with connection refused): the record is removed from the state
    and there is no diagnostic. *)
Lemma GarageObjectResource_Read_error_drops_record_witness :
  GarageObjectResource.Read (GarageObjectResource.mk sample.unreachable_storage)
      (mkReadRequest sample.tracked_object)
      (initial_response (Some sample.tracked_object))
    = (Returned (mkResponse None []),
       [CallHeadObject (s3.HeadObjectInput.mk (Some "site") (Some "pages/index.html"))]).
Proof.
  apply (GarageObjectResource_Read_error_drops_record
           (GarageObjectResource.mk sample.unreachable_storage)
           (mkReadRequest sample.tracked_object)
           (initial_response (Some sample.tracked_object))
           None sample.s3_connection_refused);
    reflexivity.
Defined.

(** ** Strings *)

Lemma len_app (a b : string) : len (a ++ b)%string = len a + len b.
Proof. unfold len. induction a as [|c a IH]; simpl; [reflexivity|]. now rewrite IH. Qed.

Lemma Index_eq (s sep : string) :
  Index s sep =
    if HasPrefix s sep then Some 0
    else match s with
         | EmptyString => None
         | String _ s' => option_map S (Index s' sep)
         end.
Proof. destruct s; reflexivity. Qed.

Lemma HasPrefix_slash (c : ascii) (s : string) :
  HasPrefix (String c s) "/" = Ascii.eqb "/" c.
Proof.
  cbn [HasPrefix]. replace (HasPrefix s "") with true by now destruct s.
  apply andb_true_r.
Qed.

Lemma HasPrefix_sound (s sep : string) :
  HasPrefix s sep = true -> s = (sep ++ slice_from s (len sep))%string.
Proof.
  revert s. induction sep as [|a sep IH]; intros s H; [now destruct s|].
  destruct s as [|b s]; [discriminate|].
  cbn [HasPrefix] in H. apply andb_true_iff in H. destruct H as [Hab Hrest].
  apply Ascii.eqb_eq in Hab. subst b.
  cbn [len String.length slice_from append]. f_equal. now apply IH.
Qed.

(** [Index] points at an instance of the separator. *)
Lemma Index_sound (s sep : string) (m : nat) :
  Index s sep = Some m ->
  s = (slice_to s m ++ sep ++ slice_from s (m + len sep))%string.
Proof.
  revert m. induction s as [|c s IH]; intros m; rewrite Index_eq.
  - destruct (HasPrefix "" sep) eqn:E; [|discriminate].
    intros [= <-]. now apply HasPrefix_sound.
  - destruct (HasPrefix (String c s) sep) eqn:E.
    + intros [= <-]. now apply HasPrefix_sound.
    + destruct (Index s sep) as [m'|] eqn:Em; [|discriminate].
      intros [= <-]. simpl. f_equal. now apply IH.
Qed.

(** No instance of the separator starts before the one [Index] points at. *)
Lemma Index_first (s sep : string) (m : nat) :
  Index s sep = Some m ->
  forall j, j < m -> HasPrefix (slice_from s j) sep = false.
Proof.
  revert m. induction s as [|c s IH]; intros m; rewrite Index_eq.
  - destruct (HasPrefix "" sep); [|discriminate]. intros [= <-] j Hj. lia.
  - destruct (HasPrefix (String c s) sep) eqn:E.
    + intros [= <-] j Hj. lia.
    + destruct (Index s sep) as [m'|] eqn:Em; [|discriminate].
      intros [= <-] [|j] Hj; [exact E|].
      simpl. apply (IH m' eq_refl). lia.
Qed.

Lemma Index_bound (s sep : string) (m : nat) :
  Index s sep = Some m -> m + len sep <= len s.
Proof.
  assert (Hpre : forall s, HasPrefix s sep = true -> len sep <= len s).
  { intros s0 H. apply HasPrefix_sound in H. apply (f_equal len) in H.
    rewrite len_app in H. lia. }
  revert m. induction s as [|c s IH]; intros m; rewrite Index_eq.
  - destruct (HasPrefix "" sep) eqn:E; [|discriminate].
    intros [= <-]. now apply Hpre.
  - destruct (HasPrefix (String c s) sep) eqn:E.
    + intros [= <-]. now apply Hpre.
    + destruct (Index s sep) as [m'|] eqn:Em; [|discriminate].
      intros [= <-]. specialize (IH m' eq_refl). simpl len. unfold len in *. lia.
Qed.

Lemma slice_to_app (b rest : string) : slice_to (b ++ rest)%string (len b) = b.
Proof. induction b as [|c b IH]; simpl; [now destruct rest|]. now rewrite IH. Qed.

Lemma slice_from_app (b rest : string) : slice_from (b ++ rest)%string (len b) = rest.
Proof. induction b as [|c b IH]; simpl; [now destruct rest|exact IH]. Qed.

(** The first slash of [b ++ "/" ++ k] is the one written, when [b] has none. *)
Lemma Index_slash_app (b k : string) :
  Index b "/" = None -> Index (b ++ "/" ++ k)%string "/" = Some (len b).
Proof.
  induction b as [|c b IH].
  { intros _. change (("" ++ "/" ++ k)%string) with (String "/" k).
    now rewrite Index_eq, HasPrefix_slash. }
  rewrite Index_eq, HasPrefix_slash.
  change ((String c b ++ "/" ++ k)%string) with (String c (b ++ "/" ++ k)%string).
  rewrite (Index_eq (String c _)), HasPrefix_slash.
  destruct (Ascii.eqb "/" c); [discriminate|].
  destruct (Index b "/"); [discriminate|].
  intros _. now rewrite IH.
Qed.

(** What precedes the first slash holds no slash. *)
Lemma Index_slash_before (s : string) (m : nat) :
  Index s "/" = Some m -> Index (slice_to s m) "/" = None.
Proof.
  revert m. induction s as [|c s IH]; intros m; [discriminate|].
  rewrite Index_eq, HasPrefix_slash.
  destruct (Ascii.eqb "/" c) eqn:E.
  - intros [= <-]. reflexivity.
  - destruct (Index s "/") as [m'|] eqn:Em; [|discriminate].
    intros [= <-]. simpl slice_to.
    rewrite Index_eq, HasPrefix_slash, E, (IH m' eq_refl). reflexivity.
Qed.

Lemma genSplitLoop_absent (n : nat) (s sep : string) :
  Index s sep = None -> strings.genSplitLoop n s sep = [s].
Proof. intros H. destruct n; simpl; [reflexivity|]. now rewrite H. Qed.

Lemma SplitN_slash_absent (s : string) :
  Index s "/" = None -> strings.SplitN s "/" 2 = [s].
Proof.
  intros H. unfold strings.SplitN. cbn [Z.eqb String.eqb Ascii.eqb Z.ltb Z.compare].
  now apply genSplitLoop_absent.
Qed.

Lemma SplitN_slash_found (b k : string) :
  Index b "/" = None -> strings.SplitN (b ++ "/" ++ k)%string "/" 2 = [b; k].
Proof.
  intros H. unfold strings.SplitN. cbn [Z.eqb String.eqb Ascii.eqb Z.ltb Z.compare].
  destruct (Z.gtb_spec 2 (Z.of_nat (len (b ++ "/" ++ k)%string) + 1)) as [Hgt|Hle].
  { rewrite !len_app in Hgt. simpl len in Hgt. lia. }
  change (Z.to_nat (2 - 1)) with 1. cbn [strings.genSplitLoop].
  rewrite (Index_slash_app b k H), slice_to_app.
  replace (len b + len "/") with (len (b ++ "/")%string) by apply len_app.
  replace ((b ++ "/" ++ k)%string) with (((b ++ "/") ++ k)%string).
  - now rewrite slice_from_app.
  - clear. induction b as [|c b IH]; simpl; [reflexivity|now rewrite IH].
Qed.

(** ** Import of an object *)

Lemma Contains_false (s substr : string) :
  Contains s substr = false -> Index s substr = None.
Proof. unfold Contains. now destruct (Index s substr). Qed.

(** Every identifier with a slash splits at its first slash. *)
Lemma first_slash (s : string) :
  Contains s "/" = true ->
  exists bucket key : string,
    s = (bucket ++ "/" ++ key)%string /\ Contains bucket "/" = false.
Proof.
  unfold Contains at 1. destruct (Index s "/") as [m|] eqn:E; [intros _|discriminate].
  exists (slice_to s m), (slice_from s (m + len "/")). split.
  - now apply Index_sound.
  - unfold Contains. now rewrite (Index_slash_before s m E).
Qed.

(** C6: ImportState of an object, for an identifier that contains a slash,
    writes bucket = what precedes the first slash, key = all that follows
    that slash (later slashes stay in the key) and id = the whole
    identifier, leaves every other attribute as it was (null in a null
    state) and reports nothing; an identifier without a slash is rejected
    with the Invalid Import ID error and the state is left untouched. *)
Theorem GarageObjectResource_ImportState_split
    (r : GarageObjectResource.t) (req : ImportStateRequest)
    (resp : ImportStateResponse GarageObjectResourceModel.t) :
  (Contains (ImportID req) "/" = true ->
   exists bucket key : string,
     ImportID req = (bucket ++ "/" ++ key)%string /\ Contains bucket "/" = false)
  /\ (forall bucket key : string,
      ImportID req = (bucket ++ "/" ++ key)%string ->
      Contains bucket "/" = false ->
      GarageObjectResource.ImportState r req resp =
        (Returned
           (mkResponse
              (Some
                 (let base :=
                    match State resp with
                    | Some m => m
                    | None => GarageObjectResourceModel.null
                    end in
                  GarageObjectResourceModel.mk
                    (types.StringValue bucket)
                    (types.StringValue key)
                    (GarageObjectResourceModel.Source base)
                    (GarageObjectResourceModel.Content base)
                    (GarageObjectResourceModel.ContentType base)
                    (GarageObjectResourceModel.ETag base)
                    (types.StringValue (ImportID req))))
              (Diagnostics resp)),
         []))
  /\ (Contains (ImportID req) "/" = false ->
      GarageObjectResource.ImportState r req resp =
        (Returned
           (mkResponse (State resp)
              (diag.AddError (Diagnostics resp) "Invalid Import ID"
                 ("Expected import ID in format 'bucket/key', got: " ++ ImportID req))),
         [])).
Proof.
  split; [apply first_slash|]. split.
  - intros bucket key Hid Hbucket. unfold GarageObjectResource.ImportState.
    rewrite Hid at 1. rewrite (SplitN_slash_found bucket key (Contains_false _ _ Hbucket)).
    unfold State_SetAttribute, GarageObjectResourceModel.SetAttribute.
    decode_input. now destruct (State resp).
  - intros Hnone. unfold GarageObjectResource.ImportState.
    now rewrite (SplitN_slash_absent _ (Contains_false _ _ Hnone)).
Qed.

Lemma GarageObjectResource_ImportState_split_witness :
  GarageObjectResource.ImportState (GarageObjectResource.mk sample.storage)
      (mkImportStateRequest "site/pages/index.html") (initial_response None)
    = (Returned
         (mkResponse
            (Some (GarageObjectResourceModel.mk
                     (types.StringValue "site") (types.StringValue "pages/index.html")
                     types.StringNull types.StringNull types.StringNull types.StringNull
                     (types.StringValue "site/pages/index.html")))
            []),
       [])
  /\ GarageObjectResource.ImportState (GarageObjectResource.mk sample.storage)
       (mkImportStateRequest "index.html") (initial_response None)
     = (Returned
          (mkResponse None
             [diag.NewErrorDiagnostic "Invalid Import ID"
                "Expected import ID in format 'bucket/key', got: index.html"]),
        []).
Proof.
  split.
  - apply (proj1 (proj2 (GarageObjectResource_ImportState_split
                           (GarageObjectResource.mk sample.storage)
                           (mkImportStateRequest "site/pages/index.html")
                           (initial_response None)))
             "site" "pages/index.html"); reflexivity.
  - apply (proj2 (proj2 (GarageObjectResource_ImportState_split
                           (GarageObjectResource.mk sample.storage)
                           (mkImportStateRequest "index.html")
                           (initial_response None)))); reflexivity.
Defined.

(** ** Replacing in strings *)

Lemma countLoop_absent (fuel : nat) (s sep : string) :
  Index s sep = None -> strings.countLoop fuel s sep = 0.
Proof. intros H. destruct fuel; simpl; [reflexivity|]. now rewrite H. Qed.

(** Without an instance of [old] nothing is replaced. *)
Lemma Replace_absent (s old new : string) (n : Z) :
  old <> "" -> Index s old = None -> strings.Replace s old new n = s.
Proof.
  intros Hold H. unfold strings.Replace, strings.Count.
  destruct (String.eqb old new || (n =? 0)%Z); [reflexivity|].
  apply String.eqb_neq in Hold. rewrite Hold.
  now rewrite (countLoop_absent _ _ _ H).
Qed.

(** With [n = 1] the first instance of [old] is replaced, and only it. *)
Lemma Replace_first (s old new : string) (m : nat) :
  old <> "" -> old <> new -> Index s old = Some m ->
  strings.Replace s old new 1
    = (slice_to s m ++ new ++ slice_from s (m + len old))%string.
Proof.
  intros Hold Hnew H. unfold strings.Replace, strings.Count.
  apply String.eqb_neq in Hnew. rewrite Hnew.
  pose proof Hold as Hold'. apply String.eqb_neq in Hold'. rewrite Hold'.
  cbn [orb Z.eqb].
  pose proof (Index_bound s old m H) as Hbound.
  assert (Hlen : 0 < len old) by (destruct old; [congruence|simpl; lia]).
  destruct (len s) as [|fuel] eqn:Es; [lia|].
  cbn [strings.countLoop]. rewrite H.
  destruct (Z.eqb_spec (Z.of_nat (S (strings.countLoop fuel (slice_from s (m + len old)) old))) 0)
    as [Hz|_]; [lia|].
  destruct (Z.ltb_spec (Z.of_nat (S (strings.countLoop fuel (slice_from s (m + len old)) old))) 1)
    as [Hz|_]; [lia|].
  cbn [orb Z.ltb Z.compare]. change (Z.to_nat 1) with 1.
  cbn [strings.replaceLoop]. now rewrite H.
Qed.

Lemma replacePort_3903 (endpoint : string) :
  GarageProvider.replacePort endpoint "3903" "3900" = first_3903_replaced endpoint.
Proof.
  unfold GarageProvider.replacePort, first_3903_replaced.
  change ((":" ++ "3903")%string) with ":3903". change ((":" ++ "3900")%string) with ":3900".
  destruct (Index endpoint ":3903") as [m|] eqn:E.
  - now rewrite (Replace_first endpoint ":3903" ":3900" m).
  - now rewrite (Replace_absent endpoint ":3903" ":3900" 1).
Qed.

(** ** The provider *)

(** C7, as the code has it: when the endpoints block gives no admin value
    (it is absent, or its admin attribute is null or empty) and the
    deprecated endpoint attribute is set to a non-empty value, the admin
    endpoint is the deprecated value, and the S3 endpoint is that value with
    its first ":3903" replaced by ":3900" unless the block gives an S3
    value, which is then kept; when the block gives an admin value, the
    endpoints are those of the block and nothing is substituted; with no
    admin value from either, Configure reports Missing Admin Endpoint. *)
Theorem GarageProvider_Configure_endpoints
    (OS : os.t) (req : provider.ConfigureRequest) (resp : provider.ConfigureResponse) :
  diag.HasError (provider.Diagnostics resp) = false ->
  (block_admin (provider.Config req) = "" ->
   types.IsNull (GarageProviderModel.Endpoint (provider.Config req)) = false ->
   types.ValueString (GarageProviderModel.Endpoint (provider.Config req)) <> "" ->
   GarageProvider.Configure OS req resp =
     (let deprecated :=
        types.ValueString (GarageProviderModel.Endpoint (provider.Config req)) in
      let data :=
        provider_data OS (provider.Config req) deprecated
          (if String.eqb (block_s3 (provider.Config req)) ""
           then first_3903_replaced deprecated
           else block_s3 (provider.Config req)) in
      provider.mkConfigureResponse (Some data) (Some data) (provider.Diagnostics resp)))
  /\ (block_admin (provider.Config req) <> "" ->
      GarageProvider.Configure OS req resp =
        (let data :=
           provider_data OS (provider.Config req)
             (block_admin (provider.Config req)) (block_s3 (provider.Config req)) in
         provider.mkConfigureResponse (Some data) (Some data) (provider.Diagnostics resp)))
  /\ (block_admin (provider.Config req) = "" ->
      types.ValueString (GarageProviderModel.Endpoint (provider.Config req)) = "" ->
      GarageProvider.Configure OS req resp =
        provider.mkConfigureResponse
          (provider.DataSourceData resp) (provider.ResourceData resp)
          (provider.Diagnostics resp
           ++ [diag.NewErrorDiagnostic "Missing Admin Endpoint"
                 "Either 'endpoints.admin' or deprecated 'endpoint' must be configured"])).
Proof.
  intros Hfresh.
  destruct req as [[endpoint token endpoints accessKey secretKey]].
  unfold GarageProvider.Configure, block_admin, block_s3, provider_data, credential.
  cbn [provider.Config GarageProviderModel.Endpoint GarageProviderModel.Endpoints
       GarageProviderModel.Token GarageProviderModel.AccessKey
       GarageProviderModel.SecretKey tfsdk.Get diag.Append provider.Diagnostics
       provider.DataSourceData provider.ResourceData].
  rewrite Hfresh, replacePort_3903, (AddError_no_error _ _ _ Hfresh).
  split; [|split].
  - intros Hadmin Hset Hvalue.
    apply String.eqb_neq in Hvalue.
    destruct endpoints as [[admin s3]|];
      cbn [EndpointsModel.Admin EndpointsModel.S3] in *.
    + destruct admin as [| |admin]; cbn [types.ValueString types.IsNull negb] in *;
        subst; cbn [String.eqb andb]; rewrite Hset; cbn [negb];
        destruct s3 as [| |s3]; cbn [types.ValueString types.IsNull negb String.eqb];
        rewrite ?Hvalue; reflexivity.
    + cbn [String.eqb andb]. rewrite Hset. cbn [negb]. now rewrite Hvalue.
  - intros Hadmin. apply String.eqb_neq in Hadmin.
    destruct endpoints as [[admin s3]|]; [|discriminate].
    cbn [EndpointsModel.Admin EndpointsModel.S3] in *.
    destruct admin as [| |admin]; cbn [types.ValueString] in Hadmin; try discriminate.
    cbn [types.ValueString types.IsNull negb]. rewrite Hadmin. cbn [andb].
    destruct s3 as [| |s3]; cbn [types.ValueString types.IsNull negb];
      rewrite Hadmin; reflexivity.
  - intros Hadmin Hvalue.
    destruct endpoints as [[admin s3]|];
      cbn [EndpointsModel.Admin EndpointsModel.S3] in *.
    + destruct admin as [| |admin]; cbn [types.ValueString types.IsNull negb] in *;
        subst; cbn [String.eqb andb];
        destruct (negb (types.IsNull endpoint)); rewrite ?Hvalue;
        destruct s3 as [| |s3]; cbn [types.ValueString types.IsNull negb String.eqb];
        reflexivity.
    + cbn [String.eqb andb].
      destruct (negb (types.IsNull endpoint)); rewrite ?Hvalue; reflexivity.
Qed.

Lemma GarageProvider_Configure_endpoints_witness :
  GarageProvider.Configure sample.machine
      (provider.mkConfigureRequest sample.config_deprecated) sample.unconfigured
    = (let data :=
         provider_data sample.machine sample.config_deprecated
           "http://localhost:3903" "http://localhost:3900" in
       provider.mkConfigureResponse (Some data) (Some data) [])
  /\ GarageProvider.Configure sample.machine
       (provider.mkConfigureRequest sample.config_block) sample.unconfigured
     = (let data :=
          provider_data sample.machine sample.config_block "http://garage:3903" "" in
        provider.mkConfigureResponse (Some data) (Some data) [])
  /\ GarageProvider.Configure sample.machine
       (provider.mkConfigureRequest (sample.provider_config types.StringNull None))
       sample.unconfigured
     = provider.mkConfigureResponse None None
         [diag.NewErrorDiagnostic "Missing Admin Endpoint"
            "Either 'endpoints.admin' or deprecated 'endpoint' must be configured"].
Proof.
  split; [|split].
  - apply (proj1 (GarageProvider_Configure_endpoints sample.machine
                    (provider.mkConfigureRequest sample.config_deprecated)
                    sample.unconfigured eq_refl)); [reflexivity|reflexivity|discriminate].
  - apply (proj1 (proj2 (GarageProvider_Configure_endpoints sample.machine
                    (provider.mkConfigureRequest sample.config_block)
                    sample.unconfigured eq_refl))); discriminate.
  - apply (proj2 (proj2 (GarageProvider_Configure_endpoints sample.machine
                    (provider.mkConfigureRequest
                       (sample.provider_config types.StringNull None))
                    sample.unconfigured eq_refl))); reflexivity.
Defined.

(** C7, where it fails as stated: a block that gives no admin value but an
    S3 value, with the deprecated attribute set.  The admin endpoint is the
    deprecated value, yet the S3 endpoint is the one of the block, not the
    deprecated value with its port replaced. *)
Lemma GarageProvider_Configure_keeps_block_s3 :
  block_admin sample.config_deprecated_and_s3 = ""
  /\ GarageProviderModel.Endpoint sample.config_deprecated_and_s3
     = types.StringValue "http://localhost:3903"
  /\ GarageProvider.replacePort "http://localhost:3903" "3903" "3900"
     = "http://localhost:3900"
  /\ stored_s3
       (GarageProvider.Configure sample.machine
          (provider.mkConfigureRequest sample.config_deprecated_and_s3)
          sample.unconfigured)
     = Some (types.StringValue "https://s3.garage.example")
  /\ stored_s3
       (GarageProvider.Configure sample.machine
          (provider.mkConfigureRequest sample.config_deprecated_and_s3)
          sample.unconfigured)
     <> Some (types.StringValue
                (GarageProvider.replacePort "http://localhost:3903" "3903" "3900")).
Proof.
  repeat split. vm_compute. discriminate.
Qed.

(** * Further properties *)

(** ** Handlers and a response that already failed *)

(** X1: a handler that is handed a response which already carries an error
    returns that response as it is and issues no call.  This holds for
    Create, Read and Update of a key, Read of the bucket data source, and
    Create, Read and Update of an object. *)
Theorem handlers_stop_at_error
    (OS : os.t) (k : KeyResource.t) (b : BucketDataSource.t) (o : GarageObjectResource.t)
    (kc : CreateResponse KeyResourceModel.t) (kr : ReadResponse KeyResourceModel.t)
    (ku : UpdateResponse KeyResourceModel.t)
    (br : DataReadResponse BucketDataSourceModel.t)
    (oc : CreateResponse GarageObjectResourceModel.t)
    (ord : ReadResponse GarageObjectResourceModel.t)
    (ou : UpdateResponse GarageObjectResourceModel.t) :
  (diag.HasError (Diagnostics kc) = true ->
   forall req, KeyResource.Create k req kc = (Returned kc, []))
  /\ (diag.HasError (Diagnostics kr) = true ->
      forall req, KeyResource.Read k req kr = (Returned kr, []))
  /\ (diag.HasError (Diagnostics ku) = true ->
      forall req, KeyResource.Update k req ku = (Returned ku, []))
  /\ (diag.HasError (Diagnostics br) = true ->
      forall req, BucketDataSource.Read b req br = (Returned br, []))
  /\ (diag.HasError (Diagnostics oc) = true ->
      forall req, GarageObjectResource.Create OS o req oc = (Returned oc, []))
  /\ (diag.HasError (Diagnostics ord) = true ->
      forall req, GarageObjectResource.Read o req ord = (Returned ord, []))
  /\ (diag.HasError (Diagnostics ou) = true ->
      forall req, GarageObjectResource.Update OS o req ou = (Returned ou, [])).
Proof.
  repeat match goal with |- _ /\ _ => split end; intros Herr req.
  - unfold KeyResource.Create. enter_handler Herr. now destruct kc.
  - unfold KeyResource.Read. enter_handler Herr. now destruct kr.
  - unfold KeyResource.Update. enter_handler Herr. now destruct ku.
  - unfold BucketDataSource.Read. enter_handler Herr. now destruct br.
  - unfold GarageObjectResource.Create. enter_handler Herr. now destruct oc.
  - unfold GarageObjectResource.Read. enter_handler Herr. now destruct ord.
  - unfold GarageObjectResource.Update, GarageObjectResource.Create, unsafe_Pointer.
    enter_handler Herr. cbn [bind ret]. now destruct ou.
Qed.

Lemma handlers_stop_at_error_witness :
  KeyResource.Create (KeyResource.mk sample.cluster)
      (mkCreateRequest sample.plan_generated) (fixture.failed None)
    = (Returned (fixture.failed None), [])
  /\ BucketDataSource.Read (BucketDataSource.mk sample.cluster)
       (mkDataReadRequest sample.lookup_by_id) (fixture.failed None)
     = (Returned (fixture.failed None), [])
  /\ GarageObjectResource.Update sample.machine (GarageObjectResource.mk sample.storage)
       (mkUpdateRequest sample.tracked_object) (fixture.failed (Some sample.tracked_object))
     = (Returned (fixture.failed (Some sample.tracked_object)), []).
Proof.
  split; [|split].
  - apply (proj1 (handlers_stop_at_error sample.machine
                    (KeyResource.mk sample.cluster) (BucketDataSource.mk sample.cluster)
                    (GarageObjectResource.mk sample.storage)
                    (fixture.failed None) (fixture.failed None) (fixture.failed None)
                    (fixture.failed None) (fixture.failed None) (fixture.failed None)
                    (fixture.failed (Some sample.tracked_object)))).
    reflexivity.
  - apply (proj1 (proj2 (proj2 (proj2 (handlers_stop_at_error sample.machine
                    (KeyResource.mk sample.cluster) (BucketDataSource.mk sample.cluster)
                    (GarageObjectResource.mk sample.storage)
                    (fixture.failed None) (fixture.failed None) (fixture.failed None)
                    (fixture.failed None) (fixture.failed None) (fixture.failed None)
                    (fixture.failed (Some sample.tracked_object))))))).
    reflexivity.
  - apply (proj2 (proj2 (proj2 (proj2 (proj2 (proj2 (handlers_stop_at_error sample.machine
                    (KeyResource.mk sample.cluster) (BucketDataSource.mk sample.cluster)
                    (GarageObjectResource.mk sample.storage)
                    (fixture.failed None) (fixture.failed None) (fixture.failed None)
                    (fixture.failed None) (fixture.failed None) (fixture.failed None)
                    (fixture.failed (Some sample.tracked_object))))))))).
    reflexivity.
Defined.

(** ** The access-key resource, further *)

(** X2: Create of a key that imports (id and secret supplied) and is
    answered with a key writes the id and name of the answer and the secret
    of the plan; the secret of the answer, if any, is not used. *)
Theorem KeyResource_Create_import_success
    (r : KeyResource.t) (req : CreateRequest KeyResourceModel.t)
    (resp : CreateResponse KeyResourceModel.t) (key : client.Key.t) :
  diag.HasError (Diagnostics resp) = false ->
  supplied (KeyResourceModel.ID (CreatePlan req)) = true ->
  supplied (KeyResourceModel.SecretAccessKey (CreatePlan req)) = true ->
  client.ImportKey (KeyResource.client r)
    (client.ImportKeyRequest.mk
       (types.ValueString (KeyResourceModel.ID (CreatePlan req)))
       (types.ValueString (KeyResourceModel.SecretAccessKey (CreatePlan req)))
       (pointer_unless_null (KeyResourceModel.Name (CreatePlan req))))
    = (Some key, None) ->
  outcome (KeyResource.Create r req resp) =
    Returned
      (mkResponse
         (Some (KeyResourceModel.mk
                  (types.StringValue (client.Key.AccessKeyID key))
                  (types.StringValue (client.Key.Name key))
                  (KeyResourceModel.SecretAccessKey (CreatePlan req))))
         (Diagnostics resp)).
Proof.
  intros Hfresh Hid Hsecret Hanswer.
  destruct req as [[id name secret]];
    cbn [CreatePlan KeyResourceModel.ID KeyResourceModel.SecretAccessKey
         KeyResourceModel.Name] in *.
  unfold KeyResource.Create. enter_handler Hfresh.
  cbn [CreatePlan KeyResourceModel.ID KeyResourceModel.SecretAccessKey
       KeyResourceModel.Name].
  fold (supplied id). fold (supplied secret). fold (pointer_unless_null name).
  rewrite Hid, Hsecret. cbn [andb]. rewrite Hanswer.
  destruct secret; try discriminate. reflexivity.
Qed.

Lemma KeyResource_Create_import_success_witness :
  outcome (KeyResource.Create (KeyResource.mk sample.cluster)
             (mkCreateRequest sample.plan_id_and_secret) (initial_response None))
    = Returned (mkResponse (Some sample.plan_id_and_secret) []).
Proof.
  apply (KeyResource_Create_import_success (KeyResource.mk sample.cluster)
           (mkCreateRequest sample.plan_id_and_secret) (initial_response None)
           sample.key); reflexivity.
Defined.

(** X3: Create of a key that generates (neither id nor secret supplied)
    and is answered with a key writes the id and name of the answer, and
    the secret of the answer when it carries one; when it carries none, the
    secret of the plan stays as it was (null or unknown). *)
Theorem KeyResource_Create_generate_success
    (r : KeyResource.t) (req : CreateRequest KeyResourceModel.t)
    (resp : CreateResponse KeyResourceModel.t) (key : client.Key.t) :
  diag.HasError (Diagnostics resp) = false ->
  supplied (KeyResourceModel.ID (CreatePlan req)) = false ->
  supplied (KeyResourceModel.SecretAccessKey (CreatePlan req)) = false ->
  client.CreateKey (KeyResource.client r)
    (client.CreateKeyRequest.mk
       (pointer_unless_null (KeyResourceModel.Name (CreatePlan req))))
    = (Some key, None) ->
  outcome (KeyResource.Create r req resp) =
    Returned
      (mkResponse
         (Some (KeyResourceModel.mk
                  (types.StringValue (client.Key.AccessKeyID key))
                  (types.StringValue (client.Key.Name key))
                  (match client.Key.SecretAccessKey key with
                   | Some secret => types.StringValue secret
                   | None => KeyResourceModel.SecretAccessKey (CreatePlan req)
                   end)))
         (Diagnostics resp)).
Proof.
  intros Hfresh Hid Hsecret Hanswer.
  destruct req as [[id name secret]];
    cbn [CreatePlan KeyResourceModel.ID KeyResourceModel.SecretAccessKey
         KeyResourceModel.Name] in *.
  unfold KeyResource.Create. enter_handler Hfresh.
  cbn [CreatePlan KeyResourceModel.ID KeyResourceModel.SecretAccessKey
       KeyResourceModel.Name].
  fold (supplied id). fold (supplied secret). fold (pointer_unless_null name).
  rewrite Hid, Hsecret. cbn [andb negb]. rewrite Hanswer. reflexivity.
Qed.

Lemma KeyResource_Create_generate_success_witness :
  outcome (KeyResource.Create (KeyResource.mk sample.cluster)
             (mkCreateRequest sample.plan_generated) (initial_response None))
    = Returned
        (mkResponse
           (Some (KeyResourceModel.mk
                    (types.StringValue "GK31c2f218a2e44f485b94239e")
                    (types.StringValue "ci-deploy")
                    (types.StringValue
                       "b892c0665f0ada8a4755dae98baa3b133590e11dae3bcc1f9d769d67f16c3835")))
           []).
Proof.
  apply (KeyResource_Create_generate_success (KeyResource.mk sample.cluster)
           (mkCreateRequest sample.plan_generated) (initial_response None)
           sample.key_with_secret); reflexivity.
Defined.

(** X4: when the admin API answers ImportKey or CreateKey with an error,
    Create reports it as a Client Error that quotes the error, leaves the
    state as it was, and has issued that one call only. *)
Theorem KeyResource_Create_client_error
    (r : KeyResource.t) (req : CreateRequest KeyResourceModel.t)
    (resp : CreateResponse KeyResourceModel.t) (key : option client.Key.t) (e : error) :
  diag.HasError (Diagnostics resp) = false ->
  (supplied (KeyResourceModel.ID (CreatePlan req)) = true ->
   supplied (KeyResourceModel.SecretAccessKey (CreatePlan req)) = true ->
   client.ImportKey (KeyResource.client r)
     (client.ImportKeyRequest.mk
        (types.ValueString (KeyResourceModel.ID (CreatePlan req)))
        (types.ValueString (KeyResourceModel.SecretAccessKey (CreatePlan req)))
        (pointer_unless_null (KeyResourceModel.Name (CreatePlan req))))
     = (key, Some e) ->
   KeyResource.Create r req resp =
     (Returned
        (mkResponse (State resp)
           (Diagnostics resp
            ++ [diag.NewErrorDiagnostic "Client Error"
                  ("Unable to import access key, got error: " ++ e)])),
      [CallImportKey
         (client.ImportKeyRequest.mk
            (types.ValueString (KeyResourceModel.ID (CreatePlan req)))
            (types.ValueString (KeyResourceModel.SecretAccessKey (CreatePlan req)))
            (pointer_unless_null (KeyResourceModel.Name (CreatePlan req))))]))
  /\ (supplied (KeyResourceModel.ID (CreatePlan req)) = false ->
      supplied (KeyResourceModel.SecretAccessKey (CreatePlan req)) = false ->
      client.CreateKey (KeyResource.client r)
        (client.CreateKeyRequest.mk
           (pointer_unless_null (KeyResourceModel.Name (CreatePlan req))))
        = (key, Some e) ->
      KeyResource.Create r req resp =
        (Returned
           (mkResponse (State resp)
              (Diagnostics resp
               ++ [diag.NewErrorDiagnostic "Client Error"
                     ("Unable to create access key, got error: " ++ e)])),
         [CallCreateKey
            (client.CreateKeyRequest.mk
               (pointer_unless_null (KeyResourceModel.Name (CreatePlan req))))])).
Proof.
  intros Hfresh.
  destruct req as [[id name secret]];
    cbn [CreatePlan KeyResourceModel.ID KeyResourceModel.SecretAccessKey
         KeyResourceModel.Name] in *.
  unfold KeyResource.Create. enter_handler Hfresh.
  cbn [CreatePlan KeyResourceModel.ID KeyResourceModel.SecretAccessKey
       KeyResourceModel.Name].
  fold (supplied id). fold (supplied secret). fold (pointer_unless_null name).
  split; intros -> -> Hanswer; cbn [andb negb]; apply bind_call_returned;
    rewrite Hanswer; add_error Hfresh; reflexivity.
Qed.

Lemma KeyResource_Create_client_error_witness :
  KeyResource.Create (KeyResource.mk sample.unreachable_cluster)
      (mkCreateRequest sample.plan_id_and_secret) (initial_response None)
    = (Returned
         (mkResponse None
            [diag.NewErrorDiagnostic "Client Error"
               "Unable to import access key, got error: dial tcp 127.0.0.1:3903: connect: connection refused"]),
       [CallImportKey
          (client.ImportKeyRequest.mk "GK31c2f218a2e44f485b94239e"
             "b892c0665f0ada8a4755dae98baa3b133590e11dae3bcc1f9d769d67f16c3835"
             (Some "ci-deploy"))])
  /\ KeyResource.Create (KeyResource.mk sample.unreachable_cluster)
       (mkCreateRequest sample.plan_generated) (initial_response None)
     = (Returned
          (mkResponse None
             [diag.NewErrorDiagnostic "Client Error"
                "Unable to create access key, got error: dial tcp 127.0.0.1:3903: connect: connection refused"]),
        [CallCreateKey (client.CreateKeyRequest.mk (Some "ci-deploy"))]).
Proof.
  split.
  - apply (proj1 (KeyResource_Create_client_error
                    (KeyResource.mk sample.unreachable_cluster)
                    (mkCreateRequest sample.plan_id_and_secret) (initial_response None)
                    None sample.connection_refused eq_refl)); reflexivity.
  - apply (proj2 (KeyResource_Create_client_error
                    (KeyResource.mk sample.unreachable_cluster)
                    (mkCreateRequest sample.plan_generated) (initial_response None)
                    None sample.connection_refused eq_refl)); reflexivity.
Defined.

(** X5: when the admin API answers ImportKey or CreateKey with neither a
    key nor an error, Create dereferences the nil key and panics, after the
    call was issued; Read treats the same answer of GetKeyInfo as not
    found. *)
Theorem KeyResource_Create_nil_key_panics
    (r : KeyResource.t) (req : CreateRequest KeyResourceModel.t)
    (resp : CreateResponse KeyResourceModel.t) :
  diag.HasError (Diagnostics resp) = false ->
  (supplied (KeyResourceModel.ID (CreatePlan req)) = true ->
   supplied (KeyResourceModel.SecretAccessKey (CreatePlan req)) = true ->
   client.ImportKey (KeyResource.client r)
     (client.ImportKeyRequest.mk
        (types.ValueString (KeyResourceModel.ID (CreatePlan req)))
        (types.ValueString (KeyResourceModel.SecretAccessKey (CreatePlan req)))
        (pointer_unless_null (KeyResourceModel.Name (CreatePlan req))))
     = (None, None) ->
   KeyResource.Create r req resp =
     (Panicked nil_dereference,
      [CallImportKey
         (client.ImportKeyRequest.mk
            (types.ValueString (KeyResourceModel.ID (CreatePlan req)))
            (types.ValueString (KeyResourceModel.SecretAccessKey (CreatePlan req)))
            (pointer_unless_null (KeyResourceModel.Name (CreatePlan req))))]))
  /\ (supplied (KeyResourceModel.ID (CreatePlan req)) = false ->
      supplied (KeyResourceModel.SecretAccessKey (CreatePlan req)) = false ->
      client.CreateKey (KeyResource.client r)
        (client.CreateKeyRequest.mk
           (pointer_unless_null (KeyResourceModel.Name (CreatePlan req))))
        = (None, None) ->
      KeyResource.Create r req resp =
        (Panicked nil_dereference,
         [CallCreateKey
            (client.CreateKeyRequest.mk
               (pointer_unless_null (KeyResourceModel.Name (CreatePlan req))))])).
Proof.
  intros Hfresh.
  destruct req as [[id name secret]];
    cbn [CreatePlan KeyResourceModel.ID KeyResourceModel.SecretAccessKey
         KeyResourceModel.Name] in *.
  unfold KeyResource.Create. enter_handler Hfresh.
  cbn [CreatePlan KeyResourceModel.ID KeyResourceModel.SecretAccessKey
       KeyResourceModel.Name].
  fold (supplied id). fold (supplied secret). fold (pointer_unless_null name).
  split; intros -> -> Hanswer; cbn [andb negb]; unfold bind, call;
    rewrite Hanswer; reflexivity.
Qed.

Lemma KeyResource_Create_nil_key_panics_witness :
  KeyResource.Create (KeyResource.mk fixture.silent_cluster)
      (mkCreateRequest sample.plan_id_and_secret) (initial_response None)
    = (Panicked nil_dereference,
       [CallImportKey
          (client.ImportKeyRequest.mk "GK31c2f218a2e44f485b94239e"
             "b892c0665f0ada8a4755dae98baa3b133590e11dae3bcc1f9d769d67f16c3835"
             (Some "ci-deploy"))])
  /\ KeyResource.Create (KeyResource.mk fixture.silent_cluster)
       (mkCreateRequest sample.plan_generated) (initial_response None)
     = (Panicked nil_dereference,
        [CallCreateKey (client.CreateKeyRequest.mk (Some "ci-deploy"))]).
Proof.
  split.
  - apply (proj1 (KeyResource_Create_nil_key_panics
                    (KeyResource.mk fixture.silent_cluster)
                    (mkCreateRequest sample.plan_id_and_secret) (initial_response None)
                    eq_refl)); reflexivity.
  - apply (proj2 (KeyResource_Create_nil_key_panics
                    (KeyResource.mk fixture.silent_cluster)
                    (mkCreateRequest sample.plan_generated) (initial_response None)
                    eq_refl)); reflexivity.
Defined.

(** Read leaves a state that agrees with the cluster as it is. *)
Lemma KeyResource_Read_in_sync
    (r : KeyResource.t) (id name : string) (secret : types.String) (key : client.Key.t)
    (resp : ReadResponse KeyResourceModel.t) :
  diag.HasError (Diagnostics resp) = false ->
  client.GetKeyInfo (KeyResource.client r) (client.GetKeyInfoRequest.mk id)
    = (Some key, None) ->
  client.Key.AccessKeyID key = id ->
  client.Key.Name key = name ->
  KeyResource.Read r
    (mkReadRequest
       (KeyResourceModel.mk (types.StringValue id) (types.StringValue name) secret))
    resp
  = (Returned
       (mkResponse
          (Some (KeyResourceModel.mk (types.StringValue id) (types.StringValue name) secret))
          (Diagnostics resp)),
     [CallGetKeyInfo (client.GetKeyInfoRequest.mk id)]).
Proof.
  intros Hfresh Hanswer Hid Hname. unfold KeyResource.Read. enter_handler Hfresh.
  cbn [ReadState KeyResourceModel.ID KeyResourceModel.SecretAccessKey types.ValueString].
  rewrite Hanswer, <- Hid, <- Hname. reflexivity.
Qed.

(** X6: a key that was just generated survives the next refresh, secret
    included: when CreateKey answers with a key and GetKeyInfo then answers
    for that id with the same id and name, Read of the state Create wrote
    writes that same state again and reports nothing. *)
Theorem KeyResource_Create_then_Read
    (r : KeyResource.t) (req : CreateRequest KeyResourceModel.t)
    (key found : client.Key.t) :
  supplied (KeyResourceModel.ID (CreatePlan req)) = false ->
  supplied (KeyResourceModel.SecretAccessKey (CreatePlan req)) = false ->
  client.CreateKey (KeyResource.client r)
    (client.CreateKeyRequest.mk
       (pointer_unless_null (KeyResourceModel.Name (CreatePlan req))))
    = (Some key, None) ->
  client.GetKeyInfo (KeyResource.client r)
    (client.GetKeyInfoRequest.mk (client.Key.AccessKeyID key))
    = (Some found, None) ->
  client.Key.AccessKeyID found = client.Key.AccessKeyID key ->
  client.Key.Name found = client.Key.Name key ->
  exists created : KeyResourceModel.t,
    outcome (KeyResource.Create r req (initial_response None))
      = Returned (mkResponse (Some created) [])
    /\ KeyResource.Read r (mkReadRequest created) (initial_response (Some created))
       = (Returned (mkResponse (Some created) []),
          [CallGetKeyInfo (client.GetKeyInfoRequest.mk (client.Key.AccessKeyID key))]).
Proof.
  intros Hid Hsecret Hcreated Hfound Hsame_id Hsame_name.
  destruct req as [[id name secret]];
    cbn [CreatePlan KeyResourceModel.ID KeyResourceModel.SecretAccessKey
         KeyResourceModel.Name] in *.
  eexists. split.
  - unfold KeyResource.Create, initial_response. decode_input.
    cbn [diag.HasError existsb CreatePlan KeyResourceModel.ID
         KeyResourceModel.SecretAccessKey KeyResourceModel.Name].
    fold (supplied id). fold (supplied secret). fold (pointer_unless_null name).
    rewrite Hid, Hsecret. cbn [andb negb]. rewrite Hcreated. reflexivity.
  - apply (KeyResource_Read_in_sync r _ _ _ found); [reflexivity|assumption..].
Qed.

Lemma KeyResource_Create_then_Read_witness :
  exists created : KeyResourceModel.t,
    outcome (KeyResource.Create (KeyResource.mk sample.cluster)
               (mkCreateRequest sample.plan_generated) (initial_response None))
      = Returned (mkResponse (Some created) [])
    /\ KeyResource.Read (KeyResource.mk sample.cluster)
         (mkReadRequest created) (initial_response (Some created))
       = (Returned (mkResponse (Some created) []),
          [CallGetKeyInfo (client.GetKeyInfoRequest.mk "GK31c2f218a2e44f485b94239e")]).
Proof.
  apply (KeyResource_Create_then_Read (KeyResource.mk sample.cluster)
           (mkCreateRequest sample.plan_generated)
           sample.key_with_secret sample.key); reflexivity.
Defined.

(** X7: a rename does not stick.  Update records the planned name without
    telling the cluster, so the next Read, answered with the key as the
    cluster has it, writes the cluster's name over the planned one; id and
    name come from the answer, the secret from the plan. *)
Theorem KeyResource_Update_then_Read
    (r : KeyResource.t) (plan : KeyResourceModel.t)
    (prior : tfsdk.State KeyResourceModel.t) (key : client.Key.t) :
  client.GetKeyInfo (KeyResource.client r)
    (client.GetKeyInfoRequest.mk (types.ValueString (KeyResourceModel.ID plan)))
    = (Some key, None) ->
  KeyResource.Update r (mkUpdateRequest plan) (initial_response prior)
    = (Returned (mkResponse (Some plan) []), [])
  /\ KeyResource.Read r (mkReadRequest plan) (initial_response (Some plan))
     = (Returned
          (mkResponse
             (Some (KeyResourceModel.mk
                      (types.StringValue (client.Key.AccessKeyID key))
                      (types.StringValue (client.Key.Name key))
                      (KeyResourceModel.SecretAccessKey plan)))
             []),
        [CallGetKeyInfo
           (client.GetKeyInfoRequest.mk (types.ValueString (KeyResourceModel.ID plan)))]).
Proof.
  intros Hanswer. split.
  - reflexivity.
  - unfold KeyResource.Read, initial_response. decode_input.
    cbn [diag.HasError existsb ReadState]. now rewrite Hanswer.
Qed.

Lemma KeyResource_Update_then_Read_witness :
  KeyResource.Update (KeyResource.mk sample.cluster)
      (mkUpdateRequest sample.plan_renamed) (initial_response (Some sample.tracked_key))
    = (Returned (mkResponse (Some sample.plan_renamed) []), [])
  /\ KeyResource.Read (KeyResource.mk sample.cluster)
       (mkReadRequest sample.plan_renamed) (initial_response (Some sample.plan_renamed))
     = (Returned
          (mkResponse
             (Some (KeyResourceModel.mk
                      (types.StringValue "GK31c2f218a2e44f485b94239e")
                      (types.StringValue "ci-deploy")
                      (types.StringValue
                         "b892c0665f0ada8a4755dae98baa3b133590e11dae3bcc1f9d769d67f16c3835")))
             []),
        [CallGetKeyInfo (client.GetKeyInfoRequest.mk "GK31c2f218a2e44f485b94239e")]).
Proof.
  apply (KeyResource_Update_then_Read (KeyResource.mk sample.cluster)
           sample.plan_renamed (Some sample.tracked_key) sample.key).
  reflexivity.
Defined.

Lemma requested {A B} (c : FurtherCall) (answer : A) (f : A -> Logged B) (b : B) :
  f answer = done b -> after (request c answer) f = (Returned b, [c]).
Proof. intros E. unfold after, request. now rewrite E. Qed.

(** X8: Delete of a key issues one DeleteKey call, for the id of the state.
    When the call succeeds Delete reports nothing; when it fails Delete
    reports a Client Error that quotes the error.  Either way it leaves the
    state of the response as it was. *)
Theorem KeyResource_Delete_one_call
    (SVC : services.t) (r : KeyResource.t) (req : DeleteRequest KeyResourceModel.t)
    (resp : DeleteResponse KeyResourceModel.t) :
  diag.HasError (DiagnosticsLeft resp) = false ->
  KeyResource_Delete SVC r req resp =
    (Returned
       (mkDeleteResponse (StateLeft resp)
          (match services.DeleteKey SVC (KeyResource.client r)
                   (DeleteKeyRequest.mk
                      (types.ValueString (KeyResourceModel.ID (DeleteState req))))
           with
           | Some e =>
               DiagnosticsLeft resp
               ++ [diag.NewErrorDiagnostic "Client Error"
                     ("Unable to delete access key, got error: " ++ e)]
           | None => DiagnosticsLeft resp
           end)),
     [CallDeleteKey
        (DeleteKeyRequest.mk
           (types.ValueString (KeyResourceModel.ID (DeleteState req))))]).
Proof.
  intros Hfresh. unfold KeyResource_Delete.
  cbv beta iota delta [tfsdk.Get]. cbn [diag.Append DiagnosticsLeft StateLeft].
  rewrite Hfresh. apply requested.
  destruct (services.DeleteKey _ _ _) as [e|]; [|reflexivity].
  now rewrite (AddError_no_error _ _ _ Hfresh).
Qed.

Lemma KeyResource_Delete_one_call_witness :
  KeyResource_Delete fixture.unreachable_svc (KeyResource.mk sample.cluster)
      (mkDeleteRequest sample.tracked_key) (mkDeleteResponse (Some sample.tracked_key) [])
    = (Returned
         (mkDeleteResponse (Some sample.tracked_key)
            [diag.NewErrorDiagnostic "Client Error"
               "Unable to delete access key, got error: dial tcp 127.0.0.1:3903: connect: connection refused"]),
       [CallDeleteKey (DeleteKeyRequest.mk "GK31c2f218a2e44f485b94239e")]).
Proof.
  apply (KeyResource_Delete_one_call fixture.unreachable_svc
           (KeyResource.mk sample.cluster) (mkDeleteRequest sample.tracked_key)
           (mkDeleteResponse (Some sample.tracked_key) [])).
  reflexivity.
Defined.

(** X9: an imported key has no secret.  For an identifier that is not
    empty, ImportState writes the identifier as the id and nothing else, and
    the Read that follows, answered with the key, fills in the name and
    leaves the secret null. *)
Theorem KeyResource_ImportState_then_Read
    (r : KeyResource.t) (req : ImportStateRequest) (key : client.Key.t) :
  ImportID req <> "" ->
  client.GetKeyInfo (KeyResource.client r) (client.GetKeyInfoRequest.mk (ImportID req))
    = (Some key, None) ->
  let imported :=
    KeyResourceModel.mk (types.StringValue (ImportID req))
      types.StringNull types.StringNull in
  KeyResource_ImportState r req (initial_response None)
    = mkResponse (Some imported) []
  /\ KeyResource.Read r (mkReadRequest imported) (initial_response (Some imported))
     = (Returned
          (mkResponse
             (Some (KeyResourceModel.mk
                      (types.StringValue (client.Key.AccessKeyID key))
                      (types.StringValue (client.Key.Name key))
                      types.StringNull))
             []),
        [CallGetKeyInfo (client.GetKeyInfoRequest.mk (ImportID req))]).
Proof.
  intros Hid Hanswer imported. split.
  - unfold KeyResource_ImportState, ImportStatePassthroughID.
    apply String.eqb_neq in Hid. rewrite Hid. reflexivity.
  - unfold KeyResource.Read, initial_response. decode_input.
    cbn [diag.HasError existsb ReadState]. subst imported.
    cbn [KeyResourceModel.ID KeyResourceModel.SecretAccessKey types.ValueString].
    now rewrite Hanswer.
Qed.

Lemma KeyResource_ImportState_then_Read_witness :
  KeyResource_ImportState (KeyResource.mk sample.cluster)
      (mkImportStateRequest "GK31c2f218a2e44f485b94239e") (initial_response None)
    = mkResponse
        (Some (KeyResourceModel.mk (types.StringValue "GK31c2f218a2e44f485b94239e")
                 types.StringNull types.StringNull))
        []
  /\ KeyResource.Read (KeyResource.mk sample.cluster)
       (mkReadRequest
          (KeyResourceModel.mk (types.StringValue "GK31c2f218a2e44f485b94239e")
             types.StringNull types.StringNull))
       (initial_response
          (Some (KeyResourceModel.mk (types.StringValue "GK31c2f218a2e44f485b94239e")
                   types.StringNull types.StringNull)))
     = (Returned
          (mkResponse
             (Some (KeyResourceModel.mk
                      (types.StringValue "GK31c2f218a2e44f485b94239e")
                      (types.StringValue "ci-deploy")
                      types.StringNull))
             []),
        [CallGetKeyInfo (client.GetKeyInfoRequest.mk "GK31c2f218a2e44f485b94239e")]).
Proof.
  apply (KeyResource_ImportState_then_Read (KeyResource.mk sample.cluster)
           (mkImportStateRequest "GK31c2f218a2e44f485b94239e") sample.key);
    [discriminate|reflexivity].
Defined.

(** ** Configuration, from the provider to the handlers *)

(** Configure of the provider ends in one of two ways. *)
Lemma GarageProvider_Configure_cases
    (OS : os.t) (req : provider.ConfigureRequest) (resp : provider.ConfigureResponse) :
  diag.HasError (provider.Diagnostics resp) = false ->
  (exists adminEndpoint s3Endpoint : string,
      adminEndpoint <> ""
      /\ GarageProvider.Configure OS req resp =
           provider.mkConfigureResponse
             (Some (provider_data OS (provider.Config req) adminEndpoint s3Endpoint))
             (Some (provider_data OS (provider.Config req) adminEndpoint s3Endpoint))
             (provider.Diagnostics resp))
  \/ GarageProvider.Configure OS req resp =
       provider.mkConfigureResponse
         (provider.DataSourceData resp) (provider.ResourceData resp)
         (provider.Diagnostics resp
          ++ [diag.NewErrorDiagnostic "Missing Admin Endpoint"
                "Either 'endpoints.admin' or deprecated 'endpoint' must be configured"]).
Proof.
  intros Hfresh. unfold GarageProvider.Configure, provider_data, credential.
  cbn [tfsdk.Get diag.Append provider.Diagnostics provider.DataSourceData
       provider.ResourceData].
  rewrite Hfresh, (AddError_no_error _ _ _ Hfresh).
  destruct (match GarageProviderModel.Endpoints (provider.Config req) with
            | Some _ => _ | None => _ end) as [admin0 s30].
  destruct (if String.eqb admin0 "" && _ then _ else _) as [adminEndpoint s3Endpoint].
  destruct (String.eqb_spec adminEndpoint "") as [Hempty|Hadmin].
  - right. reflexivity.
  - left. exists adminEndpoint, s3Endpoint. split; [exact Hadmin|reflexivity].
Qed.

Lemma GarageProvider_Configure_block_admin
    (OS : os.t) (req : provider.ConfigureRequest) (resp : provider.ConfigureResponse) :
  diag.HasError (provider.Diagnostics resp) = false ->
  block_admin (provider.Config req) <> "" ->
  GarageProvider.Configure OS req resp =
    provider.mkConfigureResponse
      (Some (provider_data OS (provider.Config req)
               (block_admin (provider.Config req)) (block_s3 (provider.Config req))))
      (Some (provider_data OS (provider.Config req)
               (block_admin (provider.Config req)) (block_s3 (provider.Config req))))
      (provider.Diagnostics resp).
Proof.
  intros Hfresh Hadmin. apply String.eqb_neq in Hadmin. revert Hadmin.
  destruct req as [[endpoint token endpoints accessKey secretKey]].
  unfold GarageProvider.Configure, block_admin, block_s3, provider_data, credential.
  cbn [provider.Config GarageProviderModel.Endpoint GarageProviderModel.Endpoints
       GarageProviderModel.Token GarageProviderModel.AccessKey
       GarageProviderModel.SecretKey tfsdk.Get diag.Append provider.Diagnostics
       provider.DataSourceData provider.ResourceData].
  rewrite Hfresh.
  destruct endpoints as [[admin s3]|]; [|discriminate].
  cbn [EndpointsModel.Admin EndpointsModel.S3].
  destruct admin as [| |admin]; cbn [types.ValueString]; try discriminate.
  intros Hadmin. cbn [types.IsNull negb]. rewrite Hadmin. cbn [andb].
  destruct s3 as [| |s3]; cbn [types.ValueString types.IsNull negb];
    rewrite Hadmin; reflexivity.
Qed.

Lemma GarageProvider_Configure_deprecated_only
    (OS : os.t) (req : provider.ConfigureRequest) (resp : provider.ConfigureResponse) :
  diag.HasError (provider.Diagnostics resp) = false ->
  GarageProviderModel.Endpoints (provider.Config req) = None ->
  types.ValueString (GarageProviderModel.Endpoint (provider.Config req)) <> "" ->
  GarageProvider.Configure OS req resp =
    (let deprecated :=
       types.ValueString (GarageProviderModel.Endpoint (provider.Config req)) in
     provider.mkConfigureResponse
       (Some (provider_data OS (provider.Config req) deprecated
                (first_3903_replaced deprecated)))
       (Some (provider_data OS (provider.Config req) deprecated
                (first_3903_replaced deprecated)))
       (provider.Diagnostics resp)).
Proof.
  intros Hfresh Hblock Hvalue. apply String.eqb_neq in Hvalue. revert Hblock Hvalue.
  destruct req as [[endpoint token endpoints accessKey secretKey]].
  unfold GarageProvider.Configure, provider_data, credential.
  cbn [provider.Config GarageProviderModel.Endpoint GarageProviderModel.Endpoints
       GarageProviderModel.Token GarageProviderModel.AccessKey
       GarageProviderModel.SecretKey tfsdk.Get diag.Append provider.Diagnostics
       provider.DataSourceData provider.ResourceData].
  rewrite Hfresh, replacePort_3903. intros -> Hvalue.
  destruct endpoint as [| |endpoint]; cbn [types.ValueString] in *; try discriminate.
  cbn [String.eqb andb types.IsNull negb]. now rewrite Hvalue.
Qed.

Lemma first_3903_replaced_nonempty (s : string) :
  s <> "" -> first_3903_replaced s <> "".
Proof.
  intros Hs. unfold first_3903_replaced.
  destruct (Index s ":3903") as [m|]; [|exact Hs].
  intros E. apply (f_equal len) in E. rewrite !len_app in E. simpl in E. lia.
Qed.

(** X10: Configure of the provider either stores provider data or reports
    Missing Admin Endpoint, never both.  When it stores, the resources and
    the data sources get the same data, nothing is reported, the admin
    endpoint is not empty and is written both to the deprecated field and
    to the endpoints block (which is never nil), and the token is the
    configured one. *)
Theorem GarageProvider_Configure_outcome
    (OS : os.t) (req : provider.ConfigureRequest) (resp : provider.ConfigureResponse) :
  diag.HasError (provider.Diagnostics resp) = false ->
  (exists (data : GarageProviderModel.t) (adminEndpoint s3Endpoint : string),
      GarageProvider.Configure OS req resp =
        provider.mkConfigureResponse (Some data) (Some data) (provider.Diagnostics resp)
      /\ adminEndpoint <> ""
      /\ GarageProviderModel.Endpoint data = types.StringValue adminEndpoint
      /\ GarageProviderModel.Endpoints data =
           Some (EndpointsModel.mk (types.StringValue adminEndpoint)
                   (types.StringValue s3Endpoint))
      /\ GarageProviderModel.Token data = GarageProviderModel.Token (provider.Config req))
  \/ (GarageProvider.Configure OS req resp =
        provider.mkConfigureResponse
          (provider.DataSourceData resp) (provider.ResourceData resp)
          (provider.Diagnostics resp
           ++ [diag.NewErrorDiagnostic "Missing Admin Endpoint"
                 "Either 'endpoints.admin' or deprecated 'endpoint' must be configured"])).
Proof.
  intros Hfresh.
  destruct (GarageProvider_Configure_cases OS req resp Hfresh)
    as [[adminEndpoint [s3Endpoint [Hadmin Hstored]]]|Herror]; [left|right; exact Herror].
  exists (provider_data OS (provider.Config req) adminEndpoint s3Endpoint),
    adminEndpoint, s3Endpoint.
  repeat split; assumption.
Qed.

Lemma GarageProvider_Configure_outcome_witness :
  (exists (data : GarageProviderModel.t) (adminEndpoint s3Endpoint : string),
      GarageProvider.Configure sample.machine
          (provider.mkConfigureRequest sample.config_block) sample.unconfigured
        = provider.mkConfigureResponse (Some data) (Some data) []
      /\ adminEndpoint <> ""
      /\ GarageProviderModel.Endpoint data = types.StringValue adminEndpoint
      /\ GarageProviderModel.Endpoints data =
           Some (EndpointsModel.mk (types.StringValue adminEndpoint)
                   (types.StringValue s3Endpoint))
      /\ GarageProviderModel.Token data = types.StringValue "s3cr3t-admin-token")
  \/ (GarageProvider.Configure sample.machine
          (provider.mkConfigureRequest sample.config_block) sample.unconfigured
        = provider.mkConfigureResponse None None
            ([] ++ [diag.NewErrorDiagnostic "Missing Admin Endpoint"
                      "Either 'endpoints.admin' or deprecated 'endpoint' must be configured"])).
Proof.
  apply (GarageProvider_Configure_outcome sample.machine
           (provider.mkConfigureRequest sample.config_block) sample.unconfigured).
  reflexivity.
Defined.

(** X11: the S3 credentials the provider stores.  A configured access key
    or secret key that is not empty is stored as it is; when it is null,
    unknown or empty, the value of GARAGE_ACCESS_KEY or GARAGE_SECRET_KEY in
    the environment is stored in its place. *)
Theorem GarageProvider_Configure_credentials
    (OS : os.t) (req : provider.ConfigureRequest) (resp : provider.ConfigureResponse)
    (data : GarageProviderModel.t) :
  diag.HasError (provider.Diagnostics resp) = false ->
  provider.ResourceData resp = None ->
  provider.ResourceData (GarageProvider.Configure OS req resp) = Some data ->
  GarageProviderModel.AccessKey data =
    types.StringValue
      (if String.eqb
            (types.ValueString (GarageProviderModel.AccessKey (provider.Config req))) ""
       then os.Getenv OS "GARAGE_ACCESS_KEY"
       else types.ValueString (GarageProviderModel.AccessKey (provider.Config req)))
  /\ GarageProviderModel.SecretKey data =
       types.StringValue
         (if String.eqb
               (types.ValueString (GarageProviderModel.SecretKey (provider.Config req))) ""
          then os.Getenv OS "GARAGE_SECRET_KEY"
          else types.ValueString (GarageProviderModel.SecretKey (provider.Config req))).
Proof.
  intros Hfresh Hnone.
  destruct (GarageProvider_Configure_cases OS req resp Hfresh)
    as [[adminEndpoint [s3Endpoint [_ ->]]]| ->];
    cbn [provider.ResourceData].
  - intros [= <-]. split; reflexivity.
  - rewrite Hnone. discriminate.
Qed.

Lemma GarageProvider_Configure_credentials_witness :
  GarageProviderModel.AccessKey
    (provider_data fixture.ci_machine fixture.config_half_credentials
       "http://localhost:3903" "http://localhost:3900")
  = types.StringValue "GKenv0123456789"
  /\ GarageProviderModel.SecretKey
       (provider_data fixture.ci_machine fixture.config_half_credentials
          "http://localhost:3903" "http://localhost:3900")
     = types.StringValue "configured-secret".
Proof.
  apply (GarageProvider_Configure_credentials fixture.ci_machine
           (provider.mkConfigureRequest fixture.config_half_credentials)
           sample.unconfigured); reflexivity.
Defined.

(** X12: once the provider is configured, the handlers of the admin API
    are.  On the data the provider stored, Configure of the key resource
    and of the bucket data source report nothing and build their client for
    the stored admin endpoint and the configured token. *)
Theorem admin_handlers_configured
    (OS : os.t) (NET : network.t)
    (req : provider.ConfigureRequest) (resp : provider.ConfigureResponse)
    (data : GarageProviderModel.t) (r : option KeyResource.t)
    (d : option BucketDataSource.t) (diags : diag.Diagnostics) :
  diag.HasError (provider.Diagnostics resp) = false ->
  provider.ResourceData resp = None ->
  provider.ResourceData (GarageProvider.Configure OS req resp) = Some data ->
  exists adminEndpoint : string,
    adminEndpoint <> ""
    /\ GarageProviderModel.Endpoint data = types.StringValue adminEndpoint
    /\ KeyResource_Configure NET r
         (mkConfigureRequest (Some (GarageProviderModelPtr data))) diags
       = (Some (KeyResource.mk
                  (network.NewClient NET adminEndpoint
                     (types.ValueString
                        (GarageProviderModel.Token (provider.Config req))))),
          diags)
    /\ BucketDataSource_Configure NET d
         (mkConfigureRequest (Some (GarageProviderModelPtr data))) diags
       = (Some (BucketDataSource.mk
                  (network.NewClient NET adminEndpoint
                     (types.ValueString
                        (GarageProviderModel.Token (provider.Config req))))),
          diags).
Proof.
  intros Hfresh Hnone.
  destruct (GarageProvider_Configure_cases OS req resp Hfresh)
    as [[adminEndpoint [s3Endpoint [Hadmin ->]]]| ->];
    cbn [provider.ResourceData]; [|rewrite Hnone; discriminate].
  intros [= <-]. exists adminEndpoint. split; [exact Hadmin|]. split; [reflexivity|].
  apply String.eqb_neq in Hadmin.
  unfold KeyResource_Configure, BucketDataSource_Configure, admin_endpoint, provider_data.
  cbn [ProviderDataOf GarageProviderModel.Endpoints GarageProviderModel.Endpoint
       GarageProviderModel.Token EndpointsModel.Admin types.IsNull types.ValueString negb].
  rewrite Hadmin. split; reflexivity.
Qed.

Lemma admin_handlers_configured_witness :
  exists adminEndpoint : string,
    adminEndpoint <> ""
    /\ GarageProviderModel.Endpoint
         (provider_data sample.machine sample.config_deprecated
            "http://localhost:3903" "http://localhost:3900")
       = types.StringValue adminEndpoint
    /\ KeyResource_Configure fixture.net None
         (mkConfigureRequest
            (Some (GarageProviderModelPtr
                     (provider_data sample.machine sample.config_deprecated
                        "http://localhost:3903" "http://localhost:3900"))))
         []
       = (Some (KeyResource.mk
                  (network.NewClient fixture.net adminEndpoint "s3cr3t-admin-token")),
          [])
    /\ BucketDataSource_Configure fixture.net None
         (mkConfigureRequest
            (Some (GarageProviderModelPtr
                     (provider_data sample.machine sample.config_deprecated
                        "http://localhost:3903" "http://localhost:3900"))))
         []
       = (Some (BucketDataSource.mk
                  (network.NewClient fixture.net adminEndpoint "s3cr3t-admin-token")),
          []).
Proof.
  apply (admin_handlers_configured sample.machine fixture.net
           (provider.mkConfigureRequest sample.config_deprecated) sample.unconfigured);
    reflexivity.
Defined.

Lemma object_Configure_on_provider_data
    (OS : os.t) (NET : network.t) (config : GarageProviderModel.t)
    (adminEndpoint s3Endpoint : string)
    (r : option GarageObjectResource.t) (d : option GarageObjectDataSource)
    (diags : diag.Diagnostics) :
  s3Endpoint <> "" ->
  GarageObjectResource_Configure NET r
    (mkConfigureRequest
       (Some (GarageProviderModelPtr (provider_data OS config adminEndpoint s3Endpoint))))
    diags
  = Returned
      (Some (GarageObjectResource.mk
               (network.NewFromConfig NET
                  (S3Config.mk "garage"
                     (credential OS (GarageProviderModel.AccessKey config)
                        "GARAGE_ACCESS_KEY")
                     (credential OS (GarageProviderModel.SecretKey config)
                        "GARAGE_SECRET_KEY")
                     "" (Some s3Endpoint) true))),
       diags)
  /\ GarageObjectDataSource_Configure NET d
       (mkConfigureRequest
          (Some (GarageProviderModelPtr (provider_data OS config adminEndpoint s3Endpoint))))
       diags
     = Returned
         (Some (mkGarageObjectDataSource
                  (network.NewFromConfig NET
                     (S3Config.mk "garage"
                        (credential OS (GarageProviderModel.AccessKey config)
                           "GARAGE_ACCESS_KEY")
                        (credential OS (GarageProviderModel.SecretKey config)
                           "GARAGE_SECRET_KEY")
                        "" (Some s3Endpoint) true))),
          diags).
Proof.
  intros Hs3. apply String.eqb_neq in Hs3.
  unfold GarageObjectResource_Configure, GarageObjectDataSource_Configure,
    object_client, provider_data.
  cbn [ProviderDataOf GarageProviderModel.Endpoints GarageProviderModel.AccessKey
       GarageProviderModel.SecretKey EndpointsModel.S3 types.ValueString].
  rewrite Hs3. split; reflexivity.
Qed.

(** X13: Configure of the object resource and of the object data source
    never panic on the data the provider stored (its endpoints block is
    never nil); they report Missing S3 Endpoint when the stored S3 endpoint
    is empty and leave the handler without a client, and report nothing
    otherwise. *)
Theorem object_handlers_after_provider
    (OS : os.t) (NET : network.t)
    (req : provider.ConfigureRequest) (resp : provider.ConfigureResponse)
    (data : GarageProviderModel.t) (r : option GarageObjectResource.t)
    (d : option GarageObjectDataSource) (diags : diag.Diagnostics) :
  diag.HasError (provider.Diagnostics resp) = false ->
  provider.ResourceData resp = None ->
  provider.ResourceData (GarageProvider.Configure OS req resp) = Some data ->
  diag.HasError diags = false ->
  exists s3Endpoint : string,
    stored_s3 (GarageProvider.Configure OS req resp) = Some (types.StringValue s3Endpoint)
    /\ (s3Endpoint = "" ->
        GarageObjectResource_Configure NET r
          (mkConfigureRequest (Some (GarageProviderModelPtr data))) diags
        = Returned
            (r, diags ++ [diag.NewErrorDiagnostic "Missing S3 Endpoint"
                            "S3 endpoint must be configured in endpoints.s3 for object operations"])
        /\ GarageObjectDataSource_Configure NET d
             (mkConfigureRequest (Some (GarageProviderModelPtr data))) diags
           = Returned
               (d, diags ++ [diag.NewErrorDiagnostic "Missing S3 Endpoint"
                               "S3 endpoint must be configured in endpoints.s3 for object operations"]))
    /\ (s3Endpoint <> "" ->
        exists (client : s3.Client),
          GarageObjectResource_Configure NET r
            (mkConfigureRequest (Some (GarageProviderModelPtr data))) diags
          = Returned (Some (GarageObjectResource.mk client), diags)
          /\ GarageObjectDataSource_Configure NET d
               (mkConfigureRequest (Some (GarageProviderModelPtr data))) diags
             = Returned (Some (mkGarageObjectDataSource client), diags)).
Proof.
  intros Hfresh Hnone Hstored Hdiags. revert Hstored.
  destruct (GarageProvider_Configure_cases OS req resp Hfresh)
    as [[adminEndpoint [s3Endpoint [Hadmin ->]]]| ->];
    cbn [provider.ResourceData]; [|rewrite Hnone; discriminate].
  intros [= <-]. exists s3Endpoint. split; [reflexivity|]. split.
  - intros ->.
    unfold GarageObjectResource_Configure, GarageObjectDataSource_Configure, provider_data.
    cbn [ProviderDataOf GarageProviderModel.Endpoints EndpointsModel.S3
         types.ValueString String.eqb].
    rewrite !(AddError_no_error _ _ _ Hdiags). split; reflexivity.
  - intros Hs3. eexists.
    apply (object_Configure_on_provider_data OS NET (provider.Config req)
             adminEndpoint s3Endpoint r d diags Hs3).
Qed.

Lemma object_handlers_after_provider_witness :
  exists s3Endpoint : string,
    stored_s3 (GarageProvider.Configure sample.machine
                 (provider.mkConfigureRequest sample.config_block) sample.unconfigured)
      = Some (types.StringValue s3Endpoint)
    /\ (s3Endpoint = "" ->
        GarageObjectResource_Configure fixture.net None
          (mkConfigureRequest
             (Some (GarageProviderModelPtr
                      (provider_data sample.machine sample.config_block
                         "http://garage:3903" ""))))
          []
        = Returned
            (None, [] ++ [diag.NewErrorDiagnostic "Missing S3 Endpoint"
                            "S3 endpoint must be configured in endpoints.s3 for object operations"])
        /\ GarageObjectDataSource_Configure fixture.net None
             (mkConfigureRequest
                (Some (GarageProviderModelPtr
                         (provider_data sample.machine sample.config_block
                            "http://garage:3903" ""))))
             []
           = Returned
               (None, [] ++ [diag.NewErrorDiagnostic "Missing S3 Endpoint"
                               "S3 endpoint must be configured in endpoints.s3 for object operations"]))
    /\ (s3Endpoint <> "" ->
        exists (client : s3.Client),
          GarageObjectResource_Configure fixture.net None
            (mkConfigureRequest
               (Some (GarageProviderModelPtr
                        (provider_data sample.machine sample.config_block
                           "http://garage:3903" ""))))
            []
          = Returned (Some (GarageObjectResource.mk client), [])
          /\ GarageObjectDataSource_Configure fixture.net None
               (mkConfigureRequest
                  (Some (GarageProviderModelPtr
                           (provider_data sample.machine sample.config_block
                              "http://garage:3903" ""))))
               []
             = Returned (Some (mkGarageObjectDataSource client), [])).
Proof.
  apply (object_handlers_after_provider sample.machine fixture.net
           (provider.mkConfigureRequest sample.config_block) sample.unconfigured);
    reflexivity.
Defined.

(** X14: an endpoints block that gives the admin endpoint and no S3
    endpoint leaves the object handlers without a client, whatever the
    deprecated endpoint is: the provider is configured, with an empty S3
    endpoint and no substitution, and Configure of the object resource then
    reports Missing S3 Endpoint. *)
Theorem object_handlers_need_block_s3
    (OS : os.t) (NET : network.t)
    (req : provider.ConfigureRequest) (resp : provider.ConfigureResponse)
    (r : option GarageObjectResource.t) (diags : diag.Diagnostics) :
  diag.HasError (provider.Diagnostics resp) = false ->
  diag.HasError diags = false ->
  block_admin (provider.Config req) <> "" ->
  block_s3 (provider.Config req) = "" ->
  exists data : GarageProviderModel.t,
    GarageProvider.Configure OS req resp
      = provider.mkConfigureResponse (Some data) (Some data) (provider.Diagnostics resp)
    /\ GarageObjectResource_Configure NET r
         (mkConfigureRequest (Some (GarageProviderModelPtr data))) diags
       = Returned
           (r, diags ++ [diag.NewErrorDiagnostic "Missing S3 Endpoint"
                           "S3 endpoint must be configured in endpoints.s3 for object operations"]).
Proof.
  intros Hfresh Hdiags Hadmin Hs3. eexists. split.
  - apply (GarageProvider_Configure_block_admin OS req resp Hfresh Hadmin).
  - rewrite Hs3.
    unfold GarageObjectResource_Configure, provider_data.
    cbn [ProviderDataOf GarageProviderModel.Endpoints EndpointsModel.S3
         types.ValueString String.eqb].
    now rewrite (AddError_no_error _ _ _ Hdiags).
Qed.

Lemma object_handlers_need_block_s3_witness :
  exists data : GarageProviderModel.t,
    GarageProvider.Configure sample.machine
        (provider.mkConfigureRequest sample.config_block) sample.unconfigured
      = provider.mkConfigureResponse (Some data) (Some data) []
    /\ GarageObjectResource_Configure fixture.net None
         (mkConfigureRequest (Some (GarageProviderModelPtr data))) []
       = Returned
           (None, [] ++ [diag.NewErrorDiagnostic "Missing S3 Endpoint"
                           "S3 endpoint must be configured in endpoints.s3 for object operations"]).
Proof.
  apply (object_handlers_need_block_s3 sample.machine fixture.net
           (provider.mkConfigureRequest sample.config_block) sample.unconfigured
           None []); [reflexivity|reflexivity|discriminate|reflexivity].
Defined.

(** X15: with the deprecated endpoint alone, the object resource gets an S3
    client for that endpoint with its first ":3903" replaced by ":3900",
    with the stored credentials, region "garage" and path-style addressing;
    when the endpoint holds no ":3903" the S3 client is built for the admin
    endpoint itself. *)
Theorem object_client_from_deprecated_endpoint
    (OS : os.t) (NET : network.t)
    (req : provider.ConfigureRequest) (resp : provider.ConfigureResponse)
    (r : option GarageObjectResource.t) (diags : diag.Diagnostics) :
  diag.HasError (provider.Diagnostics resp) = false ->
  GarageProviderModel.Endpoints (provider.Config req) = None ->
  types.ValueString (GarageProviderModel.Endpoint (provider.Config req)) <> "" ->
  exists data : GarageProviderModel.t,
    GarageProvider.Configure OS req resp
      = provider.mkConfigureResponse (Some data) (Some data) (provider.Diagnostics resp)
    /\ GarageObjectResource_Configure NET r
         (mkConfigureRequest (Some (GarageProviderModelPtr data))) diags
       = Returned
           (Some (GarageObjectResource.mk
                    (network.NewFromConfig NET
                       (S3Config.mk "garage"
                          (credential OS
                             (GarageProviderModel.AccessKey (provider.Config req))
                             "GARAGE_ACCESS_KEY")
                          (credential OS
                             (GarageProviderModel.SecretKey (provider.Config req))
                             "GARAGE_SECRET_KEY")
                          ""
                          (Some (first_3903_replaced
                                   (types.ValueString
                                      (GarageProviderModel.Endpoint (provider.Config req)))))
                          true))),
            diags)
    /\ (Index (types.ValueString (GarageProviderModel.Endpoint (provider.Config req)))
          ":3903" = None ->
        first_3903_replaced
          (types.ValueString (GarageProviderModel.Endpoint (provider.Config req)))
        = types.ValueString (GarageProviderModel.Endpoint (provider.Config req))).
Proof.
  intros Hfresh Hblock Hvalue. eexists. split; [|split].
  - apply (GarageProvider_Configure_deprecated_only OS req resp Hfresh Hblock Hvalue).
  - apply (object_Configure_on_provider_data OS NET (provider.Config req) _ _ r None diags).
    now apply first_3903_replaced_nonempty.
  - intros Habsent. unfold first_3903_replaced. now rewrite Habsent.
Qed.

Lemma object_client_from_deprecated_endpoint_witness :
  exists data : GarageProviderModel.t,
    GarageProvider.Configure sample.machine
        (provider.mkConfigureRequest fixture.config_other_port) sample.unconfigured
      = provider.mkConfigureResponse (Some data) (Some data) []
    /\ GarageObjectResource_Configure fixture.net None
         (mkConfigureRequest (Some (GarageProviderModelPtr data))) []
       = Returned
           (Some (GarageObjectResource.mk
                    (network.NewFromConfig fixture.net
                       (S3Config.mk "garage"
                          (credential sample.machine
                             (GarageProviderModel.AccessKey fixture.config_other_port)
                             "GARAGE_ACCESS_KEY")
                          (credential sample.machine
                             (GarageProviderModel.SecretKey fixture.config_other_port)
                             "GARAGE_SECRET_KEY")
                          ""
                          (Some (first_3903_replaced "https://garage.example:8443"))
                          true))),
            [])
    /\ (Index "https://garage.example:8443" ":3903" = None ->
        first_3903_replaced "https://garage.example:8443"
        = "https://garage.example:8443").
Proof.
  apply (object_client_from_deprecated_endpoint sample.machine fixture.net
           (provider.mkConfigureRequest fixture.config_other_port) sample.unconfigured
           None []); [reflexivity|reflexivity|discriminate].
Defined.

(** X16: replacePort replaces the first ":oldPort" of the endpoint by
    ":newPort" and keeps what precedes and what follows it, later
    occurrences included; an endpoint without ":oldPort" comes back as it
    is, and so does every endpoint when the two ports are the same. *)
Theorem replacePort_first_only (endpoint oldPort newPort : string) :
  (Index endpoint (":" ++ oldPort) = None ->
   GarageProvider.replacePort endpoint oldPort newPort = endpoint)
  /\ (oldPort = newPort ->
      GarageProvider.replacePort endpoint oldPort newPort = endpoint)
  /\ (oldPort <> newPort ->
      forall m : nat,
        Index endpoint (":" ++ oldPort) = Some m ->
        endpoint
          = (slice_to endpoint m ++ ":" ++ oldPort
             ++ slice_from endpoint (m + 1 + len oldPort))%string
        /\ GarageProvider.replacePort endpoint oldPort newPort
           = (slice_to endpoint m ++ ":" ++ newPort
              ++ slice_from endpoint (m + 1 + len oldPort))%string).
Proof.
  unfold GarageProvider.replacePort.
  change ((":" ++ oldPort)%string) with (String ":" oldPort).
  change ((":" ++ newPort)%string) with (String ":" newPort).
  split; [|split].
  - intros Habsent. now apply Replace_absent.
  - intros ->. unfold strings.Replace. now rewrite String.eqb_refl.
  - intros Hports m Hfound.
    replace (m + 1 + len oldPort) with (m + len (String ":" oldPort))
      by (unfold len; simpl; lia).
    split.
    + exact (Index_sound endpoint (String ":" oldPort) m Hfound).
    + rewrite (Replace_first endpoint (String ":" oldPort) (String ":" newPort) m);
        [reflexivity|discriminate|congruence|exact Hfound].
Qed.

Lemma replacePort_first_only_witness :
  GarageProvider.replacePort "https://garage.example:8443" "3903" "3900"
    = "https://garage.example:8443"
  /\ GarageProvider.replacePort "http://localhost:3903" "3903" "3903"
     = "http://localhost:3903"
  /\ ("http://h:3903/admin:3903"
        = (slice_to "http://h:3903/admin:3903" 8 ++ ":" ++ "3903"
           ++ slice_from "http://h:3903/admin:3903" (8 + 1 + len "3903"))%string
      /\ GarageProvider.replacePort "http://h:3903/admin:3903" "3903" "3900"
         = (slice_to "http://h:3903/admin:3903" 8 ++ ":" ++ "3900"
            ++ slice_from "http://h:3903/admin:3903" (8 + 1 + len "3903"))%string).
Proof.
  split; [|split].
  - apply (proj1 (replacePort_first_only "https://garage.example:8443" "3903" "3900")).
    reflexivity.
  - apply (proj1 (proj2 (replacePort_first_only "http://localhost:3903" "3903" "3903"))).
    reflexivity.
  - apply (proj2 (proj2 (replacePort_first_only "http://h:3903/admin:3903" "3903" "3900")));
      [discriminate|reflexivity].
Defined.

(** ** The bucket data source, further *)

(** X17: a bucket lookup that gives both id and global alias is not
    rejected: Read issues its one GetBucketInfo call with both in the
    request and leaves the choice to the cluster. *)
Theorem BucketDataSource_Read_both_supplied
    (d : BucketDataSource.t) (req : DataReadRequest BucketDataSourceModel.t)
    (resp : DataReadResponse BucketDataSourceModel.t) :
  diag.HasError (Diagnostics resp) = false ->
  types.IsNull (BucketDataSourceModel.ID (ReadConfig req)) = false ->
  types.IsNull (BucketDataSourceModel.GlobalAlias (ReadConfig req)) = false ->
  calls (BucketDataSource.Read d req resp) =
    [CallGetBucketInfo
       (client.GetBucketInfoRequest.mk
          (Some (types.ValueString (BucketDataSourceModel.ID (ReadConfig req))))
          (Some (types.ValueString (BucketDataSourceModel.GlobalAlias (ReadConfig req)))))]
  /\ forall resp', outcome (BucketDataSource.Read d req resp) = Returned resp' ->
       reported (Diagnostics resp') "Missing Required Attribute" = false.
Proof.
  intros Hfresh Hid Halias. unfold BucketDataSource.Read. enter_handler Hfresh.
  rewrite Hid, Halias. cbn [andb negb]. split.
  - rewrite calls_bind_call.
    destruct (client.GetBucketInfo _ _) as [[bucket|] [e|]]; reflexivity.
  - intros resp'. unfold outcome, bind, call.
    destruct (client.GetBucketInfo _ _) as [[bucket|] [e|]];
      cbn [ret fst ListValueFrom]; decode_input; intros [= <-];
      try (add_error Hfresh; cbn [Diagnostics]; rewrite reported_app,
           (reported_no_error _ _ Hfresh); reflexivity).
    unfold State_Set, tfsdk.Set_. decode_input. now apply reported_no_error.
Qed.

Lemma BucketDataSource_Read_both_supplied_witness :
  calls (BucketDataSource.Read (BucketDataSource.mk sample.cluster)
           (mkDataReadRequest
              (sample.lookup (types.StringValue "8d7c3d1f") (types.StringValue "other")))
           (initial_response None))
    = [CallGetBucketInfo (client.GetBucketInfoRequest.mk (Some "8d7c3d1f") (Some "other"))]
  /\ forall resp',
       outcome (BucketDataSource.Read (BucketDataSource.mk sample.cluster)
                  (mkDataReadRequest
                     (sample.lookup (types.StringValue "8d7c3d1f")
                        (types.StringValue "other")))
                  (initial_response None))
         = Returned resp' ->
       reported (Diagnostics resp') "Missing Required Attribute" = false.
Proof.
  apply (BucketDataSource_Read_both_supplied (BucketDataSource.mk sample.cluster)
           (mkDataReadRequest
              (sample.lookup (types.StringValue "8d7c3d1f") (types.StringValue "other")))
           (initial_response None)); reflexivity.
Defined.

(** X18: for a bucket that is found, Read of the data source writes the id
    of the bucket, all its global aliases in order as global_aliases, and
    the first of them as global_alias (null when there is none); the website
    documents are null without a website configuration and the quotas are
    null without quotas. *)
Theorem BucketDataSource_Read_found
    (d : BucketDataSource.t) (req : DataReadRequest BucketDataSourceModel.t)
    (resp : DataReadResponse BucketDataSourceModel.t) (bucket : client.Bucket.t) :
  diag.HasError (Diagnostics resp) = false ->
  types.IsNull (BucketDataSourceModel.ID (ReadConfig req))
    && types.IsNull (BucketDataSourceModel.GlobalAlias (ReadConfig req)) = false ->
  client.GetBucketInfo (BucketDataSource.client d)
    (client.GetBucketInfoRequest.mk
       (pointer_unless_null (BucketDataSourceModel.ID (ReadConfig req)))
       (pointer_unless_null (BucketDataSourceModel.GlobalAlias (ReadConfig req))))
    = (Some bucket, None) ->
  exists data : BucketDataSourceModel.t,
    outcome (BucketDataSource.Read d req resp)
      = Returned (mkResponse (Some data) (Diagnostics resp))
    /\ BucketDataSourceModel.ID data = types.StringValue (client.Bucket.ID bucket)
    /\ BucketDataSourceModel.GlobalAliases data
       = types.ListValue (map types.StringValue (client.Bucket.GlobalAliases bucket))
    /\ BucketDataSourceModel.GlobalAlias data
       = hd types.StringNull (map types.StringValue (client.Bucket.GlobalAliases bucket))
    /\ (client.Bucket.WebsiteConfig bucket = None ->
        BucketDataSourceModel.WebsiteIndex data = types.StringNull
        /\ BucketDataSourceModel.WebsiteError data = types.StringNull)
    /\ (client.Bucket.Quotas bucket = None ->
        BucketDataSourceModel.MaxSize data = types.Int64Null
        /\ BucketDataSourceModel.MaxObjects data = types.Int64Null).
Proof.
  intros Hfresh Hsome Hanswer. unfold BucketDataSource.Read. enter_handler Hfresh.
  fold (pointer_unless_null (BucketDataSourceModel.ID (ReadConfig req))).
  fold (pointer_unless_null (BucketDataSourceModel.GlobalAlias (ReadConfig req))).
  rewrite Hsome, Hanswer. eexists. split; [reflexivity|].
  cbn [BucketDataSourceModel.ID BucketDataSourceModel.GlobalAliases
       BucketDataSourceModel.GlobalAlias BucketDataSourceModel.WebsiteIndex
       BucketDataSourceModel.WebsiteError BucketDataSourceModel.MaxSize
       BucketDataSourceModel.MaxObjects].
  split; [reflexivity|]. split; [reflexivity|]. split.
  - now destruct (client.Bucket.GlobalAliases bucket).
  - split; intros ->; split; reflexivity.
Qed.

Lemma BucketDataSource_Read_found_witness :
  exists data : BucketDataSourceModel.t,
    outcome (BucketDataSource.Read (BucketDataSource.mk sample.cluster)
               (mkDataReadRequest sample.lookup_by_id) (initial_response None))
      = Returned (mkResponse (Some data) [])
    /\ BucketDataSourceModel.ID data = types.StringValue "8d7c3d1f"
    /\ BucketDataSourceModel.GlobalAliases data
       = types.ListValue [types.StringValue "my-bucket"]
    /\ BucketDataSourceModel.GlobalAlias data = types.StringValue "my-bucket"
    /\ (client.Bucket.WebsiteConfig sample.bucket = None ->
        BucketDataSourceModel.WebsiteIndex data = types.StringNull
        /\ BucketDataSourceModel.WebsiteError data = types.StringNull)
    /\ (client.Bucket.Quotas sample.bucket = None ->
        BucketDataSourceModel.MaxSize data = types.Int64Null
        /\ BucketDataSourceModel.MaxObjects data = types.Int64Null).
Proof.
  apply (BucketDataSource_Read_found (BucketDataSource.mk sample.cluster)
           (mkDataReadRequest sample.lookup_by_id) (initial_response None)
           sample.bucket); reflexivity.
Defined.

(** X19: what a bucket lookup writes depends on the bucket alone, not on
    how it was looked up: two lookups, by id or by any alias, that are
    answered with the same bucket write the same state.  The alias that was
    asked for is not kept. *)
Theorem BucketDataSource_Read_state_from_bucket
    (d : BucketDataSource.t) (req req' : DataReadRequest BucketDataSourceModel.t)
    (resp resp' : DataReadResponse BucketDataSourceModel.t) (bucket : client.Bucket.t) :
  diag.HasError (Diagnostics resp) = false ->
  diag.HasError (Diagnostics resp') = false ->
  types.IsNull (BucketDataSourceModel.ID (ReadConfig req))
    && types.IsNull (BucketDataSourceModel.GlobalAlias (ReadConfig req)) = false ->
  types.IsNull (BucketDataSourceModel.ID (ReadConfig req'))
    && types.IsNull (BucketDataSourceModel.GlobalAlias (ReadConfig req')) = false ->
  client.GetBucketInfo (BucketDataSource.client d)
    (client.GetBucketInfoRequest.mk
       (pointer_unless_null (BucketDataSourceModel.ID (ReadConfig req)))
       (pointer_unless_null (BucketDataSourceModel.GlobalAlias (ReadConfig req))))
    = (Some bucket, None) ->
  client.GetBucketInfo (BucketDataSource.client d)
    (client.GetBucketInfoRequest.mk
       (pointer_unless_null (BucketDataSourceModel.ID (ReadConfig req')))
       (pointer_unless_null (BucketDataSourceModel.GlobalAlias (ReadConfig req'))))
    = (Some bucket, None) ->
  exists data : BucketDataSourceModel.t,
    outcome (BucketDataSource.Read d req resp)
      = Returned (mkResponse (Some data) (Diagnostics resp))
    /\ outcome (BucketDataSource.Read d req' resp')
       = Returned (mkResponse (Some data) (Diagnostics resp')).
Proof.
  intros Hfresh Hfresh' Hsome Hsome' Hanswer Hanswer'.
  unfold BucketDataSource.Read. decode_input. rewrite Hfresh, Hfresh'.
  fold (pointer_unless_null (BucketDataSourceModel.ID (ReadConfig req))).
  fold (pointer_unless_null (BucketDataSourceModel.GlobalAlias (ReadConfig req))).
  fold (pointer_unless_null (BucketDataSourceModel.ID (ReadConfig req'))).
  fold (pointer_unless_null (BucketDataSourceModel.GlobalAlias (ReadConfig req'))).
  rewrite Hsome, Hsome', Hanswer, Hanswer'. eexists. split; reflexivity.
Qed.

Lemma BucketDataSource_Read_state_from_bucket_witness :
  exists data : BucketDataSourceModel.t,
    outcome (BucketDataSource.Read (BucketDataSource.mk sample.cluster)
               (mkDataReadRequest sample.lookup_by_id) (initial_response None))
      = Returned (mkResponse (Some data) [])
    /\ outcome (BucketDataSource.Read (BucketDataSource.mk sample.cluster)
                  (mkDataReadRequest
                     (sample.lookup types.StringNull (types.StringValue "second-alias")))
                  (initial_response None))
       = Returned (mkResponse (Some data) []).
Proof.
  apply (BucketDataSource_Read_state_from_bucket (BucketDataSource.mk sample.cluster)
           (mkDataReadRequest sample.lookup_by_id)
           (mkDataReadRequest
              (sample.lookup types.StringNull (types.StringValue "second-alias")))
           (initial_response None) (initial_response None) sample.bucket);
    reflexivity.
Defined.

(** ** The object resource, further *)

Section ObjectResourceFurther.

Variable OS : os.t.
Variable r : GarageObjectResource.t.

Import GarageObjectResourceModel.

(** What Create writes when its upload is answered with an ETag. *)
Lemma GarageObjectResource_Create_uploaded
    (plan : GarageObjectResourceModel.t)
    (resp : CreateResponse GarageObjectResourceModel.t)
    (input : s3.PutObjectInput.t) (contentType etag : string) :
  diag.HasError (Diagnostics resp) = false ->
  calls (GarageObjectResource.Create OS r (mkCreateRequest plan) resp)
    = [CallPutObject input] ->
  s3.PutObjectInput.ContentType input = Some contentType ->
  s3.PutObject (GarageObjectResource.s3Client r) input
    = (Some (s3.PutObjectOutput.mk (Some etag)), None) ->
  GarageObjectResource.Create OS r (mkCreateRequest plan) resp
    = (Returned
         (mkResponse
            (Some (GarageObjectResourceModel.mk
                     (Bucket plan) (Key plan) (Source plan) (Content plan)
                     (types.StringValue contentType)
                     (types.StringValue etag)
                     (types.StringValue
                        (types.ValueString (Bucket plan) ++ "/"
                         ++ types.ValueString (Key plan)))))
            (Diagnostics resp)),
       [CallPutObject input]).
Proof.
  intros Hfresh Hcalls Htype Hanswer. revert Hcalls.
  unfold GarageObjectResource.Create. enter_handler Hfresh. cbn [CreatePlan].
  destruct (negb (types.IsNull (Source plan))).
  - destruct (os.Open OS _) as [file|e]; [|discriminate].
    rewrite calls_bind_call. intros Hcalls. injection Hcalls as Hinput _.
    rewrite <- Hinput in Htype. injection Htype as <-.
    rewrite Hinput, Hanswer. reflexivity.
  - destruct (negb (types.IsNull (Content plan))); [|discriminate].
    rewrite calls_bind_call. intros Hcalls. injection Hcalls as Hinput _.
    rewrite <- Hinput in Htype. injection Htype as <-.
    rewrite Hinput, Hanswer. reflexivity.
Qed.

(** X20: Read of an object that HeadObject finds changes two attributes
    only: the ETag becomes the one of the answer, and the content type the
    one of the answer when it carries one; bucket, key, source, content and
    id are written back as they were. *)
Theorem GarageObjectResource_Read_refreshes
    (req : ReadRequest GarageObjectResourceModel.t)
    (resp : ReadResponse GarageObjectResourceModel.t)
    (etag : string) (contentType : option string) :
  diag.HasError (Diagnostics resp) = false ->
  s3.HeadObject (GarageObjectResource.s3Client r)
    (s3.HeadObjectInput.mk
       (Some (types.ValueString (Bucket (ReadState req))))
       (Some (types.ValueString (Key (ReadState req)))))
    = (Some (s3.HeadObjectOutput.mk (Some etag) contentType), None) ->
  GarageObjectResource.Read r req resp
    = (Returned
         (mkResponse
            (Some (GarageObjectResourceModel.mk
                     (Bucket (ReadState req)) (Key (ReadState req))
                     (Source (ReadState req)) (Content (ReadState req))
                     (match contentType with
                      | Some ct => types.StringValue ct
                      | None => ContentType (ReadState req)
                      end)
                     (types.StringValue etag)
                     (ID (ReadState req))))
            (Diagnostics resp)),
       [CallHeadObject
          (s3.HeadObjectInput.mk
             (Some (types.ValueString (Bucket (ReadState req))))
             (Some (types.ValueString (Key (ReadState req)))))]).
Proof.
  intros Hfresh Hanswer. unfold GarageObjectResource.Read. enter_handler Hfresh.
  unfold aws_String. rewrite Hanswer. reflexivity.
Qed.

(** X21: an answer without an ETag makes the object resource panic.  Create
    panics after the upload was issued, so the object is stored and no state
    is written; Read panics after HeadObject was issued. *)
Theorem GarageObjectResource_nil_ETag_panics
    (plan : GarageObjectResourceModel.t)
    (cresp : CreateResponse GarageObjectResourceModel.t)
    (rresp : ReadResponse GarageObjectResourceModel.t)
    (input : s3.PutObjectInput.t) (contentType : option string) :
  (diag.HasError (Diagnostics cresp) = false ->
   calls (GarageObjectResource.Create OS r (mkCreateRequest plan) cresp)
     = [CallPutObject input] ->
   s3.PutObject (GarageObjectResource.s3Client r) input
     = (Some (s3.PutObjectOutput.mk None), None) ->
   GarageObjectResource.Create OS r (mkCreateRequest plan) cresp
     = (Panicked nil_dereference, [CallPutObject input]))
  /\ (diag.HasError (Diagnostics rresp) = false ->
      s3.HeadObject (GarageObjectResource.s3Client r)
        (s3.HeadObjectInput.mk
           (Some (types.ValueString (Bucket plan)))
           (Some (types.ValueString (Key plan))))
        = (Some (s3.HeadObjectOutput.mk None contentType), None) ->
      GarageObjectResource.Read r (mkReadRequest plan) rresp
        = (Panicked nil_dereference,
           [CallHeadObject
              (s3.HeadObjectInput.mk
                 (Some (types.ValueString (Bucket plan)))
                 (Some (types.ValueString (Key plan))))])).
Proof.
  split.
  - intros Hfresh Hcalls Hanswer. revert Hcalls.
    unfold GarageObjectResource.Create. enter_handler Hfresh. cbn [CreatePlan].
    destruct (negb (types.IsNull (Source plan))).
    + destruct (os.Open OS _) as [file|e]; [|discriminate].
      rewrite calls_bind_call. intros Hcalls. injection Hcalls as Hinput _.
      rewrite Hinput, Hanswer. reflexivity.
    + destruct (negb (types.IsNull (Content plan))); [|discriminate].
      rewrite calls_bind_call. intros Hcalls. injection Hcalls as Hinput _.
      rewrite Hinput, Hanswer. reflexivity.
  - intros Hfresh Hanswer. unfold GarageObjectResource.Read. enter_handler Hfresh.
    unfold aws_String. cbn [ReadState]. rewrite Hanswer. reflexivity.
Qed.

(** X22: when the upload fails, Create reports Object Upload Failed with
    the text of the error and leaves the state as it was; the upload is the
    one call it issued. *)
Theorem GarageObjectResource_Create_upload_failed
    (plan : GarageObjectResourceModel.t)
    (resp : CreateResponse GarageObjectResourceModel.t)
    (input : s3.PutObjectInput.t) (putOutput : option s3.PutObjectOutput.t) (e : error) :
  diag.HasError (Diagnostics resp) = false ->
  calls (GarageObjectResource.Create OS r (mkCreateRequest plan) resp)
    = [CallPutObject input] ->
  s3.PutObject (GarageObjectResource.s3Client r) input = (putOutput, Some e) ->
  GarageObjectResource.Create OS r (mkCreateRequest plan) resp
    = (Returned
         (mkResponse (State resp)
            (Diagnostics resp ++ [diag.NewErrorDiagnostic "Object Upload Failed" e])),
       [CallPutObject input]).
Proof.
  intros Hfresh Hcalls Hanswer. revert Hcalls.
  unfold GarageObjectResource.Create. enter_handler Hfresh. cbn [CreatePlan].
  destruct (negb (types.IsNull (Source plan))).
  - destruct (os.Open OS _) as [file|e']; [|discriminate].
    rewrite calls_bind_call. intros Hcalls. injection Hcalls as Hinput _.
    rewrite Hinput, Hanswer. cbn [bind call]. add_error Hfresh. reflexivity.
  - destruct (negb (types.IsNull (Content plan))); [|discriminate].
    rewrite calls_bind_call. intros Hcalls. injection Hcalls as Hinput _.
    rewrite Hinput, Hanswer. cbn [bind call]. add_error Hfresh. reflexivity.
Qed.

(** X23: an object that was just created survives the next refresh: when
    the upload is answered with an ETag and HeadObject then answers with
    that ETag and with the content type of the upload (or with none), Read
    of the state Create wrote writes that same state again. *)
Theorem GarageObjectResource_Create_then_Read
    (plan : GarageObjectResourceModel.t) (input : s3.PutObjectInput.t)
    (contentType etag : string) (headType : option string) :
  calls (GarageObjectResource.Create OS r (mkCreateRequest plan) (initial_response None))
    = [CallPutObject input] ->
  s3.PutObjectInput.ContentType input = Some contentType ->
  s3.PutObject (GarageObjectResource.s3Client r) input
    = (Some (s3.PutObjectOutput.mk (Some etag)), None) ->
  s3.HeadObject (GarageObjectResource.s3Client r)
    (s3.HeadObjectInput.mk
       (Some (types.ValueString (Bucket plan))) (Some (types.ValueString (Key plan))))
    = (Some (s3.HeadObjectOutput.mk (Some etag) headType), None) ->
  headType = None \/ headType = Some contentType ->
  exists created : GarageObjectResourceModel.t,
    GarageObjectResource.Create OS r (mkCreateRequest plan) (initial_response None)
      = (Returned (mkResponse (Some created) []), [CallPutObject input])
    /\ GarageObjectResource.Read r (mkReadRequest created) (initial_response (Some created))
       = (Returned (mkResponse (Some created) []),
          [CallHeadObject
             (s3.HeadObjectInput.mk
                (Some (types.ValueString (Bucket plan)))
                (Some (types.ValueString (Key plan))))]).
Proof.
  intros Hcalls Htype Hput Hhead Hsame. eexists. split.
  - apply (GarageObjectResource_Create_uploaded plan (initial_response None)
             input contentType etag eq_refl Hcalls Htype Hput).
  - unfold GarageObjectResource.Read, initial_response. decode_input.
    cbn [diag.HasError existsb ReadState Bucket Key]. unfold aws_String.
    rewrite Hhead. destruct Hsame as [-> | ->]; reflexivity.
Qed.

End ObjectResourceFurther.

Lemma GarageObjectResource_Read_refreshes_witness :
  GarageObjectResource.Read (GarageObjectResource.mk sample.storage)
      (mkReadRequest
         (sample.object types.StringNull (types.StringValue "hello")
            (types.StringValue "application/json")))
      (initial_response None)
    = (Returned
         (mkResponse
            (Some (GarageObjectResourceModel.mk
                     (types.StringValue "site") (types.StringValue "pages/index.html")
                     types.StringNull (types.StringValue "hello")
                     (types.StringValue "text/plain")
                     (types.StringValue "9a0364b9e99bb480dd25e1f0284c8555")
                     types.StringUnknown))
            []),
       [CallHeadObject (s3.HeadObjectInput.mk (Some "site") (Some "pages/index.html"))]).
Proof.
  apply (GarageObjectResource_Read_refreshes (GarageObjectResource.mk sample.storage)
           (mkReadRequest
              (sample.object types.StringNull (types.StringValue "hello")
                 (types.StringValue "application/json")))
           (initial_response None)
           "9a0364b9e99bb480dd25e1f0284c8555" (Some "text/plain")); reflexivity.
Defined.

Lemma GarageObjectResource_nil_ETag_panics_witness :
  GarageObjectResource.Create sample.machine
      (GarageObjectResource.mk fixture.storage_without_etag)
      (mkCreateRequest
         (sample.object types.StringNull (types.StringValue "hello") types.StringNull))
      (initial_response None)
    = (Panicked nil_dereference,
       [CallPutObject
          (s3.PutObjectInput.mk (Some "site") (Some "pages/index.html")
             "hello" (Some "text/plain"))])
  /\ GarageObjectResource.Read (GarageObjectResource.mk fixture.storage_without_etag)
       (mkReadRequest
          (sample.object types.StringNull (types.StringValue "hello") types.StringNull))
       (initial_response None)
     = (Panicked nil_dereference,
        [CallHeadObject (s3.HeadObjectInput.mk (Some "site") (Some "pages/index.html"))]).
Proof.
  split.
  - apply (proj1 (GarageObjectResource_nil_ETag_panics sample.machine
                    (GarageObjectResource.mk fixture.storage_without_etag)
                    (sample.object types.StringNull (types.StringValue "hello")
                       types.StringNull)
                    (initial_response None) (initial_response None)
                    (s3.PutObjectInput.mk (Some "site") (Some "pages/index.html")
                       "hello" (Some "text/plain"))
                    None)); reflexivity.
  - apply (proj2 (GarageObjectResource_nil_ETag_panics sample.machine
                    (GarageObjectResource.mk fixture.storage_without_etag)
                    (sample.object types.StringNull (types.StringValue "hello")
                       types.StringNull)
                    (initial_response None) (initial_response None)
                    (s3.PutObjectInput.mk (Some "site") (Some "pages/index.html")
                       "hello" (Some "text/plain"))
                    None)); reflexivity.
Defined.

Lemma GarageObjectResource_Create_upload_failed_witness :
  GarageObjectResource.Create sample.machine
      (GarageObjectResource.mk sample.unreachable_storage)
      (mkCreateRequest
         (sample.object types.StringNull (types.StringValue "hello") types.StringNull))
      (initial_response None)
    = (Returned
         (mkResponse None
            ([] ++ [diag.NewErrorDiagnostic "Object Upload Failed"
                      sample.s3_connection_refused])),
       [CallPutObject
          (s3.PutObjectInput.mk (Some "site") (Some "pages/index.html")
             "hello" (Some "text/plain"))]).
Proof.
  apply (GarageObjectResource_Create_upload_failed sample.machine
           (GarageObjectResource.mk sample.unreachable_storage)
           (sample.object types.StringNull (types.StringValue "hello") types.StringNull)
           (initial_response None)
           (s3.PutObjectInput.mk (Some "site") (Some "pages/index.html")
              "hello" (Some "text/plain"))
           None sample.s3_connection_refused); reflexivity.
Defined.

Lemma GarageObjectResource_Create_then_Read_witness :
  exists created : GarageObjectResourceModel.t,
    GarageObjectResource.Create sample.machine (GarageObjectResource.mk sample.storage)
        (mkCreateRequest
           (sample.object types.StringNull (types.StringValue "hello") types.StringNull))
        (initial_response None)
      = (Returned (mkResponse (Some created) []),
         [CallPutObject
            (s3.PutObjectInput.mk (Some "site") (Some "pages/index.html")
               "hello" (Some "text/plain"))])
    /\ GarageObjectResource.Read (GarageObjectResource.mk sample.storage)
         (mkReadRequest created) (initial_response (Some created))
       = (Returned (mkResponse (Some created) []),
          [CallHeadObject (s3.HeadObjectInput.mk (Some "site") (Some "pages/index.html"))]).
Proof.
  apply (GarageObjectResource_Create_then_Read sample.machine
           (GarageObjectResource.mk sample.storage)
           (sample.object types.StringNull (types.StringValue "hello") types.StringNull)
           (s3.PutObjectInput.mk (Some "site") (Some "pages/index.html")
              "hello" (Some "text/plain"))
           "text/plain" "9a0364b9e99bb480dd25e1f0284c8555" (Some "text/plain"));
    [reflexivity|reflexivity|reflexivity|reflexivity|right; reflexivity].
Defined.

(** X24: an object can be imported back by the id Create gave it.  For a
    plan with a known bucket without a slash and a known key, ImportState of
    that id followed by Read (answered with the ETag and content type of the
    upload) writes the state Create wrote, except that source and content
    are null. *)
Theorem GarageObjectResource_Create_ImportState_Read
    (OS : os.t) (r : GarageObjectResource.t)
    (plan : GarageObjectResourceModel.t) (bucket key : string)
    (input : s3.PutObjectInput.t) (contentType etag : string) :
  GarageObjectResourceModel.Bucket plan = types.StringValue bucket ->
  GarageObjectResourceModel.Key plan = types.StringValue key ->
  Contains bucket "/" = false ->
  calls (GarageObjectResource.Create OS r (mkCreateRequest plan) (initial_response None))
    = [CallPutObject input] ->
  s3.PutObjectInput.ContentType input = Some contentType ->
  s3.PutObject (GarageObjectResource.s3Client r) input
    = (Some (s3.PutObjectOutput.mk (Some etag)), None) ->
  s3.HeadObject (GarageObjectResource.s3Client r)
    (s3.HeadObjectInput.mk (Some bucket) (Some key))
    = (Some (s3.HeadObjectOutput.mk (Some etag) (Some contentType)), None) ->
  exists created imported : GarageObjectResourceModel.t,
    outcome (GarageObjectResource.Create OS r (mkCreateRequest plan) (initial_response None))
      = Returned (mkResponse (Some created) [])
    /\ GarageObjectResource.ImportState r
         (mkImportStateRequest
            (types.ValueString (GarageObjectResourceModel.ID created)))
         (initial_response None)
       = (Returned (mkResponse (Some imported) []), [])
    /\ outcome (GarageObjectResource.Read r (mkReadRequest imported)
                  (initial_response (Some imported)))
       = Returned
           (mkResponse
              (Some (GarageObjectResourceModel.mk
                       (GarageObjectResourceModel.Bucket created)
                       (GarageObjectResourceModel.Key created)
                       types.StringNull types.StringNull
                       (GarageObjectResourceModel.ContentType created)
                       (GarageObjectResourceModel.ETag created)
                       (GarageObjectResourceModel.ID created)))
              []).
Proof.
  intros Hbucket Hkey Hslash Hcalls Htype Hput Hhead.
  destruct plan as [b k source content ct0 etag0 id0].
  cbn [GarageObjectResourceModel.Bucket GarageObjectResourceModel.Key] in Hbucket, Hkey.
  subst b k.
  exists (GarageObjectResourceModel.mk
            (types.StringValue bucket) (types.StringValue key) source content
            (types.StringValue contentType) (types.StringValue etag)
            (types.StringValue (bucket ++ "/" ++ key))),
    (GarageObjectResourceModel.mk
       (types.StringValue bucket) (types.StringValue key)
       types.StringNull types.StringNull types.StringNull types.StringNull
       (types.StringValue (bucket ++ "/" ++ key))).
  split; [|split].
  - unfold outcome.
    rewrite (GarageObjectResource_Create_uploaded OS r _ (initial_response None)
               input contentType etag eq_refl Hcalls Htype Hput).
    reflexivity.
  - cbn [GarageObjectResourceModel.ID types.ValueString].
    unfold GarageObjectResource.ImportState. cbn [ImportID].
    rewrite (SplitN_slash_found bucket key (Contains_false _ _ Hslash)).
    reflexivity.
  - unfold GarageObjectResource.Read, initial_response. decode_input.
    cbn [diag.HasError existsb ReadState GarageObjectResourceModel.Bucket
         GarageObjectResourceModel.Key types.ValueString].
    unfold aws_String. rewrite Hhead. reflexivity.
Qed.

Lemma GarageObjectResource_Create_ImportState_Read_witness :
  exists created imported : GarageObjectResourceModel.t,
    outcome (GarageObjectResource.Create sample.machine
               (GarageObjectResource.mk sample.storage)
               (mkCreateRequest
                  (sample.object types.StringNull (types.StringValue "hello")
                     types.StringNull))
               (initial_response None))
      = Returned (mkResponse (Some created) [])
    /\ GarageObjectResource.ImportState (GarageObjectResource.mk sample.storage)
         (mkImportStateRequest
            (types.ValueString (GarageObjectResourceModel.ID created)))
         (initial_response None)
       = (Returned (mkResponse (Some imported) []), [])
    /\ outcome (GarageObjectResource.Read (GarageObjectResource.mk sample.storage)
                  (mkReadRequest imported) (initial_response (Some imported)))
       = Returned
           (mkResponse
              (Some (GarageObjectResourceModel.mk
                       (GarageObjectResourceModel.Bucket created)
                       (GarageObjectResourceModel.Key created)
                       types.StringNull types.StringNull
                       (GarageObjectResourceModel.ContentType created)
                       (GarageObjectResourceModel.ETag created)
                       (GarageObjectResourceModel.ID created)))
              []).
Proof.
  apply (GarageObjectResource_Create_ImportState_Read sample.machine
           (GarageObjectResource.mk sample.storage)
           (sample.object types.StringNull (types.StringValue "hello") types.StringNull)
           "site" "pages/index.html"
           (s3.PutObjectInput.mk (Some "site") (Some "pages/index.html")
              "hello" (Some "text/plain"))
           "text/plain" "9a0364b9e99bb480dd25e1f0284c8555"); reflexivity.
Defined.

(** X25: ImportState of an object accepts an identifier whose bucket part
    or key part is empty: what precedes the first slash, even nothing, is
    the bucket, and what follows it, even nothing, is the key.  Only an
    identifier without a slash, the empty one included, is rejected. *)
Theorem GarageObjectResource_ImportState_empty_parts
    (r : GarageObjectResource.t) (part : string) :
  (Contains part "/" = false ->
   GarageObjectResource.ImportState r (mkImportStateRequest (part ++ "/"))
       (initial_response None)
     = (Returned
          (mkResponse
             (Some (GarageObjectResourceModel.mk
                      (types.StringValue part) (types.StringValue "")
                      types.StringNull types.StringNull types.StringNull types.StringNull
                      (types.StringValue (part ++ "/"))))
             []),
        []))
  /\ GarageObjectResource.ImportState r (mkImportStateRequest ("/" ++ part))
       (initial_response None)
     = (Returned
          (mkResponse
             (Some (GarageObjectResourceModel.mk
                      (types.StringValue "") (types.StringValue part)
                      types.StringNull types.StringNull types.StringNull types.StringNull
                      (types.StringValue ("/" ++ part))))
             []),
        [])
  /\ GarageObjectResource.ImportState r (mkImportStateRequest "") (initial_response None)
     = (Returned
          (mkResponse None
             [diag.NewErrorDiagnostic "Invalid Import ID"
                "Expected import ID in format 'bucket/key', got: "]),
        []).
Proof.
  split; [|split].
  - intros Hpart. unfold GarageObjectResource.ImportState. cbn [ImportID].
    pose proof (SplitN_slash_found part "" (Contains_false _ _ Hpart)) as Hsplit.
    cbn [append] in Hsplit. rewrite Hsplit. reflexivity.
  - unfold GarageObjectResource.ImportState. cbn [ImportID].
    pose proof (SplitN_slash_found "" part eq_refl) as Hsplit.
    cbn [append] in Hsplit |- *. rewrite Hsplit. reflexivity.
  - reflexivity.
Qed.

Lemma GarageObjectResource_ImportState_empty_parts_witness :
  GarageObjectResource.ImportState (GarageObjectResource.mk sample.storage)
      (mkImportStateRequest ("site" ++ "/")) (initial_response None)
    = (Returned
         (mkResponse
            (Some (GarageObjectResourceModel.mk
                     (types.StringValue "site") (types.StringValue "")
                     types.StringNull types.StringNull types.StringNull types.StringNull
                     (types.StringValue ("site" ++ "/"))))
            []),
       []).
Proof.
  apply (proj1 (GarageObjectResource_ImportState_empty_parts
                  (GarageObjectResource.mk sample.storage) "site")).
  reflexivity.
Defined.

(** X26: Delete of an object issues one DeleteObject call, for the bucket
    and key of the state.  When the call succeeds Delete reports nothing;
    when it fails Delete reports Object Deletion Failed with the text of the
    error.  Either way it leaves the state of the response as it was. *)
Theorem GarageObjectResource_Delete_one_call
    (SVC : services.t) (r : GarageObjectResource.t)
    (req : DeleteRequest GarageObjectResourceModel.t)
    (resp : DeleteResponse GarageObjectResourceModel.t) :
  diag.HasError (DiagnosticsLeft resp) = false ->
  GarageObjectResource_Delete SVC r req resp =
    (Returned
       (mkDeleteResponse (StateLeft resp)
          (match services.DeleteObject SVC (GarageObjectResource.s3Client r)
                   (DeleteObjectInput.mk
                      (Some (types.ValueString
                               (GarageObjectResourceModel.Bucket (DeleteState req))))
                      (Some (types.ValueString
                               (GarageObjectResourceModel.Key (DeleteState req)))))
           with
           | Some e =>
               DiagnosticsLeft resp
               ++ [diag.NewErrorDiagnostic "Object Deletion Failed" e]
           | None => DiagnosticsLeft resp
           end)),
     [CallDeleteObject
        (DeleteObjectInput.mk
           (Some (types.ValueString (GarageObjectResourceModel.Bucket (DeleteState req))))
           (Some (types.ValueString (GarageObjectResourceModel.Key (DeleteState req)))))]).
Proof.
  intros Hfresh. unfold GarageObjectResource_Delete, aws_String.
  cbv beta iota delta [tfsdk.Get]. cbn [diag.Append DiagnosticsLeft StateLeft].
  rewrite Hfresh. apply requested.
  destruct (services.DeleteObject _ _ _) as [e|]; [|reflexivity].
  now rewrite (AddError_no_error _ _ _ Hfresh).
Qed.

Lemma GarageObjectResource_Delete_one_call_witness :
  GarageObjectResource_Delete fixture.svc (GarageObjectResource.mk sample.storage)
      (mkDeleteRequest sample.tracked_object)
      (mkDeleteResponse (Some sample.tracked_object) [])
    = (Returned (mkDeleteResponse (Some sample.tracked_object) []),
       [CallDeleteObject (DeleteObjectInput.mk (Some "site") (Some "pages/index.html"))]).
Proof.
  apply (GarageObjectResource_Delete_one_call fixture.svc
           (GarageObjectResource.mk sample.storage)
           (mkDeleteRequest sample.tracked_object)
           (mkDeleteResponse (Some sample.tracked_object) [])).
  reflexivity.
Defined.

(** ** The object data source *)

(** X27: Read of the object data source surfaces its failures.  When
    GetObject fails it reports Failed to Retrieve Object, and when reading
    the body fails it reports Failed to Read Object Body, each quoting the
    error; the state is left as it was and GetObject is the one call
    issued. *)
Theorem GarageObjectDataSource_Read_failures
    (SVC : services.t) (d : GarageObjectDataSource)
    (req : DataReadRequest GarageObjectDataSourceModel.t)
    (resp : DataReadResponse GarageObjectDataSourceModel.t) (e : error) :
  diag.HasError (Diagnostics resp) = false ->
  (forall getOutput,
      services.GetObject SVC (s3Client_of d)
        (GetObjectInput.mk
           (Some (types.ValueString (GarageObjectDataSourceModel.Bucket (ReadConfig req))))
           (Some (types.ValueString (GarageObjectDataSourceModel.Key (ReadConfig req)))))
        = (getOutput, Some e) ->
      GarageObjectDataSource_Read SVC d req resp =
        (Returned
           (mkResponse (State resp)
              (Diagnostics resp
               ++ [diag.NewErrorDiagnostic "Failed to Retrieve Object"
                     ("Could not download object from Garage: " ++ e)])),
         [CallGetObject
            (GetObjectInput.mk
               (Some (types.ValueString
                        (GarageObjectDataSourceModel.Bucket (ReadConfig req))))
               (Some (types.ValueString
                        (GarageObjectDataSourceModel.Key (ReadConfig req)))))]))
  /\ (forall getOutput,
      services.GetObject SVC (s3Client_of d)
        (GetObjectInput.mk
           (Some (types.ValueString (GarageObjectDataSourceModel.Bucket (ReadConfig req))))
           (Some (types.ValueString (GarageObjectDataSourceModel.Key (ReadConfig req)))))
        = (Some getOutput, None) ->
      GetObjectOutput.Body getOutput = inr e ->
      GarageObjectDataSource_Read SVC d req resp =
        (Returned
           (mkResponse (State resp)
              (Diagnostics resp
               ++ [diag.NewErrorDiagnostic "Failed to Read Object Body"
                     ("Could not read object content: " ++ e)])),
         [CallGetObject
            (GetObjectInput.mk
               (Some (types.ValueString
                        (GarageObjectDataSourceModel.Bucket (ReadConfig req))))
               (Some (types.ValueString
                        (GarageObjectDataSourceModel.Key (ReadConfig req)))))])).
Proof.
  intros Hfresh. unfold GarageObjectDataSource_Read, aws_String. enter_handler Hfresh.
  split; intros getOutput Hanswer.
  - apply requested. rewrite Hanswer. add_error Hfresh. reflexivity.
  - intros Hbody. apply requested. rewrite Hanswer. cbn [pointee after done].
    rewrite Hbody. add_error Hfresh. reflexivity.
Qed.

Lemma GarageObjectDataSource_Read_failures_witness :
  GarageObjectDataSource_Read fixture.unreachable_svc
      (mkGarageObjectDataSource sample.unreachable_storage)
      (mkDataReadRequest fixture.object_lookup) (initial_response None)
    = (Returned
         (mkResponse None
            ([] ++ [diag.NewErrorDiagnostic "Failed to Retrieve Object"
                      ("Could not download object from Garage: "
                       ++ sample.s3_connection_refused)])),
       [CallGetObject (GetObjectInput.mk (Some "site") (Some "pages/index.html"))]).
Proof.
  apply (proj1 (GarageObjectDataSource_Read_failures fixture.unreachable_svc
                  (mkGarageObjectDataSource sample.unreachable_storage)
                  (mkDataReadRequest fixture.object_lookup) (initial_response None)
                  sample.s3_connection_refused eq_refl) None).
  reflexivity.
Defined.

(** X28: for an object that is downloaded, Read of the data source writes
    the bytes of the body, the id bucket/key, the content type of the answer
    or application/octet-stream, the content length of the answer or the
    number of bytes read, and the metadata of the answer, null when there is
    none; bucket and key stay as configured. *)
Theorem GarageObjectDataSource_Read_downloaded
    (SVC : services.t) (d : GarageObjectDataSource)
    (req : DataReadRequest GarageObjectDataSourceModel.t)
    (resp : DataReadResponse GarageObjectDataSourceModel.t)
    (getOutput : GetObjectOutput.t) (bodyBytes : string) :
  diag.HasError (Diagnostics resp) = false ->
  services.GetObject SVC (s3Client_of d)
    (GetObjectInput.mk
       (Some (types.ValueString (GarageObjectDataSourceModel.Bucket (ReadConfig req))))
       (Some (types.ValueString (GarageObjectDataSourceModel.Key (ReadConfig req)))))
    = (Some getOutput, None) ->
  GetObjectOutput.Body getOutput = inl bodyBytes ->
  exists data : GarageObjectDataSourceModel.t,
    fst (GarageObjectDataSource_Read SVC d req resp)
      = Returned (mkResponse (Some data) (Diagnostics resp))
    /\ GarageObjectDataSourceModel.Bucket data
       = GarageObjectDataSourceModel.Bucket (ReadConfig req)
    /\ GarageObjectDataSourceModel.Key data
       = GarageObjectDataSourceModel.Key (ReadConfig req)
    /\ GarageObjectDataSourceModel.Body data = types.StringValue bodyBytes
    /\ GarageObjectDataSourceModel.ID data
       = types.StringValue
           (types.ValueString (GarageObjectDataSourceModel.Bucket (ReadConfig req))
            ++ "/"
            ++ types.ValueString (GarageObjectDataSourceModel.Key (ReadConfig req)))
    /\ GarageObjectDataSourceModel.ContentType data
       = types.StringValue
           (match GetObjectOutput.ContentType getOutput with
            | Some ct => ct
            | None => "application/octet-stream"
            end)
    /\ GarageObjectDataSourceModel.ContentLength data
       = types.Int64Value
           (match GetObjectOutput.ContentLength getOutput with
            | Some n => n
            | None => Z.of_nat (len bodyBytes)
            end)
    /\ GarageObjectDataSourceModel.Metadata data
       = match GetObjectOutput.Metadata getOutput with
         | [] => basetypes.MapNull
         | entries =>
             basetypes.MapValue
               (map (fun kv => (fst kv, types.StringValue (snd kv))) entries)
         end.
Proof.
  intros Hfresh Hanswer Hbody.
  unfold GarageObjectDataSource_Read, aws_String. enter_handler Hfresh.
  unfold after, request. rewrite Hanswer. cbn [pointee done]. rewrite Hbody. cbn [fst].
  destruct (GetObjectOutput.Metadata getOutput) as [|entry entries];
    cbn [MapValueFrom]; decode_input; eexists; (split; [reflexivity|]);
    cbn [GarageObjectDataSourceModel.Bucket GarageObjectDataSourceModel.Key
         GarageObjectDataSourceModel.Body GarageObjectDataSourceModel.ID
         GarageObjectDataSourceModel.ContentType
         GarageObjectDataSourceModel.ContentLength
         GarageObjectDataSourceModel.Metadata];
    repeat split;
    try (now destruct (GetObjectOutput.ContentType getOutput));
    now destruct (GetObjectOutput.ContentLength getOutput).
Qed.

Lemma GarageObjectDataSource_Read_downloaded_witness :
  exists data : GarageObjectDataSourceModel.t,
    fst (GarageObjectDataSource_Read fixture.svc
               (mkGarageObjectDataSource sample.storage)
               (mkDataReadRequest fixture.object_lookup) (initial_response None))
      = Returned (mkResponse (Some data) [])
    /\ GarageObjectDataSourceModel.Bucket data = types.StringValue "site"
    /\ GarageObjectDataSourceModel.Key data = types.StringValue "pages/index.html"
    /\ GarageObjectDataSourceModel.Body data = types.StringValue "hello"
    /\ GarageObjectDataSourceModel.ID data = types.StringValue "site/pages/index.html"
    /\ GarageObjectDataSourceModel.ContentType data
       = types.StringValue "application/octet-stream"
    /\ GarageObjectDataSourceModel.ContentLength data = types.Int64Value 5
    /\ GarageObjectDataSourceModel.Metadata data = basetypes.MapNull.
Proof.
  apply (GarageObjectDataSource_Read_downloaded fixture.svc
           (mkGarageObjectDataSource sample.storage)
           (mkDataReadRequest fixture.object_lookup) (initial_response None)
           fixture.downloaded "hello"); reflexivity.
Defined.

(** X29: the resource and the data source give an object the same id: for
    the same bucket and key, the id Read of the data source writes is the id
    Create of the resource wrote. *)
Theorem object_id_agrees
    (OS : os.t) (SVC : services.t) (r : GarageObjectResource.t)
    (d : GarageObjectDataSource)
    (plan : GarageObjectResourceModel.t) (config : GarageObjectDataSourceModel.t)
    (input : s3.PutObjectInput.t) (contentType etag : string)
    (getOutput : GetObjectOutput.t) (bodyBytes : string) :
  types.ValueString (GarageObjectDataSourceModel.Bucket config)
    = types.ValueString (GarageObjectResourceModel.Bucket plan) ->
  types.ValueString (GarageObjectDataSourceModel.Key config)
    = types.ValueString (GarageObjectResourceModel.Key plan) ->
  calls (GarageObjectResource.Create OS r (mkCreateRequest plan) (initial_response None))
    = [CallPutObject input] ->
  s3.PutObjectInput.ContentType input = Some contentType ->
  s3.PutObject (GarageObjectResource.s3Client r) input
    = (Some (s3.PutObjectOutput.mk (Some etag)), None) ->
  services.GetObject SVC (s3Client_of d)
    (GetObjectInput.mk
       (Some (types.ValueString (GarageObjectDataSourceModel.Bucket config)))
       (Some (types.ValueString (GarageObjectDataSourceModel.Key config))))
    = (Some getOutput, None) ->
  GetObjectOutput.Body getOutput = inl bodyBytes ->
  exists (created : GarageObjectResourceModel.t) (data : GarageObjectDataSourceModel.t),
    outcome (GarageObjectResource.Create OS r (mkCreateRequest plan) (initial_response None))
      = Returned (mkResponse (Some created) [])
    /\ fst (GarageObjectDataSource_Read SVC d (mkDataReadRequest config)
              (initial_response None))
       = Returned (mkResponse (Some data) [])
    /\ GarageObjectDataSourceModel.ID data = GarageObjectResourceModel.ID created.
Proof.
  intros Hbucket Hkey Hcalls Htype Hput Hget Hbody.
  unfold outcome.
  rewrite (GarageObjectResource_Create_uploaded OS r plan (initial_response None)
             input contentType etag eq_refl Hcalls Htype Hput).
  unfold GarageObjectDataSource_Read, aws_String, initial_response. decode_input.
  cbn [diag.HasError existsb ReadConfig]. unfold after, request.
  rewrite Hget. cbn [pointee done]. rewrite Hbody.
  destruct (GetObjectOutput.Metadata getOutput) as [|entry entries];
    cbn [MapValueFrom]; decode_input; eexists; eexists;
    (split; [reflexivity|]); (split; [reflexivity|]);
    cbn [GarageObjectDataSourceModel.ID GarageObjectResourceModel.ID];
    now rewrite Hbucket, Hkey.
Qed.

Lemma object_id_agrees_witness :
  exists (created : GarageObjectResourceModel.t) (data : GarageObjectDataSourceModel.t),
    outcome (GarageObjectResource.Create sample.machine
               (GarageObjectResource.mk sample.storage)
               (mkCreateRequest
                  (sample.object types.StringNull (types.StringValue "hello")
                     types.StringNull))
               (initial_response None))
      = Returned (mkResponse (Some created) [])
    /\ fst (GarageObjectDataSource_Read fixture.svc
              (mkGarageObjectDataSource sample.storage)
              (mkDataReadRequest fixture.object_lookup) (initial_response None))
       = Returned (mkResponse (Some data) [])
    /\ GarageObjectDataSourceModel.ID data = GarageObjectResourceModel.ID created.
Proof.
  apply (object_id_agrees sample.machine fixture.svc
           (GarageObjectResource.mk sample.storage)
           (mkGarageObjectDataSource sample.storage)
           (sample.object types.StringNull (types.StringValue "hello") types.StringNull)
           fixture.object_lookup
           (s3.PutObjectInput.mk (Some "site") (Some "pages/index.html")
              "hello" (Some "text/plain"))
           "text/plain" "9a0364b9e99bb480dd25e1f0284c8555"
           fixture.downloaded "hello"); reflexivity.
Defined.

(** ** An object whose content type is left unset *)

(** C9, where the code misses it: content_type is optional and computed, so
    a plan that leaves it unset carries it as unknown, not as null.  Create
    tests for null only; on an unknown content type it takes no default but
    the value of the unknown, the empty string.  The source, or without a
    source the content, is then uploaded with an empty content type, and
    when the upload is answered an empty content type is written to the
    state. *)
Theorem GarageObjectResource_Create_unset_content_type
    (OS : os.t) (r : GarageObjectResource.t)
    (req : CreateRequest GarageObjectResourceModel.t)
    (resp : CreateResponse GarageObjectResourceModel.t) :
  diag.HasError (Diagnostics resp) = false ->
  GarageObjectResourceModel.ContentType (CreatePlan req) = types.StringUnknown ->
  (types.IsNull (GarageObjectResourceModel.Source (CreatePlan req)) = false ->
   forall file : string,
     os.Open OS (types.ValueString (GarageObjectResourceModel.Source (CreatePlan req)))
       = inl file ->
     calls (GarageObjectResource.Create OS r req resp) =
       [CallPutObject
          (s3.PutObjectInput.mk
             (Some (types.ValueString (GarageObjectResourceModel.Bucket (CreatePlan req))))
             (Some (types.ValueString (GarageObjectResourceModel.Key (CreatePlan req))))
             file
             (Some ""))])
  /\ (types.IsNull (GarageObjectResourceModel.Source (CreatePlan req)) = true ->
      types.IsNull (GarageObjectResourceModel.Content (CreatePlan req)) = false ->
      calls (GarageObjectResource.Create OS r req resp) =
        [CallPutObject
           (s3.PutObjectInput.mk
              (Some (types.ValueString (GarageObjectResourceModel.Bucket (CreatePlan req))))
              (Some (types.ValueString (GarageObjectResourceModel.Key (CreatePlan req))))
              (types.ValueString (GarageObjectResourceModel.Content (CreatePlan req)))
              (Some ""))])
  /\ (forall (input : s3.PutObjectInput.t) (etag : string),
      calls (GarageObjectResource.Create OS r req resp) = [CallPutObject input] ->
      s3.PutObject (GarageObjectResource.s3Client r) input
        = (Some (s3.PutObjectOutput.mk (Some etag)), None) ->
      s3.PutObjectInput.ContentType input = Some ""
      /\ GarageObjectResource.Create OS r req resp =
           (Returned
              (mkResponse
                 (Some (GarageObjectResourceModel.mk
                          (GarageObjectResourceModel.Bucket (CreatePlan req))
                          (GarageObjectResourceModel.Key (CreatePlan req))
                          (GarageObjectResourceModel.Source (CreatePlan req))
                          (GarageObjectResourceModel.Content (CreatePlan req))
                          (types.StringValue "")
                          (types.StringValue etag)
                          (types.StringValue
                             (types.ValueString
                                (GarageObjectResourceModel.Bucket (CreatePlan req))
                              ++ "/"
                              ++ types.ValueString
                                   (GarageObjectResourceModel.Key (CreatePlan req))))))
                 (Diagnostics resp)),
            [CallPutObject input])).
Proof.
  intros Hfresh Hunset.
  unfold GarageObjectResource.Create. enter_handler Hfresh. rewrite Hunset.
  cbn [types.IsNull types.ValueString]. unfold aws_String.
  split; [|split].
  - intros -> file ->. cbn [negb]. rewrite calls_bind_call.
    destruct (s3.PutObject _ _) as [[[[etag|]]|] [e|]]; reflexivity.
  - intros -> ->. cbn [negb]. rewrite calls_bind_call.
    destruct (s3.PutObject _ _) as [[[[etag|]]|] [e|]]; reflexivity.
  - intros input etag.
    destruct (negb (types.IsNull (GarageObjectResourceModel.Source (CreatePlan req)))).
    + destruct (os.Open OS _) as [file|e]; [|discriminate].
      rewrite calls_bind_call. intros Hcalls Hanswer.
      injection Hcalls as Hinput _. subst input. rewrite Hanswer.
      split; reflexivity.
    + destruct (negb (types.IsNull (GarageObjectResourceModel.Content (CreatePlan req))));
        [|discriminate].
      rewrite calls_bind_call. intros Hcalls Hanswer.
      injection Hcalls as Hinput _. subst input. rewrite Hanswer.
      split; reflexivity.
Qed.

Lemma GarageObjectResource_Create_unset_content_type_witness :
  calls (GarageObjectResource.Create sample.machine
           (GarageObjectResource.mk sample.storage)
           (mkCreateRequest
              (sample.object (types.StringValue "site/index.html") types.StringNull
                 types.StringUnknown))
           (initial_response None))
    = [CallPutObject
         (s3.PutObjectInput.mk (Some "site") (Some "pages/index.html")
            "<html></html>" (Some ""))]
  /\ calls (GarageObjectResource.Create sample.machine
              (GarageObjectResource.mk sample.storage)
              (mkCreateRequest
                 (sample.object types.StringNull (types.StringValue "hello")
                    types.StringUnknown))
              (initial_response None))
     = [CallPutObject
          (s3.PutObjectInput.mk (Some "site") (Some "pages/index.html")
             "hello" (Some ""))]
  /\ (s3.PutObjectInput.ContentType
        (s3.PutObjectInput.mk (Some "site") (Some "pages/index.html") "hello" (Some ""))
      = Some ""
      /\ GarageObjectResource.Create sample.machine
           (GarageObjectResource.mk sample.storage)
           (mkCreateRequest
              (sample.object types.StringNull (types.StringValue "hello")
                 types.StringUnknown))
           (initial_response None)
         = (Returned
              (mkResponse
                 (Some (GarageObjectResourceModel.mk
                          (types.StringValue "site") (types.StringValue "pages/index.html")
                          types.StringNull (types.StringValue "hello")
                          (types.StringValue "")
                          (types.StringValue "9a0364b9e99bb480dd25e1f0284c8555")
                          (types.StringValue "site/pages/index.html")))
                 []),
            [CallPutObject
               (s3.PutObjectInput.mk (Some "site") (Some "pages/index.html")
                  "hello" (Some ""))])).
Proof.
  split; [|split].
  - apply (proj1 (GarageObjectResource_Create_unset_content_type sample.machine
                    (GarageObjectResource.mk sample.storage)
                    (mkCreateRequest
                       (sample.object (types.StringValue "site/index.html")
                          types.StringNull types.StringUnknown))
                    (initial_response None) eq_refl eq_refl)
             eq_refl "<html></html>" eq_refl).
  - apply (proj1 (proj2 (GarageObjectResource_Create_unset_content_type sample.machine
                    (GarageObjectResource.mk sample.storage)
                    (mkCreateRequest
                       (sample.object types.StringNull (types.StringValue "hello")
                          types.StringUnknown))
                    (initial_response None) eq_refl eq_refl))
             eq_refl eq_refl).
  - apply (proj2 (proj2 (GarageObjectResource_Create_unset_content_type sample.machine
                    (GarageObjectResource.mk sample.storage)
                    (mkCreateRequest
                       (sample.object types.StringNull (types.StringValue "hello")
                          types.StringUnknown))
                    (initial_response None) eq_refl eq_refl))
             (s3.PutObjectInput.mk (Some "site") (Some "pages/index.html")
                "hello" (Some ""))
             "9a0364b9e99bb480dd25e1f0284c8555" eq_refl eq_refl).
Defined.
